(** * Response parsing and aggregation pipeline of the code-review backend

    A shallow embedding of [backend/ai_service.py], [backend/multi_file_service.py]
    and [backend/models.py].

    Conventions of the embedding.
    - A Python [str] is a [string]; every [ascii] stands for one character
      (a code point below 256), so the string operations below are the Python
      ones restricted to that alphabet.
    - A Python [int] is a [Z]; a Python [float] is a [pyfloat].
    - A decoded JSON document is a [json] value; a Python [dict] with string
      keys is an association list read through its first binding of a key.
    - A raised exception is the [Raise] case of [result]; [try]/[except] is a
      [match] on it.
    - A call to the language model is the [Ask] node of [Prog]; what the model
      answers is the argument of the continuation. *)

From Stdlib Require Import ZArith List String Ascii Bool Lia Decimal DecimalString.
From Stdlib Require Import Floats Uint63.
Import ListNotations.
Open Scope string_scope.
Open Scope Z_scope.
Set Warnings "-register-all,-notation-for-abbreviation".

(** ** Python strings *)

Module Py.

(** [len(s)] *)
Definition len (s : string) : Z := Z.of_nat (String.length s).

(** How a slice bound is read: a negative bound counts from the end, and
    every bound is clipped to [0 .. len(s)]. *)
Definition clamp (n i : Z) : Z :=
  if i <? 0 then Z.max (i + n) 0 else Z.min i n.

(** [s[i:j]] *)
Definition slice (s : string) (i j : Z) : string :=
  let n := len s in
  let a := clamp n i in
  let b := clamp n j in
  if a <? b then substring (Z.to_nat a) (Z.to_nat (b - a)) s else "".

(** [s[:j]] *)
Definition slice_to (s : string) (j : Z) : string := slice s 0 j.

(** Index of the first occurrence of [sub] in [s], if any. *)
Fixpoint find_nat (sub s : string) : option nat :=
  if prefix sub s then Some 0%nat
  else match s with
       | EmptyString => None
       | String _ s' => option_map S (find_nat sub s')
       end.

(** Index of the last occurrence of [sub] in [s], if any. *)
Fixpoint rfind_nat (sub s : string) : option nat :=
  match s with
  | EmptyString => if prefix sub s then Some 0%nat else None
  | String _ s' =>
      match rfind_nat sub s' with
      | Some i => Some (S i)
      | None => if prefix sub s then Some 0%nat else None
      end
  end.

Definition index_or_minus_one (o : option nat) : Z :=
  match o with
  | Some i => Z.of_nat i
  | None => -1
  end.

(** [s.find(sub)] *)
Definition find (s sub : string) : Z := index_or_minus_one (find_nat sub s).

(** [s.rfind(sub)] *)
Definition rfind (s sub : string) : Z := index_or_minus_one (rfind_nat sub s).

(** [s.find(sub, start)] *)
Definition find_from (s sub : string) (start : Z) : Z :=
  let n := len s in
  if n <? start then -1
  else
    let a := clamp n start in
    match find_nat sub (slice s a n) with
    | Some i => a + Z.of_nat i
    | None => -1
    end.

(** [sub in s] *)
Definition contains (s sub : string) : bool :=
  match find_nat sub s with
  | Some _ => true
  | None => false
  end.

(** [s.startswith(p)] *)
Definition startswith (s p : string) : bool := prefix p s.

(** The characters [str.strip()] removes: what [str.isspace] accepts. *)
Definition isspace (c : ascii) : bool :=
  let n := nat_of_ascii c in
  ((9 <=? n) && (n <=? 13) || (28 <=? n) && (n <=? 32)
   || (n =? 133) || (n =? 160))%nat.

Fixpoint lstrip (s : string) : string :=
  match s with
  | EmptyString => EmptyString
  | String c s' => if isspace c then lstrip s' else s
  end.

Fixpoint rstrip (s : string) : string :=
  match s with
  | EmptyString => EmptyString
  | String c s' =>
      match rstrip s' with
      | EmptyString => if isspace c then EmptyString else String c EmptyString
      | r => String c r
      end
  end.

(** [s.strip()] *)
Definition strip (s : string) : string := rstrip (lstrip s).

(** [str.lower()] on one character: the capital letters are A-Z and the
    Latin-1 capitals. *)
Definition lower_char (c : ascii) : ascii :=
  let n := nat_of_ascii c in
  if ((65 <=? n) && (n <=? 90) || (192 <=? n) && (n <=? 214)
      || (216 <=? n) && (n <=? 222))%nat
  then ascii_of_nat (n + 32)
  else c.

(** [s.lower()] *)
Fixpoint lower (s : string) : string :=
  match s with
  | EmptyString => EmptyString
  | String c s' => String (lower_char c) (lower s')
  end.

(** [s.split(sep)] for a separator of one character. *)
Fixpoint split (sep : ascii) (s : string) : list string :=
  match s with
  | EmptyString => [EmptyString]
  | String c s' =>
      if Ascii.eqb c sep then EmptyString :: split sep s'
      else match split sep s' with
           | w :: ws => String c w :: ws
           | [] => [String c EmptyString]
           end
  end.

(** [sep.join(parts)] *)
Fixpoint join (sep : string) (parts : list string) : string :=
  match parts with
  | [] => EmptyString
  | [p] => p
  | p :: ps => p ++ sep ++ join sep ps
  end.

(** [l[:n]] on a list *)
Definition take {A : Type} (n : nat) (l : list A) : list A := firstn n l.

(** [str(n)] for an [int] *)
Definition str_of_int (z : Z) : string := NilZero.string_of_int (Z.to_int z).

(** The double quote, and the line feed. *)
Definition dq : string := String (ascii_of_nat 34) EmptyString.
Definition nl_char : ascii := ascii_of_nat 10.
Definition nl : string := String nl_char EmptyString.

End Py.

(** ** Python values *)

(** A Python [float]: the finite value [m * 2^e], an infinity or a NaN. *)
Inductive pyfloat : Type :=
| Finite (m e : Z)
| Infinite (negative : bool)
| NaN.

(** What [json.loads] builds: [None], [bool], [int], [float], [str], [list]
    and [dict] (keys in insertion order). *)
Inductive json : Type :=
| JNull
| JBool (b : bool)
| JInt (z : Z)
| JFloat (f : pyfloat)
| JStr (s : string)
| JList (l : list json)
| JDict (d : list (string * json)).

Definition dict : Type := list (string * json).

(** [type(v).__name__] *)
Definition type_name (v : json) : string :=
  match v with
  | JNull => "NoneType"
  | JBool _ => "bool"
  | JInt _ => "int"
  | JFloat _ => "float"
  | JStr _ => "str"
  | JList _ => "list"
  | JDict _ => "dict"
  end.

Module Dict.

(** [d.get(k)] *)
Fixpoint get (k : string) (d : dict) : option json :=
  match d with
  | [] => None
  | (k', v) :: d' => if String.eqb k k' then Some v else get k d'
  end.

(** [k in d] *)
Definition mem (k : string) (d : dict) : bool :=
  match get k d with
  | Some _ => true
  | None => false
  end.

(** [d[k] = v]: an existing key keeps its place, a new one goes last. *)
Fixpoint set (k : string) (v : json) (d : dict) : dict :=
  match d with
  | [] => [(k, v)]
  | (k', v') :: d' =>
      if String.eqb k k' then (k', v) :: d' else (k', v') :: set k v d'
  end.

(** [d.setdefault(k, v)], for the dictionary it leaves behind. *)
Definition setdefault (k : string) (v : json) (d : dict) : dict :=
  if mem k d then d else set k v d.

(** [d.get(k, default)] *)
Definition get_default (k : string) (default : json) (d : dict) : json :=
  match get k d with
  | Some v => v
  | None => default
  end.

End Dict.

(** ** Exceptions *)

(** The exception classes the pipeline meets, each with its [str(e)].
    [JSONDecodeError] and the [ValidationError] of the validator derive from
    [ValueError]; [OtherError] is an exception of any other class below
    [Exception], not derived from [ValueError], that a collaborator raises
    (the model client, the JSON decoder on a document nested too deep). *)
Inductive exn : Type :=
| ValueError (msg : string)
| JSONDecodeError (msg : string)
| AttributeError (msg : string)
| TypeError (msg : string)
| ValidationError (msg : string)
| OverflowError (msg : string)
| ZeroDivisionError (msg : string)
| OtherError (class_name msg : string).

(** [str(e)] *)
Definition exn_str (e : exn) : string :=
  match e with
  | ValueError m | JSONDecodeError m | AttributeError m | TypeError m
  | ValidationError m | OverflowError m | ZeroDivisionError m => m
  | OtherError _ m => m
  end.

(** [isinstance(e, json.JSONDecodeError)] *)
Definition is_JSONDecodeError (e : exn) : bool :=
  match e with
  | JSONDecodeError _ => true
  | _ => false
  end.

(** [isinstance(e, (json.JSONDecodeError, ValueError))] *)
Definition is_decode_or_value_error (e : exn) : bool :=
  match e with
  | JSONDecodeError _ | ValueError _ | ValidationError _ => true
  | _ => false
  end.

Inductive result (A : Type) : Type :=
| Ok (a : A)
| Raise (e : exn).
Arguments Ok {A} a.
Arguments Raise {A} e.

Definition bind {A B : Type} (r : result A) (f : A -> result B) : result B :=
  match r with
  | Ok a => f a
  | Raise e => Raise e
  end.

Declare Scope result_scope.
Delimit Scope result_scope with result.
Notation "x <- r ;; k" := (bind r (fun x => k))
  (at level 61, r at next level, right associativity) : result_scope.

(** [[f(x) for x in l]], stopping at the first exception. *)
Fixpoint map_result {A B : Type} (f : A -> result B) (l : list A) : result (list B) :=
  match l with
  | [] => Ok []
  | x :: l' =>
      match f x with
      | Ok y =>
          match map_result f l' with
          | Ok ys => Ok (y :: ys)
          | Raise e => Raise e
          end
      | Raise e => Raise e
      end
  end.

(** [x.attr] on a value that has no such attribute. *)
Definition no_attribute (v : json) (attr : string) : exn :=
  AttributeError ("'" ++ type_name v ++ "' object has no attribute '" ++ attr ++ "'").

(** The items a [for] loop or a comprehension draws from [v]: the elements
    of a list, the keys of a dictionary, the characters of a string. *)
Definition iterate (v : json) : result (list json) :=
  match v with
  | JList l => Ok l
  | JDict d => Ok (map (fun kv => JStr (fst kv)) d)
  | JStr s => Ok (map (fun c => JStr (String c EmptyString)) (list_ascii_of_string s))
  | _ => Raise (TypeError ("'" ++ type_name v ++ "' object is not iterable"))
  end.

(** ** The data model ([models.py]) *)

Inductive SupportedLanguage : Type :=
| PYTHON | TYPESCRIPT | JAVASCRIPT | JAVA | CPP | CSHARP.

(** [SupportedLanguage.X.value] *)
Definition language_value (l : SupportedLanguage) : string :=
  match l with
  | PYTHON => "python"
  | TYPESCRIPT => "typescript"
  | JAVASCRIPT => "javascript"
  | JAVA => "java"
  | CPP => "cpp"
  | CSHARP => "csharp"
  end.

Module FileInfo.
Record t : Type := make
  { filename : string;
    content : string;
    language : SupportedLanguage }.
End FileInfo.

Module FeedbackItem.
Record t : Type := make
  { category : string;
    severity : string;
    line : Z;
    message : string;
    suggestion : string;
    filename : option string }.
End FeedbackItem.

Module FileFeedback.
Record t : Type := make
  { filename : string;
    feedback : list FeedbackItem.t;
    summary : string;
    score : Z }.
End FileFeedback.

Module MultiFileReviewResponse.
Record t : Type := make
  { project_name : string;
    files : list FileFeedback.t;
    cross_file_issues : list FeedbackItem.t;
    overall_summary : string;
    overall_score : Z;
    total_files : Z;
    total_issues : Z }.
End MultiFileReviewResponse.

(** ** The model client *)

(** What one [generate_content] call gives back: a response whose [text] is
    a string or [None], or an exception. *)
Definition reply : Type := result (option string).

(** A computation that may call the model: it ends with a value, or sends a
    prompt and goes on with the reply. *)
Inductive Prog (A : Type) : Type :=
| Ret (a : A)
| Ask (prompt : string) (k : reply -> Prog A).
Arguments Ret {A} a.
Arguments Ask {A} prompt k.

Fixpoint pbind {A B : Type} (p : Prog A) (f : A -> Prog B) : Prog B :=
  match p with
  | Ret a => f a
  | Ask q k => Ask q (fun r => pbind (k r) f)
  end.

(** One run against a model client: the client is a transition on some
    state of its own, so that two calls with one prompt may differ.  The
    run gives the value, the replies received (oldest first) and the final
    state of the client. *)
Fixpoint run {W A : Type} (client : W -> string -> reply * W) (w : W) (p : Prog A)
  : A * list reply * W :=
  match p with
  | Ret a => (a, [], w)
  | Ask q k =>
      let '(r, w1) := client w q in
      let '(a, rs, w2) := run client w1 (k r) in
      (a, r :: rs, w2)
  end.

(** The value a run ends with, and the replies it received. *)
Definition outcome {W A : Type} (x : A * list reply * W) : A := fst (fst x).
Definition replies {W A : Type} (x : A * list reply * W) : list reply := snd (fst x).
Definition final_state {W A : Type} (x : A * list reply * W) : W := snd x.

(** The prompts sent during a run, oldest first. *)
Fixpoint prompts {W A : Type} (client : W -> string -> reply * W) (w : W) (p : Prog A)
  : list string :=
  match p with
  | Ret _ => []
  | Ask q k =>
      let '(r, w1) := client w q in
      q :: prompts client w1 (k r)
  end.

(** ** Float arithmetic of the score average *)

Module PyFloat.

(** The integer nearest to [a / b] for [0 < b], a tie going to the even
    one. *)
Definition round_half_even (a b : Z) : Z :=
  let q := a / b in
  let r := a mod b in
  if 2 * r <? b then q
  else if b <? 2 * r then q + 1
  else if Z.even q then q else q + 1.

(** [2^d <= a / b]  for [0 < a] and [0 < b]. *)
Definition reaches (a b d : Z) : bool :=
  if 0 <=? d then b * 2 ^ d <=? a else b <=? a * 2 ^ (- d).

(** The integer part of the binary logarithm of [a / b], for [0 < a] and
    [0 < b]. *)
Definition floor_log2_quot (a b : Z) : Z :=
  let d := Z.log2 a - Z.log2 b in
  if reaches a b d then d else d - 1.

(** The binary64 format: 53 bits of mantissa, the smallest exponent of a
    unit in the last place, and the first power of two out of range. *)
Definition mantissa_bits : Z := 53.
Definition emin : Z := -1074.
Definition emax : Z := 1024.

(** The binary64 number nearest to [a / b] (for [0 < a], [0 < b]) as a
    mantissa and an exponent, before the range check. *)
Definition nearest (a b : Z) : Z * Z :=
  let e := Z.max (floor_log2_quot a b - (mantissa_bits - 1)) emin in
  let m := if 0 <=? e then round_half_even a (b * 2 ^ e)
           else round_half_even (a * 2 ^ (- e)) b in
  (m, e).

(** [a / b] on two [int]s: the correctly rounded quotient, an
    [OverflowError] beyond the range of a float.  The sign of a zero is not
    kept. *)
Definition truediv (a b : Z) : result pyfloat :=
  if b =? 0 then Raise (ZeroDivisionError "division by zero")
  else if a =? 0 then Ok (Finite 0 0)
  else
    let '(m, e) := nearest (Z.abs a) (Z.abs b) in
    if (0 <=? e) && (2 ^ emax <=? m * 2 ^ e)
    then Raise (OverflowError "integer division result too large for a float")
    else Ok (Finite (Z.sgn a * Z.sgn b * m) e).

(** [round(x)] on a [float] *)
Definition round (x : pyfloat) : result Z :=
  match x with
  | Finite m e =>
      Ok (if 0 <=? e then m * 2 ^ e else round_half_even m (2 ^ (- e)))
  | Infinite _ => Raise (OverflowError "cannot convert float infinity to integer")
  | NaN => Raise (ValueError "cannot convert float NaN to integer")
  end.

End PyFloat.

(** ** Validation of the records ([pydantic.BaseModel]) *)

Section Validation.

(** What the validator makes of an input that is not of the field's own
    type (a number for a [str] field, a string or a float for an [int]
    field), and the text of the [ValidationError] of a class for given
    keyword arguments. *)
Variable lax_str : json -> option string.
Variable lax_int : json -> option Z.
Variable validation_error : string -> dict -> string.

Definition validate_str (v : json) : option string :=
  match v with
  | JStr s => Some s
  | _ => lax_str v
  end.

Definition validate_int (v : json) : option Z :=
  match v with
  | JInt z => Some z
  | _ => lax_int v
  end.

(** A field of type [Optional[str]] with default [None]. *)
Definition validate_optional_str (o : option json) : option (option string) :=
  match o with
  | None => Some None
  | Some JNull => Some None
  | Some v => option_map Some (validate_str v)
  end.

Definition required {A : Type} (validate : json -> option A) (k : string) (kw : dict)
  : option A :=
  match Dict.get k kw with
  | Some v => validate v
  | None => None
  end.

(** The constructor [FeedbackItem] called on the keyword arguments [kw]:
    unknown keys are ignored. *)
Definition FeedbackItem_new (kw : dict) : result FeedbackItem.t :=
  match required validate_str "category" kw,
        required validate_str "severity" kw,
        required validate_int "line" kw,
        required validate_str "message" kw,
        required validate_str "suggestion" kw,
        validate_optional_str (Dict.get "filename" kw) with
  | Some c, Some s, Some l, Some m, Some g, Some f =>
      Ok (FeedbackItem.make c s l m g f)
  | _, _, _, _, _, _ =>
      Raise (ValidationError (validation_error "FeedbackItem" kw))
  end.

(** [FileFeedback(filename=.., feedback=.., summary=.., score=..)] with a
    list of [FeedbackItem] instances. *)
Definition FileFeedback_new (filename : string) (feedback : list FeedbackItem.t)
    (summary score : json) : result FileFeedback.t :=
  match validate_str summary, validate_int score with
  | Some s, Some n => Ok (FileFeedback.make filename feedback s n)
  | _, _ =>
      Raise (ValidationError
               (validation_error "FileFeedback"
                  [("filename", JStr filename); ("summary", summary); ("score", score)]))
  end.

End Validation.

(** The lines of a text, put together: ["\n".join(lines)]. *)
Definition text_of_lines (lines : list string) : string := Py.join Py.nl lines.

(** [response.text.strip()] when [response.text] is [None]. *)
Definition none_has_no_strip : exn := no_attribute JNull "strip".

(** ** [AIService] ([ai_service.py]) *)

Module AIService.

Section WithDecoder.

Variable json_loads : string -> result json.

Definition prompt (code language : string) : string :=
  text_of_lines
    ["";
     "        You are an expert code reviewer. Analyze the following " ++ language ++ " code and provide structured feedback.";
     "";
     "        Code to analyze:";
     "        ```" ++ language;
     "        " ++ code;
     "        ```";
     "";
     "        Provide your analysis in the following JSON format:";
     "        {";
     "            " ++ Py.dq ++ "feedback" ++ Py.dq ++ ": [";
     "                {";
     "                    " ++ Py.dq ++ "category" ++ Py.dq ++ ": " ++ Py.dq ++ "security|performance|logic|style" ++ Py.dq ++ ",";
     "                    " ++ Py.dq ++ "severity" ++ Py.dq ++ ": " ++ Py.dq ++ "high|medium|low" ++ Py.dq ++ ",";
     "                    " ++ Py.dq ++ "line" ++ Py.dq ++ ": number,";
     "                    " ++ Py.dq ++ "message" ++ Py.dq ++ ": " ++ Py.dq ++ "Brief description of the issue" ++ Py.dq ++ ",";
     "                    " ++ Py.dq ++ "suggestion" ++ Py.dq ++ ": " ++ Py.dq ++ "Specific actionable recommendation" ++ Py.dq;
     "                }";
     "            ],";
     "            " ++ Py.dq ++ "summary" ++ Py.dq ++ ": " ++ Py.dq ++ "Overall assessment of the code" ++ Py.dq ++ ",";
     "            " ++ Py.dq ++ "overall_score" ++ Py.dq ++ ": number_between_1_and_10";
     "        }";
     "";
     "        Categories:";
     "        - security: Potential vulnerabilities, injection risks, authentication issues";
     "        - performance: Optimization opportunities, efficiency improvements, resource usage";
     "        - logic: Potential bugs, edge cases, logical errors, error handling";
     "        - style: Code formatting, naming conventions, maintainability, best practices";
     "";
     "        Severity levels:";
     "        - high: Critical issues that must be fixed";
     "        - medium: Important issues that should be addressed";
     "        - low: Minor improvements or suggestions";
     "";
     "        Focus on providing specific, actionable feedback with line numbers where applicable.";
     "        "].

(** The extraction of the JSON text from the stripped reply. *)
Definition extract_json (response_text : string) : result string :=
  if Py.contains response_text "```json" then
    let json_start := Py.find response_text "```json" + 7 in
    let json_end := Py.find_from response_text "```" json_start in
    Ok (Py.strip (Py.slice response_text json_start json_end))
  else if Py.startswith response_text "{" then
    Ok response_text
  else
    let start_brace := Py.find response_text "{" in
    let end_brace := Py.rfind response_text "}" + 1 in
    if negb (start_brace =? -1) && negb (end_brace =? 0)
    then Ok (Py.slice response_text start_brace end_brace)
    else Raise (ValueError "No valid JSON found in response").

(** The five [item.setdefault] calls on one feedback item. *)
Definition fill_item (item : json) : result json :=
  match item with
  | JDict d =>
      let d := Dict.setdefault "line" (JInt 1) d in
      let d := Dict.setdefault "category" (JStr "style") d in
      let d := Dict.setdefault "severity" (JStr "medium") d in
      let d := Dict.setdefault "message" (JStr "Issue identified") d in
      let d := Dict.setdefault "suggestion" (JStr "Consider reviewing this code") d in
      Ok (JDict d)
  | _ => Raise (no_attribute item "setdefault")
  end.

(** The body of the [try] block, from the reply on. *)
Definition analyze_code_try (r : reply) : result json :=
  (response <- r ;;
   response_text <- match response with
                    | Some t => Ok (Py.strip t)
                    | None => Raise none_has_no_strip
                    end ;;
   json_content <- extract_json response_text ;;
   result <- json_loads json_content ;;
   d <- match result with
        | JDict d =>
            if Dict.mem "feedback" d then Ok d
            else Raise (ValueError "Invalid response structure")
        | _ => Raise (ValueError "Invalid response structure")
        end ;;
   let d := match Dict.get "feedback" d with
            | Some (JList _) => d
            | _ => Dict.set "feedback" (JList []) d
            end in
   let d := Dict.setdefault "summary" (JStr "Code analysis completed") d in
   let d := Dict.setdefault "overall_score" (JInt 5) d in
   items <- iterate (Dict.get_default "feedback" JNull d) ;;
   items <- map_result fill_item items ;;
   Ok (JDict (Dict.set "feedback" (JList items) d)))%result.

(** The record of the handler of [json.JSONDecodeError]. *)
Definition parse_issue_record : json :=
  JDict
    [("feedback",
      JList
        [JDict
           [("category", JStr "style");
            ("severity", JStr "medium");
            ("line", JInt 1);
            ("message", JStr "Unable to parse AI response, but code was analyzed");
            ("suggestion", JStr "Please try again or check the code syntax")]]);
     ("summary", JStr "Analysis completed with parsing issues");
     ("overall_score", JInt 5)].

(** The record of the handler of [Exception]. *)
Definition error_record (e : exn) : json :=
  JDict
    [("feedback",
      JList
        [JDict
           [("category", JStr "logic");
            ("severity", JStr "low");
            ("line", JInt 1);
            ("message", JStr ("Analysis error: " ++ exn_str e));
            ("suggestion", JStr "Please verify your code and try again")]]);
     ("summary", JStr "Unable to complete full analysis");
     ("overall_score", JInt 5)].

(** What [analyze_code] returns once the model has answered. *)
Definition analyze_code_result (r : reply) : json :=
  match analyze_code_try r with
  | Ok result => result
  | Raise e => if is_JSONDecodeError e then parse_issue_record else error_record e
  end.

Definition analyze_code (code language : string) : Prog json :=
  Ask (prompt code language) (fun r => Ret (analyze_code_result r)).

End WithDecoder.

Definition extension_map : list (string * SupportedLanguage) :=
  [("py", PYTHON);
   ("ts", TYPESCRIPT);
   ("tsx", TYPESCRIPT);
   ("js", JAVASCRIPT);
   ("jsx", JAVASCRIPT);
   ("java", JAVA);
   ("cpp", CPP);
   ("cc", CPP);
   ("cxx", CPP);
   ("c", CPP);
   ("h", CPP);
   ("hpp", CPP);
   ("cs", CSHARP)].

(** [extension_map.get(extension)] *)
Fixpoint map_get (k : string) (m : list (string * SupportedLanguage))
  : option SupportedLanguage :=
  match m with
  | [] => None
  | (k', v) :: m' => if String.eqb k k' then Some v else map_get k m'
  end.

(** The extension the lookup is made with; [split] gives at least one part,
    so [[-1]] always exists. *)
Definition extension_of (filename : string) : string :=
  if Py.contains filename "."
  then last (Py.split "." (Py.lower filename)) EmptyString
  else EmptyString.

Definition detect_language_from_filename (filename : string) : SupportedLanguage :=
  let extension := extension_of filename in
  match map_get extension extension_map with
  | Some l => l
  | None => PYTHON
  end.

End AIService.

(** [sum(l)] on a list of [int]s *)
Definition py_sum (l : list Z) : Z := fold_left Z.add l 0.

(** [len(l)] on a list *)
Definition py_len {A : Type} (l : list A) : Z := Z.of_nat (List.length l).

(** ** [MultiFileAnalysisService] ([multi_file_service.py]) *)

Module MultiFileAnalysisService.

Section WithCollaborators.

(** The collaborators: the JSON decoder, the validator's treatment of inputs
    of a foreign type and its error text, and how an f-string prints a
    [SupportedLanguage]. *)
Variable json_loads : string -> result json.
Variable lax_str : json -> option string.
Variable lax_int : json -> option Z.
Variable validation_error : string -> dict -> string.
Variable format_language : SupportedLanguage -> string.

(** The record [parse_ai_response] falls back on. *)
Definition fallback_record : json :=
  JDict
    [("feedback",
      JList
        [JDict
           [("category", JStr "style");
            ("severity", JStr "medium");
            ("line", JInt 1);
            ("message", JStr "Unable to parse analysis response");
            ("suggestion", JStr "Please try again or check file syntax")]]);
     ("summary", JStr "Analysis completed with parsing issues");
     ("score", JInt 5)].

(** The extraction of the JSON text from the stripped reply. *)
Definition extract_json (response_text : string) : result string :=
  if Py.contains response_text "```json" then
    let json_start := Py.find response_text "```json" + 7 in
    let json_end := Py.find_from response_text "```" json_start in
    Ok (Py.strip (Py.slice response_text json_start json_end))
  else if Py.startswith response_text "{" || Py.startswith response_text "[" then
    Ok response_text
  else
    let start_brace := Py.find response_text "{" in
    let end_brace := Py.rfind response_text "}" + 1 in
    if negb (start_brace =? -1) && negb (end_brace =? 0)
    then Ok (Py.slice response_text start_brace end_brace)
    else Raise (ValueError "No valid JSON found").

(** The body of the [try] block of [parse_ai_response]; the argument is
    [response.text], which the client may leave at [None]. *)
Definition parse_ai_response_try (response_text : option string) : result json :=
  (response_text <- match response_text with
                    | Some t => Ok (Py.strip t)
                    | None => Raise none_has_no_strip
                    end ;;
   json_content <- extract_json response_text ;;
   json_loads json_content)%result.

Definition parse_ai_response (response_text : option string) : result json :=
  match parse_ai_response_try response_text with
  | Ok v => Ok v
  | Raise e => if is_decode_or_value_error e then Ok fallback_record else Raise e
  end.

Definition create_file_context (all_files : list FileInfo.t) (current_filename : string)
  : string :=
  let context_parts :=
    map (fun file_info =>
           let lines := Py.take 10 (Py.split Py.nl_char (FileInfo.content file_info)) in
           "File: " ++ FileInfo.filename file_info ++ Py.nl ++ Py.join Py.nl lines)
        (filter (fun file_info =>
                   negb (String.eqb (FileInfo.filename file_info) current_filename))
                all_files) in
  Py.join (Py.nl ++ Py.nl) context_parts.

Definition single_file_prompt (file_info : FileInfo.t) (file_context : string) : string :=
  text_of_lines
    ["";
     "        You are an expert code reviewer analyzing a file in a larger codebase.";
     "        ";
     "        Current file: " ++ FileInfo.filename file_info;
     "        Language: " ++ format_language (FileInfo.language file_info);
     "        ";
     "        File content:";
     "        ```" ++ format_language (FileInfo.language file_info);
     "        " ++ FileInfo.content file_info;
     "        ```";
     "        ";
     "        Context from other files in the project:";
     "        " ++ file_context;
     "        ";
     "        Provide analysis in JSON format:";
     "        {";
     "            " ++ Py.dq ++ "feedback" ++ Py.dq ++ ": [";
     "                {";
     "                    " ++ Py.dq ++ "category" ++ Py.dq ++ ": " ++ Py.dq ++ "security|performance|logic|style" ++ Py.dq ++ ",";
     "                    " ++ Py.dq ++ "severity" ++ Py.dq ++ ": " ++ Py.dq ++ "high|medium|low" ++ Py.dq ++ ",";
     "                    " ++ Py.dq ++ "line" ++ Py.dq ++ ": number,";
     "                    " ++ Py.dq ++ "message" ++ Py.dq ++ ": " ++ Py.dq ++ "Brief description" ++ Py.dq ++ ",";
     "                    " ++ Py.dq ++ "suggestion" ++ Py.dq ++ ": " ++ Py.dq ++ "Actionable recommendation" ++ Py.dq ++ ",";
     "                    " ++ Py.dq ++ "filename" ++ Py.dq ++ ": " ++ Py.dq ++ FileInfo.filename file_info ++ Py.dq;
     "                }";
     "            ],";
     "            " ++ Py.dq ++ "summary" ++ Py.dq ++ ": " ++ Py.dq ++ "File-specific assessment" ++ Py.dq ++ ",";
     "            " ++ Py.dq ++ "score" ++ Py.dq ++ ": number_between_1_and_10";
     "        }";
     "        ";
     "        Focus on:";
     "        - File-specific issues";
     "        - Dependencies and imports";
     "        - Code organization within this file";
     "        - Potential integration issues with other files";
     "        "].

(** The dictionary display that copies [item] and then sets ["filename"]. *)
Definition with_filename (filename : string) (item : json) : result dict :=
  match item with
  | JDict d => Ok (Dict.set "filename" (JStr filename) d)
  | _ => Raise (TypeError ("'" ++ type_name item ++ "' object is not a mapping"))
  end.

(** One element of the comprehension that builds [feedback_items]. *)
Definition feedback_item_with_filename (filename : string) (item : json)
  : result FeedbackItem.t :=
  (kw <- with_filename filename item ;;
   FeedbackItem_new lax_str lax_int validation_error kw)%result.

(** The body of the [try] block of [analyze_single_file], from the reply
    on. *)
Definition analyze_single_file_try (file_info : FileInfo.t) (r : reply)
  : result FileFeedback.t :=
  let filename := FileInfo.filename file_info in
  (response <- r ;;
   result <- parse_ai_response response ;;
   d <- match result with
        | JDict d => Ok d
        | _ => Raise (no_attribute result "get")
        end ;;
   items <- iterate (Dict.get_default "feedback" (JList []) d) ;;
   feedback_items <- map_result (feedback_item_with_filename filename) items ;;
   FileFeedback_new lax_str lax_int validation_error filename feedback_items
     (Dict.get_default "summary" (JStr ("Analysis for " ++ filename)) d)
     (Dict.get_default "score" (JInt 5) d))%result.

(** The record of the handler of [analyze_single_file]. *)
Definition single_file_error (file_info : FileInfo.t) (e : exn) : FileFeedback.t :=
  let filename := FileInfo.filename file_info in
  FileFeedback.make filename
    [FeedbackItem.make "logic" "low" 1
       ("Analysis error: " ++ exn_str e)
       "Please verify file content and try again"
       (Some filename)]
    ("Unable to analyze " ++ filename)
    5.

(** What [analyze_single_file] returns once the model has answered. *)
Definition analyze_single_file_result (file_info : FileInfo.t) (r : reply)
  : FileFeedback.t :=
  match analyze_single_file_try file_info r with
  | Ok file_feedback => file_feedback
  | Raise e => single_file_error file_info e
  end.

Definition analyze_single_file (file_info : FileInfo.t) (all_files : list FileInfo.t)
  : Prog FileFeedback.t :=
  let file_context := create_file_context all_files (FileInfo.filename file_info) in
  Ask (single_file_prompt file_info file_context)
      (fun r => Ret (analyze_single_file_result file_info r)).

Definition cross_file_prompt (files : list FileInfo.t) : string :=
  let files_summary :=
    Py.join Py.nl
      (map (fun f =>
              "File: " ++ FileInfo.filename f ++ " ("
                ++ format_language (FileInfo.language f) ++ ")" ++ Py.nl
                ++ Py.slice_to (FileInfo.content f) 500 ++ "..." ++ Py.nl)
           files) in
  text_of_lines
    ["";
     "        Analyze the following codebase for cross-file issues and architectural problems.";
     "        ";
     "        Files in the project:";
     "        " ++ files_summary;
     "        ";
     "        Look for:";
     "        - Missing imports or dependencies";
     "        - Circular dependencies";
     "        - Inconsistent naming conventions across files";
     "        - Architecture violations";
     "        - Duplicate code across files";
     "        - Missing interfaces or contracts";
     "        ";
     "        Return JSON array of cross-file issues:";
     "        [";
     "            {";
     "                " ++ Py.dq ++ "category" ++ Py.dq ++ ": " ++ Py.dq ++ "architecture|dependencies|style|logic" ++ Py.dq ++ ",";
     "                " ++ Py.dq ++ "severity" ++ Py.dq ++ ": " ++ Py.dq ++ "high|medium|low" ++ Py.dq ++ ",";
     "                " ++ Py.dq ++ "line" ++ Py.dq ++ ": 1,";
     "                " ++ Py.dq ++ "message" ++ Py.dq ++ ": " ++ Py.dq ++ "Cross-file issue description" ++ Py.dq ++ ",";
     "                " ++ Py.dq ++ "suggestion" ++ Py.dq ++ ": " ++ Py.dq ++ "How to fix across multiple files" ++ Py.dq ++ ",";
     "                " ++ Py.dq ++ "filename" ++ Py.dq ++ ": " ++ Py.dq ++ "multiple_files" ++ Py.dq;
     "            }";
     "        ]";
     "        "].

(** The constructor [FeedbackItem] called on the unpacked [item]. *)
Definition feedback_item_of (item : json) : result FeedbackItem.t :=
  match item with
  | JDict kw => FeedbackItem_new lax_str lax_int validation_error kw
  | _ =>
      Raise (TypeError ("models.FeedbackItem() argument after ** must be a mapping, not "
                          ++ type_name item))
  end.

(** The body of the [try] block of [analyze_cross_file_dependencies], from
    the reply on. *)
Definition cross_file_try (r : reply) : result (list FeedbackItem.t) :=
  (response <- r ;;
   result <- parse_ai_response response ;;
   match result with
   | JList l => map_result feedback_item_of l
   | JDict d =>
       match Dict.get "feedback" d with
       | Some v => items <- iterate v ;; map_result feedback_item_of items
       | None => Ok []
       end
   | _ => Ok []
   end)%result.

(** The list of the handler of [analyze_cross_file_dependencies]. *)
Definition cross_file_error (e : exn) : list FeedbackItem.t :=
  [FeedbackItem.make "logic" "low" 1
     ("Cross-file analysis error: " ++ exn_str e)
     "Manual review recommended for cross-file dependencies"
     (Some "multiple_files")].

Definition cross_file_result (r : reply) : list FeedbackItem.t :=
  match cross_file_try r with
  | Ok items => items
  | Raise e => cross_file_error e
  end.

Definition analyze_cross_file_dependencies (files : list FileInfo.t)
  : Prog (list FeedbackItem.t) :=
  if py_len files <? 2 then Ret []
  else Ask (cross_file_prompt files) (fun r => Ret (cross_file_result r)).

(** [len([f for f in items if f.severity == "high"])] *)
Definition count_high (items : list FeedbackItem.t) : Z :=
  py_len (filter (fun f => String.eqb (FeedbackItem.severity f) "high") items).

Definition generate_overall_summary (file_analyses : list FileFeedback.t)
    (cross_file_issues : list FeedbackItem.t) : string :=
  let total_issues :=
    py_sum (map (fun fa => py_len (FileFeedback.feedback fa)) file_analyses)
    + py_len cross_file_issues in
  let high_severity :=
    py_sum (map (fun fa => count_high (FileFeedback.feedback fa)) file_analyses)
    + count_high cross_file_issues in
  if total_issues =? 0 then
    "Excellent codebase! No significant issues found across all files."
  else if 0 <? high_severity then
    "Codebase needs attention: " ++ Py.str_of_int total_issues
      ++ " total issues found, including " ++ Py.str_of_int high_severity
      ++ " high-severity issues."
  else
    "Good codebase with room for improvement: " ++ Py.str_of_int total_issues
      ++ " minor to medium issues found.".

Definition calculate_overall_score (file_analyses : list FileFeedback.t) : result Z :=
  match file_analyses with
  | [] => Ok 5
  | _ =>
      (avg_score <- PyFloat.truediv (py_sum (map FileFeedback.score file_analyses))
                                    (py_len file_analyses) ;;
       PyFloat.round avg_score)%result
  end.

(** The [for] loop of [analyze_codebase], with its two accumulators. *)
Fixpoint analyze_files (remaining files : list FileInfo.t)
    (file_analyses : list FileFeedback.t) (all_feedback : list FeedbackItem.t)
  : Prog (list FileFeedback.t * list FeedbackItem.t) :=
  match remaining with
  | [] => Ret (file_analyses, all_feedback)
  | file_info :: remaining' =>
      pbind (analyze_single_file file_info files)
            (fun file_analysis =>
               analyze_files remaining' files
                 (file_analyses ++ [file_analysis])
                 (all_feedback ++ FileFeedback.feedback file_analysis))
  end.

Definition analyze_codebase (files : list FileInfo.t) (project_name : string)
  : Prog (result MultiFileReviewResponse.t) :=
  pbind (analyze_files files files [] [])
        (fun '(file_analyses, all_feedback) =>
  pbind (analyze_cross_file_dependencies files)
        (fun cross_file_issues =>
  let all_feedback := (all_feedback ++ cross_file_issues)%list in
  let overall_summary := generate_overall_summary file_analyses cross_file_issues in
  Ret (overall_score <- calculate_overall_score file_analyses ;;
       Ok (MultiFileReviewResponse.make project_name file_analyses cross_file_issues
             overall_summary overall_score (py_len files) (py_len all_feedback)))%result)).

End WithCollaborators.

End MultiFileAnalysisService.

(** ** The endpoints ([main.py]) *)

Module CodeSubmission.
Record t : Type := make
  { code : string;
    language : SupportedLanguage }.
End CodeSubmission.

Module MultiFileSubmission.
Record t : Type := make
  { files : list FileInfo.t;
    project_name : option string }.
End MultiFileSubmission.

Module CodeReviewResponse.
Record t : Type := make
  { feedback : list FeedbackItem.t;
    summary : string;
    overall_score : Z }.
End CodeReviewResponse.

(** A file of a multipart upload: its name, if the client gave one, and the
    bytes that [read] returns. *)
Module UploadFile.
Record t : Type := make
  { filename : option string;
    data : list Byte.byte }.
End UploadFile.

Module Main.

(** What an endpoint ends with: the value it returns, or the
    [HTTPException] it raises. *)
Inductive http (A : Type) : Type :=
| Response (a : A)
| HTTPException (status_code : Z) (detail : string).
Arguments Response {A} a.
Arguments HTTPException {A} status_code detail.

Section WithCollaborators.

Variable json_loads : string -> result json.
Variable lax_str : json -> option string.
Variable lax_int : json -> option Z.
Variable validation_error : string -> dict -> string.
Variable format_language : SupportedLanguage -> string.

(** [content.decode('utf-8')], [None] standing for [UnicodeDecodeError]. *)
Variable decode_utf8 : list Byte.byte -> option string.

(** [not s.strip()] *)
Definition blank (s : string) : bool := String.eqb (Py.strip s) EmptyString.

(** [analysis[k]]; [analyze_code] returns a dictionary, on which a missing
    key is a [KeyError]. *)
Definition subscript (analysis : json) (k : string) : result json :=
  match analysis with
  | JDict d =>
      match Dict.get k d with
      | Some v => Ok v
      | None => Raise (OtherError "KeyError" ("'" ++ k ++ "'"))
      end
  | JList _ => Raise (TypeError "list indices must be integers or slices, not str")
  | JStr _ => Raise (TypeError "string indices must be integers, not 'str'")
  | _ => Raise (TypeError ("'" ++ type_name analysis ++ "' object is not subscriptable"))
  end.

(** [CodeReviewResponse(feedback=.., summary=.., overall_score=..)] with a
    list of [FeedbackItem] instances. *)
Definition CodeReviewResponse_new (feedback : list FeedbackItem.t)
    (summary overall_score : json) : result CodeReviewResponse.t :=
  match validate_str lax_str summary, validate_int lax_int overall_score with
  | Some s, Some n => Ok (CodeReviewResponse.make feedback s n)
  | _, _ =>
      Raise (ValidationError
               (validation_error "CodeReviewResponse"
                  [("summary", summary); ("overall_score", overall_score)]))
  end.

(** The body of the [try] block of [review_code], from the analysis on. *)
Definition review_code_try (analysis : json) : result CodeReviewResponse.t :=
  (feedback <- subscript analysis "feedback" ;;
   items <- iterate feedback ;;
   feedback_items <-
     map_result
       (MultiFileAnalysisService.feedback_item_of lax_str lax_int validation_error)
       items ;;
   summary <- subscript analysis "summary" ;;
   overall_score <- subscript analysis "overall_score" ;;
   CodeReviewResponse_new feedback_items summary overall_score)%result.

Definition review_code_result (analysis : json) : http CodeReviewResponse.t :=
  match review_code_try analysis with
  | Ok response => Response response
  | Raise e => HTTPException 500 ("Error analyzing code: " ++ exn_str e)
  end.

(** [review_code]; [available] tells whether [ai_service] was built. *)
Definition review_code (available : bool) (submission : CodeSubmission.t)
  : Prog (http CodeReviewResponse.t) :=
  if negb available then
    Ret (HTTPException 500
           "AI service not available. Please check API key configuration.")
  else if blank (CodeSubmission.code submission) then
    Ret (HTTPException 400 "Code cannot be empty")
  else
    pbind (AIService.analyze_code json_loads
             (CodeSubmission.code submission)
             (language_value (CodeSubmission.language submission)))
          (fun analysis => Ret (review_code_result analysis)).

(** [value or default] on an optional string *)
Definition or_default (value : option string) (default : string) : string :=
  match value with
  | Some (String c s) => String c s
  | _ => default
  end.

(** What becomes of the value or the exception of [analyze_codebase]. *)
Definition codebase_result (context : string)
    (r : result MultiFileReviewResponse.t) : http MultiFileReviewResponse.t :=
  match r with
  | Ok analysis => Response analysis
  | Raise e => HTTPException 500 (context ++ exn_str e)
  end.

(** [review_codebase]; [available] tells whether [multi_file_service] was
    built. *)
Definition review_codebase (available : bool) (submission : MultiFileSubmission.t)
  : Prog (http MultiFileReviewResponse.t) :=
  let files := MultiFileSubmission.files submission in
  if negb available then
    Ret (HTTPException 500
           "Multi-file analysis service not available. Please check API key configuration.")
  else
    match files with
    | [] => Ret (HTTPException 400 "At least one file must be provided")
    | _ =>
        match find (fun file_info => blank (FileInfo.content file_info)) files with
        | Some file_info =>
            Ret (HTTPException 400
                   ("File " ++ FileInfo.filename file_info ++ " cannot be empty"))
        | None =>
            pbind (MultiFileAnalysisService.analyze_codebase
                     json_loads lax_str lax_int validation_error format_language
                     files
                     (or_default (MultiFileSubmission.project_name submission)
                                 "Unnamed Project"))
                  (fun r => Ret (codebase_result "Error analyzing codebase: " r))
        end
    end.

(** The loop of [upload_and_analyze] that builds [file_infos]; [None] when
    the content of a file cannot be decoded. *)
Fixpoint read_uploads (files : list UploadFile.t) : option (list FileInfo.t) :=
  match files with
  | [] => Some []
  | uploaded_file :: files' =>
      match decode_utf8 (UploadFile.data uploaded_file) with
      | None => None
      | Some content_str =>
          let filename := or_default (UploadFile.filename uploaded_file) "unknown.txt" in
          let language := AIService.detect_language_from_filename filename in
          option_map (cons (FileInfo.make filename content_str language))
                     (read_uploads files')
      end
  end.

(** [upload_and_analyze] *)
Definition upload_and_analyze (available : bool) (files : list UploadFile.t)
    (project_name : string) : Prog (http MultiFileReviewResponse.t) :=
  if negb available then
    Ret (HTTPException 500 "Multi-file analysis service not available.")
  else
    match files with
    | [] => Ret (HTTPException 400 "At least one file must be uploaded")
    | _ =>
        match read_uploads files with
        | None =>
            Ret (HTTPException 400
                   "Unable to decode file content. Please ensure files are text-based.")
        | Some file_infos =>
            pbind (MultiFileAnalysisService.analyze_codebase
                     json_loads lax_str lax_int validation_error format_language
                     file_infos project_name)
                  (fun r => Ret (codebase_result "Error processing uploaded files: " r))
        end
    end.

End WithCollaborators.

End Main.

(** ** Notions the statements are written with *)

(** The part of a file name after its last dot, if it has a dot. *)
Fixpoint after_last_dot (s : string) : option string :=
  match s with
  | EmptyString => None
  | String c s' =>
      match after_last_dot s' with
      | Some t => Some t
      | None => if Ascii.eqb c "." then Some s' else None
      end
  end.

(** Every issue of a review: the feedback of each file, then the
    cross-file issues. *)
Definition all_issues (file_analyses : list FileFeedback.t)
    (cross_file_issues : list FeedbackItem.t) : list FeedbackItem.t :=
  (flat_map FileFeedback.feedback file_analyses ++ cross_file_issues)%list.

Definition high_severity (f : FeedbackItem.t) : Prop :=
  FeedbackItem.severity f = "high".

(** The three narratives of the project summary. *)
Definition excellent_narrative : string :=
  "Excellent codebase! No significant issues found across all files.".

Definition attention_narrative (total high : Z) : string :=
  "Codebase needs attention: " ++ Py.str_of_int total
    ++ " total issues found, including " ++ Py.str_of_int high
    ++ " high-severity issues.".

Definition improvement_narrative (total : Z) : string :=
  "Good codebase with room for improvement: " ++ Py.str_of_int total
    ++ " minor to medium issues found.".

(** What [analyze_single_file] makes of the fallback record of
    [parse_ai_response]. *)
Definition unparseable_feedback (file_info : FileInfo.t) : FileFeedback.t :=
  let filename := FileInfo.filename file_info in
  FileFeedback.make filename
    [FeedbackItem.make "style" "medium" 1
       "Unable to parse analysis response"
       "Please try again or check file syntax"
       (Some filename)]
    "Analysis completed with parsing issues"
    5.

(** The response [analyze_codebase] builds from the per-file analyses, the
    cross-file issues and the overall score. *)
Definition review_of (files : list FileInfo.t) (project_name : string)
    (file_analyses : list FileFeedback.t) (cross_file_issues : list FeedbackItem.t)
    (overall_score : Z) : MultiFileReviewResponse.t :=
  MultiFileReviewResponse.make project_name file_analyses cross_file_issues
    (MultiFileAnalysisService.generate_overall_summary file_analyses cross_file_issues)
    overall_score
    (py_len files)
    (py_len (all_issues file_analyses cross_file_issues)).

(** A record of analysis for each file, in the order of the files. *)
Definition one_per_file (files : list FileInfo.t) (file_analyses : list FileFeedback.t)
  : Prop :=
  Forall2 (fun file_info fa => FileFeedback.filename fa = FileInfo.filename file_info)
          files file_analyses.

(** The record of the handler of [analyze_single_file] is for the analysed
    file, has score 5 and one item, of category "logic" and severity "low". *)
Definition logic_low_record (file_info : FileInfo.t) (ff : FileFeedback.t) : Prop :=
  FileFeedback.filename ff = FileInfo.filename file_info
  /\ FileFeedback.score ff = 5
  /\ exists item : FeedbackItem.t,
      FileFeedback.feedback ff = [item]
      /\ FeedbackItem.category item = "logic"
      /\ FeedbackItem.severity item = "low".

(** A feedback item with the five keys of the schema. *)
Definition item_keys : list string :=
  ["category"; "severity"; "line"; "message"; "suggestion"].

Definition well_formed_item (item : json) : bool :=
  match item with
  | JDict d => forallb (fun k => Dict.mem k d) item_keys
  | _ => false
  end.

(** A record with a list of such items under "feedback", and with the keys
    "summary" and "overall_score". *)
Definition well_formed_record (v : json) : bool :=
  match v with
  | JDict d =>
      match Dict.get "feedback" d with
      | Some (JList items) => forallb well_formed_item items
      | _ => false
      end
      && Dict.mem "summary" d && Dict.mem "overall_score" d
  | _ => false
  end.

(** A record with an overall score of 5 and exactly one feedback item. *)
Definition safe_default (v : json) : Prop :=
  exists (d : dict) (item : json),
    v = JDict d
    /\ Dict.get "feedback" d = Some (JList [item])
    /\ Dict.get "overall_score" d = Some (JInt 5).

(** The candidate JSON text as the description of [parse_ai_response] has
    it, for a reply in which a fence that is opened is also closed: between
    the first "```json" and the next "```"; else the whole stripped text if
    it starts with a brace or a bracket; else from the first opening brace
    to the last closing brace. *)
Definition described_candidate (text : string) : option string :=
  let t := Py.strip text in
  match Py.find_nat "```json" t with
  | Some i =>
      let start := Z.of_nat i + 7 in
      match Py.find_nat "```" (Py.slice t start (Py.len t)) with
      | Some j => Some (Py.strip (Py.slice t start (start + Z.of_nat j)))
      | None => None
      end
  | None =>
      if Py.startswith t "{" || Py.startswith t "[" then Some t
      else
        match Py.find_nat "{" t, Py.rfind_nat "}" t with
        | Some i, Some j => Some (Py.slice t (Z.of_nat i) (Z.of_nat j + 1))
        | _, _ => None
        end
  end.

(** A reply in which the fence, if there is one, is closed. *)
Definition fence_closed (text : string) : bool :=
  let t := Py.strip text in
  negb (Py.contains t "```json")
  || (0 <=? Py.find_from t "```" (Py.find t "```json" + 7)).

(** What [parse_ai_response] does with a candidate text: the decoded value,
    the fallback record when there is no candidate or the decoder rejects
    it. *)
Definition decode_or_fallback (json_loads : string -> result json)
    (candidate : option string) : result json :=
  match candidate with
  | Some json_content =>
      match json_loads json_content with
      | Ok v => Ok v
      | Raise e =>
          if is_decode_or_value_error e
          then Ok MultiFileAnalysisService.fallback_record
          else Raise e
      end
  | None => Ok MultiFileAnalysisService.fallback_record
  end.

(** [z] is the integer nearest to [a / b], for [0 < b]; when two integers
    are as near, [z] is the even one. *)
Definition nearest_even (a b z : Z) : Prop :=
  b * (2 * z - 1) <= 2 * a <= b * (2 * z + 1)
  /\ (2 * a = b * (2 * z - 1) \/ 2 * a = b * (2 * z + 1) -> Z.even z = true).

(** The scores of a list of records, and records with given scores. *)
Definition scores (file_analyses : list FileFeedback.t) : list Z :=
  map FileFeedback.score file_analyses.

Definition scored (score : Z) : FileFeedback.t :=
  FileFeedback.make "a.py" [] "Analysis for a.py" score.

(** The quotient the floating-point unit computes for two integers below
    [2^53], as a mantissa and an exponent. *)
Definition hardware_quotient (a b : Z) : spec_float :=
  Prim2SF (PrimFloat.div (PrimFloat.of_uint63 (Uint63.of_Z a))
                         (PrimFloat.of_uint63 (Uint63.of_Z b))).

(** Collaborators to run the pipeline on concrete inputs with. *)
Module Sample.

(** A reply that is one JSON object with a score of 310 digits. *)
Definition big_score : Z := 10 ^ 309.
Definition big_score_reply : string :=
  "{" ++ Py.dq ++ "score" ++ Py.dq ++ ": " ++ Py.str_of_int big_score ++ "}".

(** A decoder for three documents, which are decoded as [json.loads] does;
    it is only run on these and on texts that are not JSON. *)
Definition json_loads (s : string) : result json :=
  if String.eqb s "{}" then Ok (JDict [])
  else if String.eqb s "[]" then Ok (JList [])
  else if String.eqb s big_score_reply then Ok (JDict [("score", JInt big_score)])
  else Raise (JSONDecodeError "Expecting value: line 1 column 1 (char 0)").

(** A validator that converts nothing to [str] and only a [bool] to
    [int]. *)
Definition lax_str (_ : json) : option string := None.
Definition lax_int (v : json) : option Z :=
  match v with
  | JBool b => Some (Z.b2z b)
  | _ => None
  end.
Definition validation_error (class_name : string) (_ : dict) : string :=
  "1 validation error for " ++ class_name.

Definition format_language : SupportedLanguage -> string := language_value.

(** A client that always answers with one text, and one that counts its
    calls besides. *)
Definition constant_client (text : string) (w : unit) (_ : string) : reply * unit :=
  (Ok (Some text), w).
Definition counting_client (text : string) (w : nat) (_ : string) : reply * nat :=
  (Ok (Some text), S w).

Definition one_file : list FileInfo.t := [FileInfo.make "a.py" "x = 1" PYTHON].

Definition analyze_codebase : list FileInfo.t -> string -> Prog (result MultiFileReviewResponse.t) :=
  MultiFileAnalysisService.analyze_codebase
    json_loads lax_str lax_int validation_error format_language.

End Sample.

(** ** Notions of the further properties *)

(** The character [x] does not occur in [s]. *)
Fixpoint free_of (x : ascii) (s : string) : bool :=
  match s with
  | EmptyString => true
  | String c s' => negb (Ascii.eqb c x) && free_of x s'
  end.

(** Every character of [s] is white space. *)
Fixpoint all_space (s : string) : bool :=
  match s with
  | EmptyString => true
  | String c s' => Py.isspace c && all_space s'
  end.

Definition backtick : ascii := "`".

(** The decoder raises nothing but [JSONDecodeError] (or another
    [ValueError]). *)
Definition decoder_raises_value_errors (json_loads : string -> result json) : Prop :=
  forall (s : string) (e : exn), json_loads s = Raise e -> is_decode_or_value_error e = true.

(** A feedback item written as the JSON object the prompts ask for. *)
Definition json_of_item (it : FeedbackItem.t) : json :=
  JDict
    ([("category", JStr (FeedbackItem.category it));
      ("severity", JStr (FeedbackItem.severity it));
      ("line", JInt (FeedbackItem.line it));
      ("message", JStr (FeedbackItem.message it));
      ("suggestion", JStr (FeedbackItem.suggestion it))]
     ++ match FeedbackItem.filename it with
        | Some f => [("filename", JStr f)]
        | None => []
        end)%list.

(** The item with another file name. *)
Definition with_name (filename : string) (it : FeedbackItem.t) : FeedbackItem.t :=
  FeedbackItem.make (FeedbackItem.category it) (FeedbackItem.severity it)
    (FeedbackItem.line it) (FeedbackItem.message it) (FeedbackItem.suggestion it)
    (Some filename).

(** The item made of the fallback record of [parse_ai_response] when it
    is read as a list of cross-file issues. *)
Definition fallback_issue : FeedbackItem.t :=
  FeedbackItem.make "style" "medium" 1
    "Unable to parse analysis response"
    "Please try again or check file syntax"
    None.

(** The part of the context for one file: its name, then its first ten
    lines. *)
Definition context_part (name : string) (lines : list string) : string :=
  "File: " ++ name ++ Py.nl ++ Py.join Py.nl (firstn 10 lines).

(** The review that [review_code] makes of the record of a handler of
    [analyze_code]. *)
Definition handler_review (e : exn) : CodeReviewResponse.t :=
  if is_JSONDecodeError e then
    CodeReviewResponse.make
      [FeedbackItem.make "style" "medium" 1
         "Unable to parse AI response, but code was analyzed"
         "Please try again or check the code syntax" None]
      "Analysis completed with parsing issues" 5
  else
    CodeReviewResponse.make
      [FeedbackItem.make "logic" "low" 1
         ("Analysis error: " ++ exn_str e)
         "Please verify your code and try again" None]
      "Unable to complete full analysis" 5.

(** The file an upload becomes. *)
Definition file_info_of_upload (name : option string) (content : string) : FileInfo.t :=
  let filename := Main.or_default name "unknown.txt" in
  FileInfo.make filename content (AIService.detect_language_from_filename filename).

(** What the pipeline reads of a reply: the text without the white space
    around it or, when the call gave no text, the message of the exception
    (a [response.text] that is [None] ends in the [AttributeError] of
    [None.strip()]). *)
Inductive reading : Type :=
| ReplyText (text : string)
| ReplyFailure (message : string).

Definition reading_of (r : reply) : reading :=
  match r with
  | Ok (Some text) => ReplyText (Py.strip text)
  | Ok None => ReplyFailure (exn_str none_has_no_strip)
  | Raise e => ReplyFailure (exn_str e)
  end.

Section Assembled.

Variable json_loads : string -> result json.
Variable lax_str : json -> option string.
Variable lax_int : json -> option Z.
Variable validation_error : string -> dict -> string.
Variable format_language : SupportedLanguage -> string.

(** The records of the files, each made of the reply of the same rank. *)
Definition file_records (files : list FileInfo.t) (rs : list reply) : list FileFeedback.t :=
  map (fun p => MultiFileAnalysisService.analyze_single_file_result
                  json_loads lax_str lax_int validation_error (fst p) (snd p))
      (combine files rs).

(** The cross-file issues, made of the reply after those of the files. *)
Definition cross_file_issues_of (files : list FileInfo.t) (rs : list reply)
  : list FeedbackItem.t :=
  if py_len files <? 2 then []
  else MultiFileAnalysisService.cross_file_result
         json_loads lax_str lax_int validation_error
         (nth (List.length files) rs (Ok None)).

(** The prompts of a code base: one for each file, in order, and then the
    cross-file one when there are two files or more. *)
Definition codebase_prompts (files : list FileInfo.t) : list string :=
  (map (fun file_info =>
          MultiFileAnalysisService.single_file_prompt format_language file_info
            (MultiFileAnalysisService.create_file_context files
               (FileInfo.filename file_info)))
       files
   ++ if py_len files <? 2 then []
      else [MultiFileAnalysisService.cross_file_prompt format_language files])%list.

End Assembled.

(** More collaborators and inputs to run the pipeline with. *)
Module Demo.

Definition quoted (s : string) : string := Py.dq ++ s ++ Py.dq.

Definition item : FeedbackItem.t :=
  FeedbackItem.make "style" "low" 3 "Long line" "Wrap it" None.

Definition item_text : string :=
  "{" ++ quoted "category" ++ ": " ++ quoted "style" ++ ", "
      ++ quoted "severity" ++ ": " ++ quoted "low" ++ ", "
      ++ quoted "line" ++ ": 3, "
      ++ quoted "message" ++ ": " ++ quoted "Long line" ++ ", "
      ++ quoted "suggestion" ++ ": " ++ quoted "Wrap it" ++ "}".

(** Four replies: a complete review of some code, a complete analysis of
    a file, a review whose feedback is a string, a review whose feedback
    holds a number. *)
Definition code_reply : string :=
  "{" ++ quoted "feedback" ++ ": [" ++ item_text ++ "], "
      ++ quoted "summary" ++ ": " ++ quoted "Fine" ++ ", "
      ++ quoted "overall_score" ++ ": 9}".

Definition file_reply : string :=
  "{" ++ quoted "feedback" ++ ": [" ++ item_text ++ "], "
      ++ quoted "summary" ++ ": " ++ quoted "Fine" ++ ", "
      ++ quoted "score" ++ ": 8}".

Definition text_feedback_reply : string :=
  "{" ++ quoted "feedback" ++ ": " ++ quoted "none" ++ ", "
      ++ quoted "summary" ++ ": " ++ quoted "Fine" ++ "}".

Definition number_item_reply : string :=
  "{" ++ quoted "feedback" ++ ": [1]}".

(** A decoder for these four documents, which are decoded as [json.loads]
    does, and for those of [Sample.json_loads]. *)
Definition json_loads (s : string) : result json :=
  if String.eqb s code_reply then
    Ok (JDict [("feedback", JList [json_of_item item]);
               ("summary", JStr "Fine"); ("overall_score", JInt 9)])
  else if String.eqb s file_reply then
    Ok (JDict [("feedback", JList [json_of_item item]);
               ("summary", JStr "Fine"); ("score", JInt 8)])
  else if String.eqb s text_feedback_reply then
    Ok (JDict [("feedback", JStr "none"); ("summary", JStr "Fine")])
  else if String.eqb s number_item_reply then
    Ok (JDict [("feedback", JList [JInt 1])])
  else Sample.json_loads s.

(** A decoder of bytes for ASCII text; it is only run on such text and on
    bytes that are not UTF-8. *)
Definition decode_utf8 (data : list Byte.byte) : option string :=
  if forallb (fun b => (Byte.to_nat b <? 128)%nat) data
  then Some (string_of_list_byte data)
  else None.

Definition file_a : FileInfo.t := FileInfo.make "a.py" "x = 1" PYTHON.
Definition file_b : FileInfo.t := FileInfo.make "b.ts" "let y = 2" TYPESCRIPT.

Definition upload : UploadFile.t :=
  UploadFile.make (Some "Main.JAVA") (list_byte_of_string "class Main {}").

End Demo.

(** * Properties *)

(** ** Strings *)

Lemma ascii_dec_eqb (a b : ascii) :
  (if ascii_dec a b then true else false) = Ascii.eqb a b.
Proof.
  destruct (ascii_dec a b) as [->|Hne].
  - now rewrite Ascii.eqb_refl.
  - symmetry. now apply Ascii.eqb_neq.
Qed.

Lemma prefix_empty (s : string) : prefix EmptyString s = true.
Proof. now destruct s. Qed.

Lemma lower_char_dot (c : ascii) :
  Ascii.eqb (Py.lower_char c) "." = Ascii.eqb c ".".
Proof.
  destruct c as [[] [] [] [] [] [] [] []]; reflexivity.
Qed.

Lemma lower_char_idem (c : ascii) :
  Py.lower_char (Py.lower_char c) = Py.lower_char c.
Proof.
  destruct c as [[] [] [] [] [] [] [] []]; reflexivity.
Qed.

Lemma lower_idem (s : string) : Py.lower (Py.lower s) = Py.lower s.
Proof.
  induction s as [|c s IH]; simpl; [reflexivity|].
  now rewrite lower_char_idem, IH.
Qed.

Lemma prefix_cons (a b : ascii) (s1 s2 : string) :
  prefix (String a s1) (String b s2) = Ascii.eqb a b && prefix s1 s2.
Proof.
  cbn [prefix]. rewrite <- ascii_dec_eqb. now destruct (ascii_dec a b).
Qed.

Lemma find_nat_cons (sub : string) (c : ascii) (s : string) :
  Py.find_nat sub (String c s) =
  if prefix sub (String c s) then Some 0%nat else option_map S (Py.find_nat sub s).
Proof. reflexivity. Qed.

Lemma contains_dot (s : string) :
  Py.contains s "." = match after_last_dot s with Some _ => true | None => false end.
Proof.
  unfold Py.contains.
  induction s as [|c s IH]; [reflexivity|].
  rewrite find_nat_cons, prefix_cons, prefix_empty, andb_true_r, Ascii.eqb_sym.
  cbn [after_last_dot].
  destruct (Ascii.eqb c ".").
  - now destruct (after_last_dot s).
  - destruct (Py.find_nat "." s), (after_last_dot s); cbn in *; congruence.
Qed.

Lemma after_last_dot_lower (s : string) :
  after_last_dot (Py.lower s) = option_map Py.lower (after_last_dot s).
Proof.
  induction s as [|c s IH]; simpl; [reflexivity|].
  rewrite IH, lower_char_dot.
  destruct (after_last_dot s); simpl; [reflexivity|].
  now destruct (Ascii.eqb c ".").
Qed.

(** The parts [split] cuts a string into, read through [after_last_dot]. *)
Lemma split_dot_spec (s : string) :
  match Py.split "." s with
  | [] => False
  | w :: ws =>
      match after_last_dot s with
      | None => ws = [] /\ w = s
      | Some t => last (w :: ws) EmptyString = t /\ ws <> []
      end
  end.
Proof.
  induction s as [|c s IH]; simpl; [now split|].
  destruct (Py.split "." s) as [|w ws]; [contradiction|].
  destruct (Ascii.eqb c ".") eqn:Hc.
  - destruct (after_last_dot s) as [t|].
    + destruct IH as [IH _]. split; [exact IH | discriminate].
    + destruct IH as [-> ->]. split; [reflexivity | discriminate].
  - destruct (after_last_dot s) as [t|].
    + destruct IH as [IH Hws]. split; [|exact Hws].
      destruct ws as [|w' ws]; [contradiction|exact IH].
    + destruct IH as [-> ->]. now split.
Qed.

Lemma last_split_dot (s : string) :
  last (Py.split "." s) EmptyString =
  match after_last_dot s with Some t => t | None => s end.
Proof.
  pose proof (split_dot_spec s) as H.
  destruct (Py.split "." s) as [|w ws]; [contradiction|].
  destruct (after_last_dot s) as [t|].
  - now destruct H.
  - now destruct H as [-> ->].
Qed.

(** ** Language detection *)

Lemma extension_of_spec (filename : string) :
  AIService.extension_of filename =
  match after_last_dot filename with
  | Some extension => Py.lower extension
  | None => EmptyString
  end.
Proof.
  unfold AIService.extension_of.
  rewrite contains_dot, last_split_dot, after_last_dot_lower.
  now destruct (after_last_dot filename).
Qed.

Lemma detect_language_lower (filename : string) :
  AIService.detect_language_from_filename (Py.lower filename) =
  AIService.detect_language_from_filename filename.
Proof.
  unfold AIService.detect_language_from_filename.
  rewrite !extension_of_spec, after_last_dot_lower.
  destruct (after_last_dot filename) as [extension|]; simpl; [|reflexivity].
  now rewrite lower_idem.
Qed.

(** C10. [detect_language_from_filename] gives a language for every file
    name: the one listed for the lower-cased text after the last dot, and
    [PYTHON] when the name has no dot or that text is not listed; names that
    differ in letter case only get the same language. *)
Theorem detect_language_from_filename_spec (filename : string) :
  AIService.detect_language_from_filename filename =
    match after_last_dot filename with
    | Some extension =>
        match AIService.map_get (Py.lower extension) AIService.extension_map with
        | Some l => l
        | None => PYTHON
        end
    | None => PYTHON
    end
  /\ forall other : string,
      Py.lower other = Py.lower filename ->
      AIService.detect_language_from_filename other =
      AIService.detect_language_from_filename filename.
Proof.
  split.
  - unfold AIService.detect_language_from_filename.
    rewrite extension_of_spec.
    now destruct (after_last_dot filename).
  - intros other Hsame.
    rewrite <- (detect_language_lower other), <- (detect_language_lower filename).
    now rewrite Hsame.
Qed.

(** ** Sums and counts *)

Lemma fold_left_add_acc (l : list Z) (a : Z) :
  fold_left Z.add l a = a + fold_left Z.add l 0.
Proof.
  revert a. induction l as [|x l IH]; intros a; simpl; [lia|].
  rewrite (IH (a + x)), (IH x). lia.
Qed.

Lemma py_sum_cons (x : Z) (l : list Z) : py_sum (x :: l) = x + py_sum l.
Proof. unfold py_sum. simpl. apply fold_left_add_acc. Qed.

Lemma py_len_app {A : Type} (l1 l2 : list A) :
  py_len (l1 ++ l2) = py_len l1 + py_len l2.
Proof. unfold py_len. rewrite length_app. lia. Qed.

Lemma py_len_nonneg {A : Type} (l : list A) : 0 <= py_len l.
Proof. unfold py_len. lia. Qed.

Lemma py_len_zero {A : Type} (l : list A) : py_len l = 0 <-> l = [].
Proof.
  unfold py_len. destruct l; simpl; split; intros H; try reflexivity; try discriminate; lia.
Qed.

Lemma py_sum_feedback_lengths (file_analyses : list FileFeedback.t) :
  py_sum (map (fun fa => py_len (FileFeedback.feedback fa)) file_analyses) =
  py_len (flat_map FileFeedback.feedback file_analyses).
Proof.
  induction file_analyses as [|fa fas IH]; [reflexivity|].
  cbn [map flat_map]. now rewrite py_sum_cons, py_len_app, IH.
Qed.

Lemma count_high_app (l1 l2 : list FeedbackItem.t) :
  MultiFileAnalysisService.count_high (l1 ++ l2) =
  MultiFileAnalysisService.count_high l1 + MultiFileAnalysisService.count_high l2.
Proof.
  unfold MultiFileAnalysisService.count_high. now rewrite filter_app, py_len_app.
Qed.

Lemma py_sum_high_counts (file_analyses : list FileFeedback.t) :
  py_sum (map (fun fa => MultiFileAnalysisService.count_high (FileFeedback.feedback fa))
              file_analyses) =
  MultiFileAnalysisService.count_high (flat_map FileFeedback.feedback file_analyses).
Proof.
  induction file_analyses as [|fa fas IH]; [reflexivity|].
  cbn [map flat_map]. now rewrite py_sum_cons, count_high_app, IH.
Qed.

Lemma count_high_positive (items : list FeedbackItem.t) :
  0 < MultiFileAnalysisService.count_high items <-> Exists high_severity items.
Proof.
  unfold MultiFileAnalysisService.count_high, high_severity.
  induction items as [|f items IH]; simpl.
  - split; [unfold py_len; simpl; lia | intros H; inversion H].
  - destruct (String.eqb_spec (FeedbackItem.severity f) "high") as [Heq|Hne].
    + split; [now intros _; left | intros _; unfold py_len; simpl; lia].
    + rewrite IH. split; [now right | intros H; inversion H; [contradiction | assumption]].
Qed.

(** ** The project summary *)

Lemma generate_overall_summary_eq (file_analyses : list FileFeedback.t)
    (cross_file_issues : list FeedbackItem.t) :
  let issues := all_issues file_analyses cross_file_issues in
  MultiFileAnalysisService.generate_overall_summary file_analyses cross_file_issues =
  if py_len issues =? 0 then excellent_narrative
  else if 0 <? MultiFileAnalysisService.count_high issues
       then attention_narrative (py_len issues) (MultiFileAnalysisService.count_high issues)
       else improvement_narrative (py_len issues).
Proof.
  unfold MultiFileAnalysisService.generate_overall_summary, all_issues.
  now rewrite py_sum_feedback_lengths, py_sum_high_counts, py_len_app, count_high_app.
Qed.

(** C6. The summary is the "Excellent codebase!" narrative exactly when
    there is no issue at all (per-file feedback and cross-file issues
    together); when there is one, it is the "Codebase needs attention"
    narrative, with the number of issues and the number of high-severity
    ones, exactly when some issue has severity "high", and the "Good codebase
    with room for improvement" narrative otherwise. *)
Theorem generate_overall_summary_cases (file_analyses : list FileFeedback.t)
    (cross_file_issues : list FeedbackItem.t) :
  let issues := all_issues file_analyses cross_file_issues in
  let total := py_len issues in
  let high := MultiFileAnalysisService.count_high issues in
  let summary :=
    MultiFileAnalysisService.generate_overall_summary file_analyses cross_file_issues in
  (summary = excellent_narrative <-> total = 0)
  /\ (total <> 0 ->
      (summary = attention_narrative total high <-> Exists high_severity issues)
      /\ (~ Exists high_severity issues -> summary = improvement_narrative total)).
Proof.
  intros issues total high summary.
  subst summary. rewrite generate_overall_summary_eq.
  fold issues. fold total. fold high.
  pose proof (count_high_positive issues) as Hhigh. fold high in Hhigh.
  destruct (Z.eqb_spec total 0) as [H0|H0].
  - split; [tauto | contradiction].
  - destruct (Z.ltb_spec 0 high) as [Hh|Hh].
    + split; [split; [discriminate | contradiction]|].
      intros _. split; [split; [tauto | reflexivity]|].
      intros Hno. exfalso. apply Hno. now apply Hhigh.
    + split; [split; [discriminate | contradiction]|].
      intros _. split; [|reflexivity].
      split; [discriminate | intros He; apply Hhigh in He; lia].
Qed.

(** ** Runs *)

Lemma run_pbind {W A B : Type} (client : W -> string -> reply * W) (p : Prog A)
    (f : A -> Prog B) (w : W) :
  run client w (pbind p f) =
  let '(a, rs1, w1) := run client w p in
  let '(b, rs2, w2) := run client w1 (f a) in
  (b, (rs1 ++ rs2)%list, w2).
Proof.
  revert w. induction p as [a|q k IH]; intros w; simpl.
  - now destruct (run client w (f a)) as [[b rs2] w2].
  - destruct (client w q) as [r w1]. rewrite IH.
    destruct (run client w1 (k r)) as [[a rs1] w2].
    now destruct (run client w2 (f a)) as [[b rs2] w3].
Qed.

(** ** Exceptions and dictionaries *)

Lemma bind_Ok {A B : Type} (r : result A) (f : A -> result B) (b : B) :
  bind r f = Ok b -> exists a, r = Ok a /\ f a = Ok b.
Proof. destruct r as [a|e]; simpl; [eauto | discriminate]. Qed.

(** Splits a chain of [bind]s that ended well into its steps. *)
Ltac bind_steps H :=
  repeat (let a := fresh "a" in
          let Ha := fresh "Hstep" in
          apply bind_Ok in H as (a & Ha & H)).

Lemma map_result_Forall {A B : Type} (f : A -> result B) (P : B -> Prop)
    (l : list A) (ys : list B) :
  (forall x y, f x = Ok y -> P y) ->
  map_result f l = Ok ys -> Forall P ys.
Proof.
  intros Hf. revert ys. induction l as [|x l IH]; simpl; intros ys H.
  - injection H as <-. constructor.
  - destruct (f x) as [y|e] eqn:Ex; [|discriminate].
    destruct (map_result f l) as [ys'|e]; [|discriminate].
    injection H as <-. constructor; [now apply (Hf x) | now apply IH].
Qed.

Lemma map_result_Exists_Raise {A B : Type} (f : A -> result B) (l : list A) :
  Exists (fun x => exists e, f x = Raise e) l ->
  exists e, map_result f l = Raise e.
Proof.
  induction 1 as [x l [e He]|x l _ [e IH]]; simpl.
  - rewrite He. eauto.
  - destruct (f x); [rewrite IH|]; eauto.
Qed.

Lemma dict_get_set_same (k : string) (v : json) (d : dict) :
  Dict.get k (Dict.set k v d) = Some v.
Proof.
  induction d as [|[k' v'] d IH]; simpl.
  - now rewrite String.eqb_refl.
  - destruct (String.eqb k k') eqn:E; simpl; rewrite E; [reflexivity | exact IH].
Qed.

Lemma dict_get_set_other (k k' : string) (v : json) (d : dict) :
  k' <> k -> Dict.get k' (Dict.set k v d) = Dict.get k' d.
Proof.
  intros Hne. induction d as [|[k0 v0] d IH]; simpl.
  - apply String.eqb_neq in Hne. now rewrite Hne.
  - destruct (String.eqb k k0) eqn:E; simpl.
    + apply String.eqb_eq in E. subst k0.
      apply String.eqb_neq in Hne. now rewrite Hne.
    + now rewrite IH.
Qed.

Lemma dict_mem_set (k k' : string) (v : json) (d : dict) :
  Dict.mem k' (Dict.set k v d) = String.eqb k' k || Dict.mem k' d.
Proof.
  unfold Dict.mem. destruct (String.eqb_spec k' k) as [->|Hne].
  - now rewrite dict_get_set_same.
  - now rewrite dict_get_set_other.
Qed.

Lemma dict_mem_setdefault (k k' : string) (v : json) (d : dict) :
  Dict.mem k' (Dict.setdefault k v d) = String.eqb k' k || Dict.mem k' d.
Proof.
  unfold Dict.setdefault. destruct (Dict.mem k d) eqn:E.
  - destruct (String.eqb_spec k' k) as [->|Hne]; [now rewrite E | reflexivity].
  - apply dict_mem_set.
Qed.

Lemma dict_get_setdefault_other (k k' : string) (v : json) (d : dict) :
  k' <> k -> Dict.get k' (Dict.setdefault k v d) = Dict.get k' d.
Proof.
  intros Hne. unfold Dict.setdefault.
  destruct (Dict.mem k d); [reflexivity | now apply dict_get_set_other].
Qed.

Create Rewrite HintDb pydict.
#[export] Hint Rewrite dict_get_set_same dict_mem_set dict_mem_setdefault : pydict.

(** ** Validation *)

Section ValidationProperties.

Variable lax_str : json -> option string.
Variable lax_int : json -> option Z.
Variable validation_error : string -> dict -> string.

Lemma FeedbackItem_new_filename (kw : dict) (filename : string) (item : FeedbackItem.t) :
  Dict.get "filename" kw = Some (JStr filename) ->
  FeedbackItem_new lax_str lax_int validation_error kw = Ok item ->
  FeedbackItem.filename item = Some filename.
Proof.
  unfold FeedbackItem_new. intros ->. simpl.
  destruct (required (validate_str lax_str) "category" kw); [|discriminate].
  destruct (required (validate_str lax_str) "severity" kw); [|discriminate].
  destruct (required (validate_int lax_int) "line" kw); [|discriminate].
  destruct (required (validate_str lax_str) "message" kw); [|discriminate].
  destruct (required (validate_str lax_str) "suggestion" kw); [|discriminate].
  now intros [= <-].
Qed.

Lemma FileFeedback_new_Ok (filename : string) (feedback : list FeedbackItem.t)
    (summary score : json) (ff : FileFeedback.t) :
  FileFeedback_new lax_str lax_int validation_error filename feedback summary score = Ok ff ->
  FileFeedback.filename ff = filename /\ FileFeedback.feedback ff = feedback.
Proof.
  unfold FileFeedback_new.
  destruct (validate_str lax_str summary); [|discriminate].
  destruct (validate_int lax_int score); [|discriminate].
  now intros [= <-].
Qed.

End ValidationProperties.

(** ** The analysis of one file *)

Section SingleFileProperties.

Variable json_loads : string -> result json.
Variable lax_str : json -> option string.
Variable lax_int : json -> option Z.
Variable validation_error : string -> dict -> string.
Variable format_language : SupportedLanguage -> string.

Local Notation parse_ai_response_try :=
  (MultiFileAnalysisService.parse_ai_response_try json_loads).
Local Notation parse_ai_response :=
  (MultiFileAnalysisService.parse_ai_response json_loads).
Local Notation analyze_single_file_try :=
  (MultiFileAnalysisService.analyze_single_file_try
     json_loads lax_str lax_int validation_error).
Local Notation analyze_single_file_result :=
  (MultiFileAnalysisService.analyze_single_file_result
     json_loads lax_str lax_int validation_error).
Local Notation analyze_single_file :=
  (MultiFileAnalysisService.analyze_single_file
     json_loads lax_str lax_int validation_error format_language).
Local Notation item_of :=
  (MultiFileAnalysisService.feedback_item_with_filename
     lax_str lax_int validation_error).

Lemma item_of_filename (filename : string) (item : json) (it : FeedbackItem.t) :
  item_of filename item = Ok it -> FeedbackItem.filename it = Some filename.
Proof.
  unfold MultiFileAnalysisService.feedback_item_with_filename.
  intros H. apply bind_Ok in H as (kw & Hkw & Hnew).
  destruct item; try discriminate. injection Hkw as <-.
  eapply FeedbackItem_new_filename; [apply dict_get_set_same | exact Hnew].
Qed.

(** What the [try] block returns when it returns. *)
Lemma analyze_single_file_try_Ok (file_info : FileInfo.t) (r : reply)
    (ff : FileFeedback.t) :
  analyze_single_file_try file_info r = Ok ff ->
  FileFeedback.filename ff = FileInfo.filename file_info
  /\ Forall (fun it => FeedbackItem.filename it = Some (FileInfo.filename file_info))
            (FileFeedback.feedback ff).
Proof.
  unfold MultiFileAnalysisService.analyze_single_file_try. intros H.
  cbv zeta in H. bind_steps H.
  match goal with
  | Hmap : map_result _ _ = Ok ?l |- _ => rename Hmap into Hitems
  end.
  apply FileFeedback_new_Ok in H as [Hname Hfeedback].
  split; [exact Hname|]. rewrite Hfeedback.
  eapply map_result_Forall; [|exact Hitems].
  intros item it. apply item_of_filename.
Qed.

Lemma analyze_single_file_result_filename (file_info : FileInfo.t) (r : reply) :
  FileFeedback.filename (analyze_single_file_result file_info r) =
  FileInfo.filename file_info.
Proof.
  unfold MultiFileAnalysisService.analyze_single_file_result.
  destruct (analyze_single_file_try file_info r) as [ff|e] eqn:E; [|reflexivity].
  now apply analyze_single_file_try_Ok in E.
Qed.

(** C9. Whatever the model replies, every feedback item of the record
    [analyze_single_file] returns carries the name of the analysed file,
    whether the record comes from the reply or from the handler. *)
Theorem analyze_single_file_items_filename (file_info : FileInfo.t)
    (all_files : list FileInfo.t) :
  (exists prompt,
      analyze_single_file file_info all_files =
      Ask prompt (fun r => Ret (analyze_single_file_result file_info r)))
  /\ forall r : reply,
      Forall (fun it => FeedbackItem.filename it = Some (FileInfo.filename file_info))
             (FileFeedback.feedback (analyze_single_file_result file_info r)).
Proof.
  split; [eexists; reflexivity|].
  intros r. unfold MultiFileAnalysisService.analyze_single_file_result.
  destruct (analyze_single_file_try file_info r) as [ff|e] eqn:E.
  - now apply analyze_single_file_try_Ok in E.
  - repeat constructor.
Qed.

Lemma analyze_single_file_unparseable (file_info : FileInfo.t) (text : string) (e : exn) :
  parse_ai_response_try (Some text) = Raise e ->
  is_decode_or_value_error e = true ->
  analyze_single_file_result file_info (Ok (Some text)) = unparseable_feedback file_info.
Proof.
  intros Hparse He.
  unfold MultiFileAnalysisService.analyze_single_file_result,
    MultiFileAnalysisService.analyze_single_file_try.
  cbn [bind]. unfold MultiFileAnalysisService.parse_ai_response.
  rewrite Hparse, He. reflexivity.
Qed.

Lemma analyze_single_file_invalid_item (file_info : FileInfo.t) (text : string)
    (d : dict) (items : list json) :
  parse_ai_response (Some text) = Ok (JDict d) ->
  iterate (Dict.get_default "feedback" (JList []) d) = Ok items ->
  Exists (fun item => exists e, item_of (FileInfo.filename file_info) item = Raise e) items ->
  exists e, analyze_single_file_try file_info (Ok (Some text)) = Raise e.
Proof.
  intros Hparse Hiter Hbad.
  apply map_result_Exists_Raise in Hbad as [e He].
  exists e. unfold MultiFileAnalysisService.analyze_single_file_try.
  cbn [bind]. rewrite Hparse. cbn [bind]. rewrite Hiter. cbn [bind].
  now rewrite He.
Qed.

End SingleFileProperties.

(** ** The analysis of a code base *)

Section CodebaseProperties.

Variable json_loads : string -> result json.
Variable lax_str : json -> option string.
Variable lax_int : json -> option Z.
Variable validation_error : string -> dict -> string.
Variable format_language : SupportedLanguage -> string.

Local Notation parse_ai_response_try :=
  (MultiFileAnalysisService.parse_ai_response_try json_loads).
Local Notation parse_ai_response :=
  (MultiFileAnalysisService.parse_ai_response json_loads).
Local Notation analyze_single_file_try :=
  (MultiFileAnalysisService.analyze_single_file_try
     json_loads lax_str lax_int validation_error).
Local Notation analyze_single_file_result :=
  (MultiFileAnalysisService.analyze_single_file_result
     json_loads lax_str lax_int validation_error).
Local Notation analyze_single_file :=
  (MultiFileAnalysisService.analyze_single_file
     json_loads lax_str lax_int validation_error format_language).
Local Notation analyze_cross_file_dependencies :=
  (MultiFileAnalysisService.analyze_cross_file_dependencies
     json_loads lax_str lax_int validation_error format_language).
Local Notation analyze_files :=
  (MultiFileAnalysisService.analyze_files
     json_loads lax_str lax_int validation_error format_language).
Local Notation analyze_codebase :=
  (MultiFileAnalysisService.analyze_codebase
     json_loads lax_str lax_int validation_error format_language).
Local Notation calculate_overall_score :=
  MultiFileAnalysisService.calculate_overall_score.

(** The invariant of the loop: the accumulators grow by one record, and by
    its feedback, for each file, and each file costs one call. *)
Lemma analyze_files_run {W : Type} (client : W -> string -> reply * W)
    (remaining files : list FileInfo.t) :
  forall (file_analyses : list FileFeedback.t) (all_feedback : list FeedbackItem.t) (w : W),
  exists done : list FileFeedback.t,
    run client w (analyze_files remaining files file_analyses all_feedback) =
      ((file_analyses ++ done,
        all_feedback ++ flat_map FileFeedback.feedback done)%list,
       replies (run client w (analyze_files remaining files file_analyses all_feedback)),
       final_state (run client w (analyze_files remaining files file_analyses all_feedback)))
    /\ one_per_file remaining done
    /\ List.length
         (replies (run client w (analyze_files remaining files file_analyses all_feedback)))
       = List.length remaining.
Proof.
  induction remaining as [|file_info remaining IH]; intros file_analyses all_feedback w.
  - exists []. simpl. rewrite !app_nil_r. repeat split. constructor.
  - cbn [MultiFileAnalysisService.analyze_files
           MultiFileAnalysisService.analyze_single_file pbind run].
    destruct (client w _) as [r w1].
    set (fa := analyze_single_file_result file_info r).
    destruct (IH (file_analyses ++ [fa])%list
                 (all_feedback ++ FileFeedback.feedback fa)%list w1)
      as (done & Hrun & Hone & Hlen).
    exists (fa :: done).
    destruct (run client w1 _) as [[v rs] w2].
    unfold replies, final_state in *. simpl in *.
    injection Hrun as ->.
    rewrite <- !app_assoc. simpl.
    repeat split.
    + constructor; [apply analyze_single_file_result_filename | exact Hone].
    + now rewrite Hlen.
Qed.

Lemma calculate_overall_score_raises (file_analyses : list FileFeedback.t) (e : exn) :
  calculate_overall_score file_analyses = Raise e ->
  e = OverflowError "integer division result too large for a float".
Proof.
  unfold MultiFileAnalysisService.calculate_overall_score.
  destruct file_analyses as [|fa fas]; [discriminate|].
  unfold PyFloat.truediv.
  assert ((py_len (fa :: fas) =? 0) = false) as ->
      by (apply Z.eqb_neq; unfold py_len; simpl; lia).
  destruct (_ =? 0); [discriminate|].
  destruct (PyFloat.nearest _ _) as [m e'].
  destruct (_ && _); simpl; [now intros [= <-] | discriminate].
Qed.

(** The shape of every run of [analyze_codebase]. *)
Lemma analyze_codebase_run {W : Type} (client : W -> string -> reply * W) (w : W)
    (files : list FileInfo.t) (project_name : string) :
  exists (file_analyses : list FileFeedback.t) (cross_file_issues : list FeedbackItem.t),
    outcome (run client w (analyze_codebase files project_name)) =
      bind (calculate_overall_score file_analyses)
           (fun overall_score =>
              Ok (review_of files project_name file_analyses cross_file_issues overall_score))
    /\ one_per_file files file_analyses
    /\ (py_len files < 2 ->
        cross_file_issues = []
        /\ List.length (replies (run client w (analyze_codebase files project_name)))
           = List.length files).
Proof.
  unfold MultiFileAnalysisService.analyze_codebase.
  rewrite run_pbind.
  destruct (analyze_files_run client files files [] [] w) as (done & Hrun & Hone & Hlen).
  rewrite Hrun. simpl app.
  set (rs1 := replies _) in *. set (w1 := final_state _).
  rewrite run_pbind.
  unfold MultiFileAnalysisService.analyze_cross_file_dependencies.
  destruct (Z.ltb_spec (py_len files) 2) as [Hfew|Hmany].
  - exists done, []. simpl. unfold replies. simpl.
    repeat split; [exact Hone|].
    now rewrite app_nil_r.
  - cbn [run]. destruct (client w1 _) as [r w2].
    exists done, (MultiFileAnalysisService.cross_file_result
                    json_loads lax_str lax_int validation_error r).
    simpl. repeat split; [exact Hone | lia | lia].
Qed.

(** C8. With fewer than two files, [analyze_cross_file_dependencies]
    returns the empty list and sends nothing to the model; a run of
    [analyze_codebase] then makes one call per file and any review it
    returns has no cross-file issue. *)
Theorem analyze_cross_file_dependencies_few_files (files : list FileInfo.t) :
  py_len files < 2 ->
  analyze_cross_file_dependencies files = Ret []
  /\ forall (W : Type) (client : W -> string -> reply * W) (w : W) (project_name : string),
      prompts client w (analyze_cross_file_dependencies files) = []
      /\ List.length (replies (run client w (analyze_codebase files project_name)))
         = List.length files
      /\ exists file_analyses : list FileFeedback.t,
          outcome (run client w (analyze_codebase files project_name)) =
          bind (calculate_overall_score file_analyses)
               (fun overall_score =>
                  Ok (review_of files project_name file_analyses [] overall_score)).
Proof.
  intros Hfew.
  assert (analyze_cross_file_dependencies files = Ret []) as Hret.
  { unfold MultiFileAnalysisService.analyze_cross_file_dependencies.
    now apply Z.ltb_lt in Hfew as ->. }
  split; [exact Hret|].
  intros W client w project_name.
  rewrite Hret. split; [reflexivity|].
  destruct (analyze_codebase_run client w files project_name)
    as (fas & cross & Hout & _ & Hcross).
  destruct (Hcross Hfew) as [-> Hlen].
  split; [exact Hlen|]. now exists fas.
Qed.

Local Notation feedback_item_with_filename :=
  (MultiFileAnalysisService.feedback_item_with_filename
     lax_str lax_int validation_error).

(** C5, as the code has it. [analyze_single_file] makes one call to the
    model and returns a record for the analysed file whatever comes back.
    When the [try] block raises (the client raises, the reply has no
    text, the reply decodes to something that is not the expected object,
    or one of its feedback items is not valid) the record has score 5 and
    one item of category "logic" and severity "low".  When the reply cannot
    be parsed (no JSON text in it, or a JSON decoding error) the record has
    score 5 and one item of category "style" and severity "medium", made
    from the fallback of [parse_ai_response].  The loop of
    [analyze_codebase] gets a record for every file. *)
Theorem analyze_single_file_total (file_info : FileInfo.t) (all_files : list FileInfo.t) :
  (exists prompt,
      analyze_single_file file_info all_files =
      Ask prompt (fun r => Ret (analyze_single_file_result file_info r)))
  /\ (forall r : reply,
         FileFeedback.filename (analyze_single_file_result file_info r) =
         FileInfo.filename file_info)
  /\ (forall (r : reply) (e : exn),
         analyze_single_file_try file_info r = Raise e ->
         analyze_single_file_result file_info r =
           MultiFileAnalysisService.single_file_error file_info e
         /\ logic_low_record file_info (analyze_single_file_result file_info r))
  /\ (forall e : exn, analyze_single_file_try file_info (Raise e) = Raise e)
  /\ analyze_single_file_try file_info (Ok None) = Raise none_has_no_strip
  /\ (forall (text : string) (d : dict) (items : list json),
         parse_ai_response (Some text) = Ok (JDict d) ->
         iterate (Dict.get_default "feedback" (JList []) d) = Ok items ->
         Exists (fun item =>
                   exists e, feedback_item_with_filename
                               (FileInfo.filename file_info) item = Raise e) items ->
         exists e, analyze_single_file_try file_info (Ok (Some text)) = Raise e)
  /\ (forall (text : string) (e : exn),
         parse_ai_response_try (Some text) = Raise e ->
         is_decode_or_value_error e = true ->
         analyze_single_file_result file_info (Ok (Some text)) =
         unparseable_feedback file_info)
  /\ (forall (W : Type) (client : W -> string -> reply * W) (w : W)
             (files : list FileInfo.t),
         one_per_file files
           (fst (outcome (run client w (analyze_files files files [] []))))).
Proof.
  split; [eexists; reflexivity|].
  split; [apply analyze_single_file_result_filename|].
  split.
  { intros r e He.
    unfold MultiFileAnalysisService.analyze_single_file_result. rewrite He.
    split; [reflexivity|].
    repeat split. eexists. repeat split. }
  split; [reflexivity|].
  split; [reflexivity|].
  split; [apply analyze_single_file_invalid_item|].
  split; [apply analyze_single_file_unparseable|].
  intros W client w files.
  destruct (analyze_files_run client files files [] [] w) as (done & Hrun & Hone & _).
  rewrite Hrun. exact Hone.
Qed.

End CodebaseProperties.

(** The reply that refutes C5 as it is stated: a text without any JSON in
    it gives a record whose only item is of category "style" and severity
    "medium". *)
Lemma analyze_single_file_unparseable_reply :
  let file_info := FileInfo.make "a.py" "x = 1" PYTHON in
  let ff :=
    MultiFileAnalysisService.analyze_single_file_result
      Sample.json_loads Sample.lax_str Sample.lax_int Sample.validation_error
      file_info (Ok (Some "hello")) in
  ff = unparseable_feedback file_info
  /\ ~ logic_low_record file_info ff.
Proof.
  split; [reflexivity|].
  intros (_ & _ & item & Hitems & Hcategory & _).
  injection Hitems as <-. discriminate Hcategory.
Qed.

Lemma analyze_cross_file_dependencies_few_files_witness :
  py_len Sample.one_file < 2
  /\ MultiFileAnalysisService.analyze_cross_file_dependencies
       Sample.json_loads Sample.lax_str Sample.lax_int Sample.validation_error
       Sample.format_language Sample.one_file = Ret [].
Proof.
  split; [reflexivity|].
  apply (analyze_cross_file_dependencies_few_files
           Sample.json_loads Sample.lax_str Sample.lax_int Sample.validation_error
           Sample.format_language Sample.one_file).
  reflexivity.
Defined.

(** The run that refutes C2 as it is stated: one file, for which the model
    replies with a JSON object whose score has 310 digits. *)
Lemma analyze_codebase_overflow :
  outcome (run (Sample.constant_client Sample.big_score_reply) tt
               (Sample.analyze_codebase Sample.one_file "demo"))
  = Raise (OverflowError "integer division result too large for a float").
Proof. vm_compute. reflexivity. Qed.

(** ** [AIService.analyze_code] *)

Section AnalyzeCodeProperties.

Variable json_loads : string -> result json.

Local Notation analyze_code_try := (AIService.analyze_code_try json_loads).
Local Notation analyze_code_result := (AIService.analyze_code_result json_loads).
Local Notation analyze_code := (AIService.analyze_code json_loads).

Lemma fill_item_well_formed (item item' : json) :
  AIService.fill_item item = Ok item' -> well_formed_item item' = true.
Proof.
  destruct item; try discriminate. simpl. intros [= <-].
  unfold well_formed_item, item_keys, forallb.
  autorewrite with pydict. simpl.
  now rewrite ?orb_true_r.
Qed.

Lemma extract_json_raises (response_text : string) (e : exn) :
  AIService.extract_json response_text = Raise e ->
  e = ValueError "No valid JSON found in response".
Proof.
  unfold AIService.extract_json.
  destruct (Py.contains _ _); [discriminate|].
  destruct (Py.startswith _ _); [discriminate|].
  destruct (_ && _); [discriminate | now intros [= <-]].
Qed.

Lemma analyze_code_try_well_formed (r : reply) (v : json) :
  analyze_code_try r = Ok v -> well_formed_record v = true.
Proof.
  unfold AIService.analyze_code_try. intros H.
  apply bind_Ok in H as (response & _ & H).
  apply bind_Ok in H as (response_text & _ & H).
  apply bind_Ok in H as (json_content & _ & H).
  apply bind_Ok in H as (result & _ & H).
  apply bind_Ok in H as (d & _ & H).
  cbv zeta in H.
  apply bind_Ok in H as (items & _ & H).
  apply bind_Ok in H as (items' & Hitems & H).
  injection H as <-.
  unfold well_formed_record.
  autorewrite with pydict.
  simpl. rewrite ?orb_true_r, !andb_true_r.
  apply forallb_forall. apply Forall_forall.
  eapply map_result_Forall; [|exact Hitems].
  intros x y. apply fill_item_well_formed.
Qed.

Lemma parse_issue_record_safe : safe_default AIService.parse_issue_record.
Proof. do 2 eexists. repeat split. Qed.

Lemma error_record_safe (e : exn) : safe_default (AIService.error_record e).
Proof. do 2 eexists. repeat split. Qed.

(** C1. [analyze_code] makes one call to the model and returns a record
    whatever comes back, never an exception.  The record has a list under
    "feedback" whose items all have the keys category, severity, line,
    message and suggestion, and it has the keys "summary" and
    "overall_score".  When no JSON text can be extracted from the reply,
    or the JSON decoder rejects the text, the record is the one of the
    handler concerned, which has overall score 5 and one feedback item. *)
Theorem analyze_code_well_formed (code language : string) :
  analyze_code code language =
    Ask (AIService.prompt code language) (fun r => Ret (analyze_code_result r))
  /\ forall r : reply,
      well_formed_record (analyze_code_result r) = true
      /\ (forall (text : string) (e : exn),
             r = Ok (Some text) ->
             AIService.extract_json (Py.strip text) = Raise e ->
             analyze_code_result r =
               AIService.error_record (ValueError "No valid JSON found in response")
             /\ safe_default (analyze_code_result r))
      /\ (forall (text json_content : string) (e : exn),
             r = Ok (Some text) ->
             AIService.extract_json (Py.strip text) = Ok json_content ->
             json_loads json_content = Raise e ->
             analyze_code_result r =
               (if is_JSONDecodeError e then AIService.parse_issue_record
                else AIService.error_record e)
             /\ safe_default (analyze_code_result r)).
Proof.
  split; [reflexivity|].
  intros r. split; [|split].
  - unfold AIService.analyze_code_result.
    destruct (analyze_code_try r) as [v|e] eqn:E.
    + now apply analyze_code_try_well_formed in E.
    + now destruct (is_JSONDecodeError e).
  - intros text e -> He.
    pose proof (extract_json_raises _ _ He) as ->.
    unfold AIService.analyze_code_result, AIService.analyze_code_try.
    cbn [bind]. rewrite He. cbn [bind is_JSONDecodeError].
    split; [reflexivity | apply error_record_safe].
  - intros text json_content e -> Hc He.
    unfold AIService.analyze_code_result, AIService.analyze_code_try.
    cbn [bind]. rewrite Hc. cbn [bind]. rewrite He. cbn [bind].
    split; [reflexivity|].
    destruct (is_JSONDecodeError e);
      [apply parse_issue_record_safe | apply error_record_safe].
Qed.

End AnalyzeCodeProperties.

(** ** [parse_ai_response] *)

Section ParseProperties.

Variable json_loads : string -> result json.

Local Notation parse_ai_response :=
  (MultiFileAnalysisService.parse_ai_response json_loads).
Local Notation decode_or_fallback := (decode_or_fallback json_loads).

Lemma contains_find_nat (s sub : string) :
  Py.contains s sub = match Py.find_nat sub s with Some _ => true | None => false end.
Proof. reflexivity. Qed.

Lemma prefix_length (sub s : string) :
  prefix sub s = true -> (String.length sub <= String.length s)%nat.
Proof.
  revert s. induction sub as [|a sub IH]; intros s; simpl; [lia|].
  destruct s as [|b s]; [discriminate|].
  rewrite prefix_cons. intros H. apply andb_prop in H as [_ H].
  apply IH in H. simpl. lia.
Qed.

Lemma find_nat_bound (sub s : string) (i : nat) :
  Py.find_nat sub s = Some i -> (i + String.length sub <= String.length s)%nat.
Proof.
  revert i. induction s as [|c s IH]; intros i.
  - destruct sub; simpl; [intros [= <-]; simpl; lia | discriminate].
  - rewrite find_nat_cons.
    destruct (prefix sub (String c s)) eqn:Hp.
    + intros [= <-]. now apply prefix_length in Hp.
    + destruct (Py.find_nat sub s) as [j|]; [|discriminate].
      simpl. intros [= <-]. specialize (IH j eq_refl). lia.
Qed.

(** On a reply whose fence is closed (or that has none), the text that is
    decoded is the described candidate, and the fallback record is
    returned when there is no candidate or the decoder rejects it. *)
Lemma parse_ai_response_closed_fence (text : string) :
  fence_closed text = true ->
  parse_ai_response (Some text) = decode_or_fallback (described_candidate text).
Proof.
  unfold fence_closed, described_candidate, MultiFileAnalysisService.parse_ai_response,
    MultiFileAnalysisService.parse_ai_response_try,
    MultiFileAnalysisService.extract_json.
  cbn [bind]. cbv zeta.
  set (t := Py.strip text).
  rewrite contains_find_nat. unfold Py.find, Py.rfind.
  destruct (Py.find_nat "```json" t) as [i|] eqn:Hi; cbn [negb orb Py.index_or_minus_one].
  - pose proof (find_nat_bound _ _ _ Hi) as Hle. simpl in Hle.
    unfold Py.find_from.
    assert ((Py.len t <? Z.of_nat i + 7) = false) as Hstart
        by (apply Z.ltb_ge; unfold Py.len; lia).
    rewrite Hstart.
    assert (Py.clamp (Py.len t) (Z.of_nat i + 7) = Z.of_nat i + 7) as ->.
    { apply Z.ltb_ge in Hstart. unfold Py.clamp.
      destruct (Z.ltb_spec (Z.of_nat i + 7) 0); lia. }
    destruct (Py.find_nat "```" _) as [j|]; cbn [bind].
    + intros _. reflexivity.
    + intros H. discriminate H.
  - intros _.
    destruct (Py.startswith t "{" || Py.startswith t "[")%bool; cbn [bind].
    + reflexivity.
    + destruct (Py.find_nat "{" t) as [a|], (Py.rfind_nat "}" t) as [b|];
        cbn [Py.index_or_minus_one].
      * replace (negb (Z.of_nat a =? -1) && negb (Z.of_nat b + 1 =? 0))%bool with true.
        { reflexivity. }
        symmetry. apply andb_true_intro.
        split; apply negb_true_iff, Z.eqb_neq; lia.
      * replace (negb (Z.of_nat a =? -1) && negb (-1 + 1 =? 0))%bool with false
          by (simpl; now rewrite andb_false_r).
        reflexivity.
      * reflexivity.
      * reflexivity.
Qed.

(** C4, where the code departs from it. On a reply with an opening fence
    and no closing one, [find] answers -1 and the slice drops the last
    character of the reply: here the text that is decoded is "{}" and its
    value is returned, not the fallback record. *)
Theorem parse_ai_response_unclosed_fence :
  json_loads "{}" = Ok (JDict []) ->
  let text := "```json{}x" in
  Py.find_from text "```" (Py.find text "```json" + 7) = -1
  /\ described_candidate text = None
  /\ parse_ai_response (Some text) = Ok (JDict [])
  /\ parse_ai_response (Some text) <> decode_or_fallback (described_candidate text).
Proof.
  intros Hloads text.
  assert (parse_ai_response (Some text) = Ok (JDict [])) as Hparse.
  { unfold MultiFileAnalysisService.parse_ai_response,
      MultiFileAnalysisService.parse_ai_response_try.
    cbn [bind].
    replace (MultiFileAnalysisService.extract_json (Py.strip text)) with (Ok "{}")
      by (vm_compute; reflexivity).
    cbn [bind]. now rewrite Hloads. }
  split; [vm_compute; reflexivity|].
  split; [vm_compute; reflexivity|].
  split; [exact Hparse|].
  rewrite Hparse.
  replace (described_candidate text) with (@None string) by (vm_compute; reflexivity).
  discriminate.
Qed.

End ParseProperties.

Lemma parse_ai_response_unclosed_fence_witness :
  Sample.json_loads "{}" = Ok (JDict [])
  /\ MultiFileAnalysisService.parse_ai_response Sample.json_loads (Some "```json{}x")
     = Ok (JDict []).
Proof.
  split; [reflexivity|].
  apply (parse_ai_response_unclosed_fence Sample.json_loads).
  reflexivity.
Defined.

(** ** The score average *)

Lemma round_half_even_nearest (a b : Z) :
  0 < b -> nearest_even a b (PyFloat.round_half_even a b).
Proof.
  intros Hb. unfold PyFloat.round_half_even, nearest_even.
  pose proof (Z.div_mod a b ltac:(lia)) as Hdiv.
  pose proof (Z.mod_pos_bound a b Hb) as Hmod.
  set (q := a / b) in *. set (r := a mod b) in *.
  destruct (Z.ltb_spec (2 * r) b) as [H1|H1].
  - split; [nia|]. intros [H|H]; nia.
  - destruct (Z.ltb_spec b (2 * r)) as [H2|H2].
    + split; [nia|]. intros [H|H]; nia.
    + assert (2 * r = b) as Hr by lia.
      destruct (Z.even q) eqn:Hq.
      * split; [nia | intros _; exact Hq].
      * split; [nia|]. intros _.
        rewrite Z.even_add, Hq. reflexivity.
Qed.

Lemma nearest_even_unique (a b z z' : Z) :
  0 < b -> nearest_even a b z -> nearest_even a b z' -> z = z'.
Proof.
  intros Hb [Hz Hez] [Hz' Hez'].
  assert (z' - 1 <= z <= z' + 1) as Hclose by nia.
  destruct (Z.eq_dec z z') as [|Hne]; [assumption|exfalso].
  assert (z = z' + 1 \/ z = z' - 1) as [->| ->] by lia.
  - assert (2 * a = b * (2 * z' + 1)) as Ht by nia.
    assert (Z.even (z' + 1) = true) as He1 by (apply Hez; left; nia).
    assert (Z.even z' = true) as He2 by (apply Hez'; now right).
    rewrite Z.even_add, He2 in He1. discriminate.
  - assert (2 * a = b * (2 * z' - 1)) as Ht by nia.
    assert (Z.even (z' - 1) = true) as He1 by (apply Hez; right; nia).
    assert (Z.even z' = true) as He2 by (apply Hez'; now left).
    rewrite Z.even_sub, He2 in He1. discriminate.
Qed.

Lemma round_half_even_opp (a b : Z) :
  0 < b -> PyFloat.round_half_even (- a) b = - PyFloat.round_half_even a b.
Proof.
  intros Hb. apply (nearest_even_unique (- a) b); [assumption | now apply round_half_even_nearest |].
  destruct (round_half_even_nearest a b Hb) as [Hz Hez].
  split; [nia|]. rewrite Z.even_opp. intros [H|H]; apply Hez; nia.
Qed.

(** Rounding to a grid of step [1 / 2^k] first does no harm when the grid is
    finer than [1 / b]. *)
Lemma round_half_even_twice (a b k : Z) :
  0 < b -> 1 <= k -> b < 2 ^ k ->
  PyFloat.round_half_even (PyFloat.round_half_even (a * 2 ^ k) b) (2 ^ k) =
  PyFloat.round_half_even a b.
Proof.
  intros Hb Hk Hfine.
  assert (0 < 2 ^ k) as Hp by (apply Z.pow_pos_nonneg; lia).
  assert (exists h, 2 ^ k = 2 * h) as [h Hh].
  { exists (2 ^ (k - 1)). rewrite <- Z.pow_succ_r by lia. f_equal. lia. }
  symmetry.
  apply (nearest_even_unique (PyFloat.round_half_even (a * 2 ^ k) b) (2 ^ k));
    [assumption | | now apply round_half_even_nearest].
  destruct (round_half_even_nearest a b Hb) as [Hz Hez].
  destruct (round_half_even_nearest (a * 2 ^ k) b Hb) as [Hm _].
  set (z := PyFloat.round_half_even a b) in *.
  set (m := PyFloat.round_half_even (a * 2 ^ k) b) in *.
  set (p := 2 ^ k) in *.
  assert (2 * a = b * (2 * z - 1) \/ 2 * a = b * (2 * z + 1)
          \/ (b * (2 * z - 1) + 1 <= 2 * a <= b * (2 * z + 1) - 1)) as Hcase by lia.
  destruct Hcase as [Ht|[Ht|Hs]].
  - assert (m = h * (2 * z - 1)) as Hmeq by nia.
    split; [nia|]. intros _. apply Hez. now left.
  - assert (m = h * (2 * z + 1)) as Hmeq by nia.
    split; [nia|]. intros _. apply Hez. now right.
  - assert (p * (2 * z - 1) < 2 * m < p * (2 * z + 1)) as Hstrict by nia.
    split; [nia|]. intros [H|H]; nia.
Qed.

Lemma reaches_floor_log2_quot (a b : Z) :
  0 < a -> 0 < b -> PyFloat.reaches a b (PyFloat.floor_log2_quot a b) = true.
Proof.
  intros Ha Hb. unfold PyFloat.floor_log2_quot.
  destruct (PyFloat.reaches a b (Z.log2 a - Z.log2 b)) eqn:Hd; [exact Hd|].
  clear Hd. unfold PyFloat.reaches.
  pose proof (Z.log2_spec a Ha) as [Hla _].
  pose proof (Z.log2_spec b Hb) as [_ Hlb].
  pose proof (Z.log2_nonneg a) as Hna.
  pose proof (Z.log2_nonneg b) as Hnb.
  set (la := Z.log2 a) in *. set (lb := Z.log2 b) in *.
  destruct (Z.leb_spec 0 (la - lb - 1)) as [Hpos|Hneg].
  - apply Z.leb_le.
    assert (2 ^ la = 2 ^ (la - lb - 1) * 2 ^ Z.succ lb) as Hsplit
        by (rewrite <- Z.pow_add_r by lia; f_equal; lia).
    assert (0 < 2 ^ (la - lb - 1)) by (apply Z.pow_pos_nonneg; lia).
    nia.
  - apply Z.leb_le.
    assert (2 ^ Z.succ lb = 2 ^ la * 2 ^ (- (la - lb - 1))) as Hsplit
        by (rewrite <- Z.pow_add_r by lia; f_equal; lia).
    assert (0 < 2 ^ (- (la - lb - 1))) by (apply Z.pow_pos_nonneg; lia).
    nia.
Qed.

Lemma quantum_fine (a b : Z) :
  0 < a < 2 ^ 52 -> 0 < b < 2 ^ 63 ->
  let e := Z.max (PyFloat.floor_log2_quot a b - (PyFloat.mantissa_bits - 1)) PyFloat.emin in
  e <= -1 /\ b < 2 ^ (- e).
Proof.
  intros [Ha Ha'] [Hb Hb'].
  pose proof (reaches_floor_log2_quot a b Ha Hb) as Hreach.
  unfold PyFloat.mantissa_bits, PyFloat.emin.
  set (fl := PyFloat.floor_log2_quot a b) in *.
  unfold PyFloat.reaches in Hreach.
  assert (fl <= 51) as Hfl.
  { destruct (Z.leb_spec 0 fl) as [Hpos|Hneg]; [|lia].
    apply Z.leb_le in Hreach.
    destruct (Z.le_gt_cases fl 51) as [|Hbig]; [assumption|exfalso].
    assert (2 ^ 52 <= 2 ^ fl) by (apply Z.pow_le_mono_r; lia).
    nia. }
  assert (b < 2 ^ (52 - fl)) as Hb52.
  { destruct (Z.leb_spec 0 fl) as [Hpos|Hneg]; apply Z.leb_le in Hreach.
    - assert (2 ^ 52 = 2 ^ (52 - fl) * 2 ^ fl) as Hsplit
          by (rewrite <- Z.pow_add_r by lia; f_equal; lia).
      assert (0 < 2 ^ fl) by (apply Z.pow_pos_nonneg; lia).
      nia.
    - assert (2 ^ (52 - fl) = 2 ^ 52 * 2 ^ (- fl)) as Hsplit
          by (rewrite <- Z.pow_add_r by lia; f_equal; lia).
      assert (0 < 2 ^ (- fl)) by (apply Z.pow_pos_nonneg; lia).
      nia. }
  cbv zeta.
  destruct (Z.max_spec (fl - (53 - 1)) (-1074)) as [[Hlt ->]|[Hge ->]].
  - split; [lia|].
    assert (2 ^ 63 < 2 ^ (- -1074)) by (apply Z.pow_lt_mono_r; lia).
    lia.
  - split; [lia|]. replace (- (fl - (53 - 1))) with (52 - fl) by lia. exact Hb52.
Qed.

Lemma truediv_round (a b : Z) :
  0 < b < 2 ^ 63 -> Z.abs a < 2 ^ 52 ->
  bind (PyFloat.truediv a b) PyFloat.round = Ok (PyFloat.round_half_even a b).
Proof.
  intros Hb Ha. unfold PyFloat.truediv.
  destruct (Z.eqb_spec b 0) as [|_]; [lia|].
  destruct (Z.eqb_spec a 0) as [->|Hne].
  - simpl. f_equal. unfold PyFloat.round_half_even.
    rewrite Z.div_0_l, Z.mod_0_l by lia.
    destruct (Z.ltb_spec (2 * 0) b); [reflexivity | lia].
  - unfold PyFloat.nearest.
    destruct (quantum_fine (Z.abs a) (Z.abs b)) as [He Hfine];
      [lia | rewrite Z.abs_eq by lia; lia |].
    set (e := Z.max _ _) in *.
    destruct (Z.leb_spec 0 e) as [|_]; [lia|].
    cbn [andb bind PyFloat.round].
    destruct (Z.leb_spec 0 e) as [|_]; [lia|].
    f_equal.
    rewrite (Z.abs_eq b) in * by lia.
    rewrite (Z.sgn_pos b), Z.mul_1_r by lia.
    destruct (Z.abs_spec a) as [[Hpos ->]|[Hneg ->]].
    + rewrite Z.sgn_pos, Z.mul_1_l by lia.
      apply round_half_even_twice; lia.
    + rewrite Z.sgn_neg by lia.
      replace (-1 * PyFloat.round_half_even (- a * 2 ^ (- e)) b)
        with (- PyFloat.round_half_even (- a * 2 ^ (- e)) b) by lia.
      assert (0 < 2 ^ (- e)) by (apply Z.pow_pos_nonneg; lia).
      rewrite round_half_even_opp by lia.
      rewrite round_half_even_twice by lia.
      rewrite round_half_even_opp by lia. lia.
Qed.

(** The model of the division agrees with the floating-point unit. *)
Example truediv_hardware :
  PyFloat.truediv 6755399441055748 3 = Ok (Finite 4503599627370499 (-1))
  /\ hardware_quotient 6755399441055748 3 = S754_finite false 4503599627370499 (-1)
  /\ PyFloat.truediv 1 10 = Ok (Finite 7205759403792794 (-56))
  /\ hardware_quotient 1 10 = S754_finite false 7205759403792794 (-56).
Proof. repeat split; vm_compute; reflexivity. Qed.

(** C3, as the code has it. The overall score of no record at all is 5.
    For records (fewer than [2^63], as in every Python list) whose scores
    add up to less than [2^52] in absolute value, it is the integer nearest
    to the arithmetic mean of the scores, the even one when two integers
    are as near. *)
Theorem calculate_overall_score_mean (file_analyses : list FileFeedback.t) :
  py_len file_analyses < 2 ^ 63 ->
  Z.abs (py_sum (scores file_analyses)) < 2 ^ 52 ->
  exists z : Z,
    MultiFileAnalysisService.calculate_overall_score file_analyses = Ok z
    /\ (file_analyses = [] -> z = 5)
    /\ (file_analyses <> [] ->
        nearest_even (py_sum (scores file_analyses)) (py_len file_analyses) z).
Proof.
  intros Hlen Hsum.
  destruct file_analyses as [|fa fas].
  - exists 5. split; [reflexivity|]. split; [reflexivity|].
    intros Hne. now contradiction Hne.
  - set (l := fa :: fas) in *.
    assert (0 < py_len l) as Hpos by (unfold py_len; simpl; lia).
    exists (PyFloat.round_half_even (py_sum (scores l)) (py_len l)).
    split; [|split].
    + apply (truediv_round (py_sum (scores l)) (py_len l)); lia.
    + discriminate.
    + intros _. now apply round_half_even_nearest.
Qed.

Lemma calculate_overall_score_mean_witness :
  let l := [scored 7; scored 8] in
  py_len l < 2 ^ 63
  /\ Z.abs (py_sum (scores l)) < 2 ^ 52
  /\ exists z : Z,
      MultiFileAnalysisService.calculate_overall_score l = Ok z
      /\ (l = [] -> z = 5)
      /\ (l <> [] -> nearest_even (py_sum (scores l)) (py_len l) z).
Proof.
  split; [reflexivity|]. split; [reflexivity|].
  apply (calculate_overall_score_mean [scored 7; scored 8]); reflexivity.
Defined.

(** The scores that refute C3 as it is stated: the mean of [2^51 + 1],
    [2^51 + 1] and [2^51 + 2] is a third above [2^51 + 1], the quotient is
    rounded to the float [2^51 + 1.5], and the score is [2^51 + 2]. *)
Lemma calculate_overall_score_inexact :
  let l := [scored (2 ^ 51 + 1); scored (2 ^ 51 + 1); scored (2 ^ 51 + 2)] in
  MultiFileAnalysisService.calculate_overall_score l = Ok (2 ^ 51 + 2)
  /\ ~ nearest_even (py_sum (scores l)) (py_len l) (2 ^ 51 + 2)
  /\ nearest_even (py_sum (scores l)) (py_len l) (2 ^ 51 + 1).
Proof.
  split; [vm_compute; reflexivity|].
  split.
  - intros [[Hlow _] _]. vm_compute in Hlow. now apply Hlow.
  - split; [vm_compute; split; discriminate|].
    intros [H|H]; vm_compute in H; discriminate.
Qed.

(** ** Worked examples *)

Example slice_drops_last : Py.slice "abcdef" 2 (-1) = "cde".
Proof. reflexivity. Qed.

Example find_from_fence : Py.find_from "a```b```" "```" 4 = 5.
Proof. reflexivity. Qed.

Example rfind_brace : Py.rfind "{a}{b}" "}" = 5 /\ Py.rfind "abc" "}" = -1.
Proof. split; reflexivity. Qed.

Example strip_both_ends : Py.strip "  a b  " = "a b".
Proof. reflexivity. Qed.

Example split_on_dot : Py.split "." "a.b.c" = ["a"; "b"; "c"].
Proof. reflexivity. Qed.

Example str_of_int_samples :
  Py.str_of_int 120 = "120" /\ Py.str_of_int 0 = "0" /\ Py.str_of_int (-3) = "-3".
Proof. repeat split; reflexivity. Qed.

Example detect_language_samples :
  AIService.detect_language_from_filename "Main.JAVA" = JAVA
  /\ AIService.detect_language_from_filename "archive.tar.tsx" = TYPESCRIPT
  /\ AIService.detect_language_from_filename "Makefile" = PYTHON
  /\ AIService.detect_language_from_filename "notes.txt" = PYTHON
  /\ AIService.detect_language_from_filename "src.d/readme" = PYTHON.
Proof. repeat split; reflexivity. Qed.

Example parse_fenced_reply :
  MultiFileAnalysisService.parse_ai_response Sample.json_loads
    (Some "Here it is: ```json {} ``` as asked.") = Ok (JDict []).
Proof. reflexivity. Qed.

Example parse_braces_in_prose :
  MultiFileAnalysisService.parse_ai_response Sample.json_loads
    (Some "The result is {} and nothing more") = Ok (JDict []).
Proof. reflexivity. Qed.

Example parse_no_json :
  MultiFileAnalysisService.parse_ai_response Sample.json_loads (Some "hello")
  = Ok MultiFileAnalysisService.fallback_record.
Proof. reflexivity. Qed.

Example analyze_code_empty_object :
  AIService.analyze_code_result Sample.json_loads (Ok (Some "{}"))
  = AIService.error_record (ValueError "Invalid response structure").
Proof. reflexivity. Qed.

Example analyze_code_not_json :
  AIService.analyze_code_result Sample.json_loads (Ok (Some "{oops}"))
  = AIService.parse_issue_record.
Proof. reflexivity. Qed.

Example analyze_single_file_list_reply :
  MultiFileAnalysisService.analyze_single_file_result
    Sample.json_loads Sample.lax_str Sample.lax_int Sample.validation_error
    (FileInfo.make "a.py" "x = 1" PYTHON) (Ok (Some "[]"))
  = MultiFileAnalysisService.single_file_error (FileInfo.make "a.py" "x = 1" PYTHON)
      (AttributeError "'list' object has no attribute 'get'").
Proof. reflexivity. Qed.

Example analyze_codebase_one_file :
  outcome (run (Sample.constant_client "{}") tt
               (Sample.analyze_codebase Sample.one_file "demo"))
  = Ok (MultiFileReviewResponse.make "demo"
          [FileFeedback.make "a.py" [] "Analysis for a.py" 5] []
          excellent_narrative 5 1 0).
Proof. reflexivity. Qed.

Example overall_score_samples :
  MultiFileAnalysisService.calculate_overall_score [scored 2; scored 3] = Ok 2
  /\ MultiFileAnalysisService.calculate_overall_score [scored 3; scored 4] = Ok 4
  /\ MultiFileAnalysisService.calculate_overall_score [scored 7; scored 8; scored 8] = Ok 8
  /\ MultiFileAnalysisService.calculate_overall_score [] = Ok 5.
Proof. repeat split; reflexivity. Qed.

(** * Further properties *)

(** ** Extraction of the JSON text *)



Lemma append_assoc (a b c : string) : (a ++ b) ++ c = a ++ b ++ c.
Proof. induction a as [|x a IH]; simpl; [reflexivity | now rewrite IH]. Qed.

Lemma append_nil_r (a : string) : a ++ "" = a.
Proof. induction a as [|x a IH]; simpl; [reflexivity | now rewrite IH]. Qed.

Lemma length_append (a b : string) :
  String.length (a ++ b) = (String.length a + String.length b)%nat.
Proof. induction a as [|x a IH]; simpl; [reflexivity | now rewrite IH]. Qed.

Lemma prefix_append (sub s : string) : prefix sub (sub ++ s) = true.
Proof.
  induction sub as [|a sub IH]; simpl append; [apply prefix_empty|].
  now rewrite prefix_cons, Ascii.eqb_refl, IH.
Qed.

Lemma find_nat_here (sub s : string) : Py.find_nat sub (sub ++ s) = Some 0%nat.
Proof.
  destruct sub as [|a sub]; [destruct s; reflexivity|].
  simpl append. rewrite find_nat_cons.
  change (String a (sub ++ s)) with (String a sub ++ s).
  now rewrite prefix_append.
Qed.

(** A pattern that starts with [x] is not found before the first [x]. *)
Lemma find_nat_skip (x : ascii) (m p s : string) :
  free_of x p = true ->
  Py.find_nat (String x m) (p ++ s) =
  option_map (Nat.add (String.length p)) (Py.find_nat (String x m) s).
Proof.
  induction p as [|c p IH]; simpl free_of; intros Hfree.
  - simpl. now destruct (Py.find_nat (String x m) s).
  - apply andb_prop in Hfree as [Hc Hp].
    simpl append. rewrite find_nat_cons, prefix_cons.
    rewrite Ascii.eqb_sym. apply negb_true_iff in Hc. rewrite Hc. simpl andb.
    rewrite (IH Hp). now destruct (Py.find_nat (String x m) s).
Qed.

Lemma find_nat_absent (x : ascii) (m p : string) :
  free_of x p = true -> Py.find_nat (String x m) p = None.
Proof.
  induction p as [|c p IH]; simpl free_of; intros Hfree; [reflexivity|].
  apply andb_prop in Hfree as [Hc Hp].
  rewrite find_nat_cons, prefix_cons.
  rewrite Ascii.eqb_sym. apply negb_true_iff in Hc. rewrite Hc. simpl andb.
  now rewrite (IH Hp).
Qed.

Lemma rfind_nat_absent (x : ascii) (q : string) :
  free_of x q = true -> Py.rfind_nat (String x "") q = None.
Proof.
  induction q as [|c q IH]; simpl free_of; intros Hfree; [reflexivity|].
  apply andb_prop in Hfree as [Hc Hq].
  cbn [Py.rfind_nat]. rewrite (IH Hq), prefix_cons.
  rewrite Ascii.eqb_sym. apply negb_true_iff in Hc. now rewrite Hc.
Qed.

Lemma rfind_nat_last (x : ascii) (a q : string) :
  free_of x q = true ->
  Py.rfind_nat (String x "") (a ++ String x q) = Some (String.length a).
Proof.
  intros Hq. induction a as [|c a IH].
  - simpl append. cbn [Py.rfind_nat].
    now rewrite (rfind_nat_absent x q Hq), prefix_cons, Ascii.eqb_refl, prefix_empty.
  - simpl append. cbn [Py.rfind_nat]. now rewrite IH.
Qed.

Lemma substring_skip (a s : string) (n m : nat) :
  substring (String.length a + n) m (a ++ s) = substring n m s.
Proof. induction a as [|c a IH]; simpl; [reflexivity | exact IH]. Qed.

Lemma substring_prefix (b c : string) :
  substring 0 (String.length b) (b ++ c) = b.
Proof.
  induction b as [|x b IH]; simpl.
  - now destruct c.
  - now rewrite IH.
Qed.

(** The slice that cuts [b] out of [a ++ b ++ c]. *)
Lemma slice_middle (a b c : string) :
  Py.slice (a ++ b ++ c) (Z.of_nat (String.length a))
           (Z.of_nat (String.length a) + Z.of_nat (String.length b)) = b.
Proof.
  unfold Py.slice, Py.len, Py.clamp.
  rewrite !length_append.
  set (la := String.length a). set (lb := String.length b). set (lc := String.length c).
  destruct (Z.ltb_spec (Z.of_nat la) 0) as [|_]; [lia|].
  destruct (Z.ltb_spec (Z.of_nat la + Z.of_nat lb) 0) as [|_]; [lia|].
  rewrite !Z.min_l by lia.
  destruct (Z.ltb_spec (Z.of_nat la) (Z.of_nat la + Z.of_nat lb)) as [Hlt|Hge].
  - replace (Z.to_nat (Z.of_nat la)) with (la + 0)%nat by lia.
    replace (Z.to_nat (Z.of_nat la + Z.of_nat lb - Z.of_nat la)) with lb by lia.
    subst la lb. now rewrite substring_skip, substring_prefix.
  - assert (lb = 0%nat) as Hb by lia. subst lb.
    now destruct b.
Qed.

Lemma slice_rest (a b : string) :
  Py.slice (a ++ b) (Z.of_nat (String.length a)) (Py.len (a ++ b)) = b.
Proof.
  pose proof (slice_middle a b "") as H.
  rewrite append_nil_r in H. rewrite <- H at 3.
  f_equal. unfold Py.len. rewrite length_append. lia.
Qed.


Lemma fenced_steps (p body rest : string) :
  free_of backtick p = true -> free_of backtick body = true ->
  let t := p ++ "```json" ++ body ++ "```" ++ rest in
  Py.contains t "```json" = true
  /\ Py.slice t (Py.find t "```json" + 7)
              (Py.find_from t "```" (Py.find t "```json" + 7)) = body.
Proof.
  intros Hp Hbody t.
  assert (Py.find_nat "```json" t = Some (String.length p)) as Hfind.
  { unfold t. rewrite (find_nat_skip backtick "``json" p _ Hp).
    rewrite (find_nat_here "```json"). simpl. f_equal. lia. }
  assert (t = (p ++ "```json") ++ body ++ "```" ++ rest) as Ht
      by (unfold t; now rewrite append_assoc).
  assert (Z.of_nat (String.length (p ++ "```json")) = Z.of_nat (String.length p) + 7) as Hlen
      by (rewrite length_append; simpl; lia).
  split.
  - unfold Py.contains. now rewrite Hfind.
  - unfold Py.find. rewrite Hfind. cbn [Py.index_or_minus_one].
    assert (Py.find_from t "```" (Z.of_nat (String.length p) + 7)
            = Z.of_nat (String.length p) + 7 + Z.of_nat (String.length body)) as Hend.
    { unfold Py.find_from.
      assert ((Py.len t <? Z.of_nat (String.length p) + 7) = false) as ->.
      { apply Z.ltb_ge. rewrite Ht. unfold Py.len. rewrite length_append. lia. }
      assert (Py.clamp (Py.len t) (Z.of_nat (String.length p) + 7)
              = Z.of_nat (String.length p) + 7) as ->.
      { unfold Py.clamp.
        destruct (Z.ltb_spec (Z.of_nat (String.length p) + 7) 0); [lia|].
        apply Z.min_l. rewrite Ht. unfold Py.len. rewrite length_append. lia. }
      rewrite <- Hlen. rewrite Ht at 1 2. rewrite slice_rest.
      rewrite (find_nat_skip backtick "``" body _ Hbody).
      rewrite (find_nat_here "```"). simpl. f_equal. lia. }
    rewrite Hend, <- Hlen, Ht. apply slice_middle.
Qed.

(** A JSON text in a fence is found: with no backtick in the prose before
    the fence nor in the fenced text, both services take the text between
    the fences, stripped, whatever follows the closing fence. *)
Theorem extract_json_fenced (p body rest : string) :
  free_of backtick p = true -> free_of backtick body = true ->
  let t := p ++ "```json" ++ body ++ "```" ++ rest in
  MultiFileAnalysisService.extract_json t = Ok (Py.strip body)
  /\ AIService.extract_json t = Ok (Py.strip body).
Proof.
  intros Hp Hbody t.
  destruct (fenced_steps p body rest Hp Hbody) as [Hc Hs]. fold t in Hc, Hs.
  unfold MultiFileAnalysisService.extract_json, AIService.extract_json.
  cbv zeta. now rewrite Hc, Hs.
Qed.


(** A JSON object in prose is found: in a reply without fence that begins
    with some prose free of braces (and of an opening bracket at its start),
    the text from the first opening brace to the last closing brace is
    taken. *)
Theorem extract_json_braces (c : ascii) (p body q : string) :
  let prose := String c p in
  let t := prose ++ "{" ++ body ++ "}" ++ q in
  free_of "{" prose = true ->
  Ascii.eqb c "[" = false ->
  free_of "}" q = true ->
  Py.contains t "```json" = false ->
  MultiFileAnalysisService.extract_json t = Ok ("{" ++ body ++ "}")
  /\ AIService.extract_json t = Ok ("{" ++ body ++ "}").
Proof.
  intros prose t Hprose Hbracket Hq Hfence.
  assert (Py.startswith t "{" = false) as Hbrace.
  { unfold Py.startswith, t, prose. simpl append. rewrite prefix_cons.
    simpl in Hprose. apply andb_prop in Hprose as [Hc _].
    apply negb_true_iff in Hc. now rewrite Ascii.eqb_sym, Hc. }
  assert (Py.startswith t "[" = false) as Hbrack.
  { unfold Py.startswith, t, prose. simpl append. rewrite prefix_cons.
    now rewrite Ascii.eqb_sym, Hbracket. }
  assert (Py.find t "{" = Z.of_nat (String.length prose)) as Hfind.
  { unfold Py.find, t. rewrite (find_nat_skip "{" "" prose _ Hprose).
    rewrite (find_nat_here "{"). simpl. f_equal. lia. }
  assert (t = (prose ++ "{" ++ body) ++ String "}" q) as Ht.
  { unfold t. now rewrite !append_assoc. }
  assert (Py.rfind t "}" = Z.of_nat (String.length prose)
                           + Z.of_nat (String.length ("{" ++ body ++ "}")) - 1) as Hrfind.
  { unfold Py.rfind. rewrite Ht, (rfind_nat_last "}" _ q Hq).
    cbn [Py.index_or_minus_one]. rewrite !length_append. cbn [String.length]. lia. }
  assert (Py.slice t (Py.find t "{") (Py.rfind t "}" + 1) = "{" ++ body ++ "}") as Hslice.
  { rewrite Hfind, Hrfind.
    replace (Z.of_nat (String.length prose)
             + Z.of_nat (String.length ("{" ++ body ++ "}")) - 1 + 1)
      with (Z.of_nat (String.length prose)
            + Z.of_nat (String.length ("{" ++ body ++ "}"))) by lia.
    assert (t = prose ++ ("{" ++ body ++ "}") ++ q) as -> by (unfold t; now rewrite !append_assoc).
    apply slice_middle. }
  assert ((negb (Py.find t "{" =? -1) && negb (Py.rfind t "}" + 1 =? 0))%bool = true) as Hcond.
  { rewrite Hfind, Hrfind.
    assert (0 < Z.of_nat (String.length prose)) by (unfold prose; cbn [String.length]; lia).
    apply andb_true_intro.
    split; apply negb_true_iff, Z.eqb_neq; lia. }
  unfold MultiFileAnalysisService.extract_json, AIService.extract_json.
  cbv zeta. now rewrite Hfence, Hbrace, Hbrack, Hcond, Hslice.
Qed.

(** The two copies of the extraction differ only on a reply that starts
    with an opening bracket, and then only in the message of the error. *)
Theorem extract_json_agree (response_text : string) :
  Py.startswith response_text "[" = false ->
  MultiFileAnalysisService.extract_json response_text =
  match AIService.extract_json response_text with
  | Ok json_content => Ok json_content
  | Raise _ => Raise (ValueError "No valid JSON found")
  end.
Proof.
  intros Hbracket.
  unfold MultiFileAnalysisService.extract_json, AIService.extract_json.
  cbv zeta. rewrite Hbracket, orb_false_r.
  destruct (Py.contains response_text "```json"); [reflexivity|].
  destruct (Py.startswith response_text "{"); [reflexivity|].
  now destruct (_ && _)%bool.
Qed.


Lemma lstrip_all_space (w : string) : all_space w = true -> Py.lstrip w = "".
Proof.
  induction w as [|c w IH]; simpl; [reflexivity|].
  intros H. apply andb_prop in H as [Hc Hw]. now rewrite Hc, IH.
Qed.

Lemma lstrip_app_space (w s : string) :
  all_space w = true -> Py.lstrip (w ++ s) = Py.lstrip s.
Proof.
  induction w as [|c w IH]; simpl; [reflexivity|].
  intros H. apply andb_prop in H as [Hc Hw]. now rewrite Hc, IH.
Qed.

Lemma lstrip_app (t w : string) :
  Py.lstrip (t ++ w) = match Py.lstrip t with
                       | EmptyString => Py.lstrip w
                       | String c r => String c r ++ w
                       end.
Proof.
  induction t as [|c t IH]; simpl.
  - now destruct (Py.lstrip w).
  - now destruct (Py.isspace c).
Qed.

Lemma rstrip_all_space (w : string) : all_space w = true -> Py.rstrip w = "".
Proof.
  induction w as [|c w IH]; simpl; [reflexivity|].
  intros H. apply andb_prop in H as [Hc Hw]. now rewrite IH, Hc.
Qed.

Lemma rstrip_app_space (s w : string) :
  all_space w = true -> Py.rstrip (s ++ w) = Py.rstrip s.
Proof.
  intros Hw. induction s as [|c s IH]; simpl.
  - now apply rstrip_all_space.
  - now rewrite IH.
Qed.

Lemma strip_padding (ws1 text ws2 : string) :
  all_space ws1 = true -> all_space ws2 = true ->
  Py.strip (ws1 ++ text ++ ws2) = Py.strip text.
Proof.
  intros H1 H2. unfold Py.strip.
  rewrite lstrip_app_space by assumption.
  rewrite lstrip_app.
  destruct (Py.lstrip text) as [|c r].
  - now rewrite lstrip_all_space.
  - now apply rstrip_app_space.
Qed.

(** White space around the reply changes nothing: every function that
    reads the reply gives the same result on the padded text. *)
Theorem reply_padding_ignored
    (json_loads : string -> result json)
    (lax_str : json -> option string) (lax_int : json -> option Z)
    (validation_error : string -> dict -> string)
    (ws1 text ws2 : string) (file_info : FileInfo.t) :
  all_space ws1 = true -> all_space ws2 = true ->
  let padded := Ok (Some (ws1 ++ text ++ ws2)) in
  let plain := Ok (Some text) in
  MultiFileAnalysisService.parse_ai_response json_loads (Some (ws1 ++ text ++ ws2))
    = MultiFileAnalysisService.parse_ai_response json_loads (Some text)
  /\ MultiFileAnalysisService.analyze_single_file_result
       json_loads lax_str lax_int validation_error file_info padded
     = MultiFileAnalysisService.analyze_single_file_result
         json_loads lax_str lax_int validation_error file_info plain
  /\ MultiFileAnalysisService.cross_file_result
       json_loads lax_str lax_int validation_error padded
     = MultiFileAnalysisService.cross_file_result
         json_loads lax_str lax_int validation_error plain
  /\ AIService.analyze_code_result json_loads padded
     = AIService.analyze_code_result json_loads plain.
Proof.
  intros H1 H2 padded plain.
  assert (MultiFileAnalysisService.parse_ai_response json_loads (Some (ws1 ++ text ++ ws2))
          = MultiFileAnalysisService.parse_ai_response json_loads (Some text)) as Hparse.
  { unfold MultiFileAnalysisService.parse_ai_response,
      MultiFileAnalysisService.parse_ai_response_try.
    cbn [bind]. now rewrite strip_padding. }
  split; [exact Hparse|].
  split; [|split].
  - unfold MultiFileAnalysisService.analyze_single_file_result,
      MultiFileAnalysisService.analyze_single_file_try, padded, plain.
    cbn [bind]. now rewrite Hparse.
  - unfold MultiFileAnalysisService.cross_file_result,
      MultiFileAnalysisService.cross_file_try, padded, plain.
    cbn [bind]. now rewrite Hparse.
  - unfold AIService.analyze_code_result, AIService.analyze_code_try, padded, plain.
    cbn [bind]. now rewrite strip_padding.
Qed.

Lemma extract_json_fenced_witness :
  free_of backtick "Here you go: " = true
  /\ free_of backtick " {} " = true
  /\ MultiFileAnalysisService.extract_json
       ("Here you go: " ++ "```json" ++ " {} " ++ "```" ++ " Anything else?") = Ok "{}"
  /\ AIService.extract_json
       ("Here you go: " ++ "```json" ++ " {} " ++ "```" ++ " Anything else?") = Ok "{}".
Proof.
  split; [reflexivity|]. split; [reflexivity|].
  apply (extract_json_fenced "Here you go: " " {} " " Anything else?"); reflexivity.
Defined.

Lemma extract_json_braces_witness :
  free_of "{" "Sure: " = true
  /\ free_of "}" " Bye." = true
  /\ Py.contains "Sure: {} Bye." "```json" = false
  /\ MultiFileAnalysisService.extract_json "Sure: {} Bye." = Ok "{}"
  /\ AIService.extract_json "Sure: {} Bye." = Ok "{}".
Proof.
  split; [reflexivity|]. split; [reflexivity|]. split; [reflexivity|].
  apply (extract_json_braces "S" "ure: " "" " Bye."); reflexivity.
Defined.

Lemma extract_json_agree_witness :
  Py.startswith "no json here" "[" = false
  /\ MultiFileAnalysisService.extract_json "no json here" =
     match AIService.extract_json "no json here" with
     | Ok json_content => Ok json_content
     | Raise _ => Raise (ValueError "No valid JSON found")
     end.
Proof.
  split; [reflexivity|].
  apply (extract_json_agree "no json here"). reflexivity.
Defined.

Lemma reply_padding_ignored_witness :
  all_space "  " = true
  /\ all_space (Py.nl ++ " ") = true
  /\ MultiFileAnalysisService.parse_ai_response Sample.json_loads
       (Some ("  " ++ "{}" ++ Py.nl ++ " "))
     = MultiFileAnalysisService.parse_ai_response Sample.json_loads (Some "{}").
Proof.
  split; [reflexivity|]. split; [reflexivity|].
  exact (proj1 (reply_padding_ignored Sample.json_loads Sample.lax_str Sample.lax_int
                  Sample.validation_error "  " "{}" (Py.nl ++ " ") Demo.file_a
                  eq_refl eq_refl)).
Defined.

(** ** [parse_ai_response] on a text *)

Section ParseMore.

Variable json_loads : string -> result json.


Lemma multi_extract_json_raises (response_text : string) (e : exn) :
  MultiFileAnalysisService.extract_json response_text = Raise e ->
  e = ValueError "No valid JSON found".
Proof.
  unfold MultiFileAnalysisService.extract_json.
  destruct (Py.contains _ _); [discriminate|].
  destruct (_ || _)%bool; [discriminate|].
  destruct (_ && _)%bool; [discriminate | now intros [= <-]].
Qed.

(** On a reply that has a text, [parse_ai_response] returns, with a value
    of the decoder or with the fallback record, as long as the decoder
    raises nothing but [ValueError]s. *)
Theorem parse_ai_response_returns (text : string) :
  decoder_raises_value_errors json_loads ->
  exists v : json,
    MultiFileAnalysisService.parse_ai_response json_loads (Some text) = Ok v
    /\ (v = MultiFileAnalysisService.fallback_record
        \/ exists json_content : string, json_loads json_content = Ok v).
Proof.
  intros Hdec.
  unfold MultiFileAnalysisService.parse_ai_response,
    MultiFileAnalysisService.parse_ai_response_try.
  cbn [bind].
  destruct (MultiFileAnalysisService.extract_json (Py.strip text)) as [c|e] eqn:He.
  - cbn [bind]. destruct (json_loads c) as [v|e] eqn:Hc.
    + exists v. split; [reflexivity | right; now exists c].
    + rewrite (Hdec _ _ Hc). eexists. split; [reflexivity | now left].
  - apply multi_extract_json_raises in He as ->. cbn [bind is_decode_or_value_error].
    eexists. split; [reflexivity | now left].
Qed.

End ParseMore.

Lemma sample_decoder_raises : decoder_raises_value_errors Sample.json_loads.
Proof.
  intros s e. unfold Sample.json_loads.
  repeat match goal with
         | |- context [if ?b then _ else _] => destruct b; try discriminate
         end.
  now intros [= <-].
Qed.

Lemma parse_ai_response_returns_witness :
  decoder_raises_value_errors Sample.json_loads
  /\ exists v : json,
      MultiFileAnalysisService.parse_ai_response Sample.json_loads (Some "{oops") = Ok v
      /\ (v = MultiFileAnalysisService.fallback_record
          \/ exists json_content : string, Sample.json_loads json_content = Ok v).
Proof.
  split; [exact sample_decoder_raises|].
  apply (parse_ai_response_returns Sample.json_loads "{oops" sample_decoder_raises).
Defined.

(** ** More on [analyze_code] *)

Lemma dict_set_same_value (k : string) (v : json) (d : dict) :
  Dict.get k d = Some v -> Dict.set k v d = d.
Proof.
  induction d as [|[k' v'] d IH]; simpl; [discriminate|].
  destruct (String.eqb k k').
  - now intros [= ->].
  - intros H. now rewrite IH.
Qed.

Lemma dict_setdefault_present (k : string) (v : json) (d : dict) :
  Dict.mem k d = true -> Dict.setdefault k v d = d.
Proof. unfold Dict.setdefault. now intros ->. Qed.

Lemma dict_get_setdefault_kept (k k' : string) (v x : json) (d : dict) :
  Dict.get k' d = Some x -> Dict.get k' (Dict.setdefault k v d) = Some x.
Proof.
  intros H. unfold Dict.setdefault.
  destruct (Dict.mem k d) eqn:Hm; [exact H|].
  destruct (String.eqb_spec k' k) as [->|Hne].
  - unfold Dict.mem in Hm. now rewrite H in Hm.
  - now rewrite dict_get_set_other.
Qed.

Lemma fill_item_complete (item : json) :
  well_formed_item item = true -> AIService.fill_item item = Ok item.
Proof.
  destruct item; try discriminate.
  unfold well_formed_item, item_keys, forallb. intros H.
  repeat (apply andb_prop in H as [? H]).
  unfold AIService.fill_item. cbv zeta.
  rewrite (dict_setdefault_present "line") by assumption.
  rewrite (dict_setdefault_present "category") by assumption.
  rewrite (dict_setdefault_present "severity") by assumption.
  rewrite (dict_setdefault_present "message") by assumption.
  now rewrite (dict_setdefault_present "suggestion") by assumption.
Qed.

Lemma map_result_id {A : Type} (f : A -> result A) (l : list A) :
  Forall (fun x => f x = Ok x) l -> map_result f l = Ok l.
Proof.
  induction 1 as [|x l Hx _ IH]; simpl; [reflexivity|].
  now rewrite Hx, IH.
Qed.

Lemma map_result_Raise {A B : Type} (f : A -> result B) (l : list A) (e : exn) :
  map_result f l = Raise e -> exists x, In x l /\ f x = Raise e.
Proof.
  induction l as [|x l IH]; simpl; [discriminate|].
  destruct (f x) as [y|e'] eqn:Hx.
  - destruct (map_result f l) as [ys|e'']; [discriminate|].
    intros [= ->]. destruct (IH eq_refl) as (x' & Hin & Hx').
    exists x'. split; [now right | exact Hx'].
  - intros [= ->]. exists x. split; [now left | exact Hx].
Qed.

Section AnalyzeCodeMore.

Variable json_loads : string -> result json.

Local Notation analyze_code_result := (AIService.analyze_code_result json_loads).

(** A reply that decodes to a complete record is returned as it is. *)
Theorem analyze_code_complete_record (text json_content : string) (d : dict) :
  AIService.extract_json (Py.strip text) = Ok json_content ->
  json_loads json_content = Ok (JDict d) ->
  well_formed_record (JDict d) = true ->
  analyze_code_result (Ok (Some text)) = JDict d.
Proof.
  intros Hc Hd Hwf.
  unfold well_formed_record in Hwf.
  apply andb_prop in Hwf as [Hwf Hscore]. apply andb_prop in Hwf as [Hitems Hsummary].
  destruct (Dict.get "feedback" d) as [[| | | | |items|]|] eqn:Hf; try discriminate.
  unfold AIService.analyze_code_result, AIService.analyze_code_try.
  cbn [bind]. rewrite Hc. cbn [bind]. rewrite Hd. cbn [bind].
  unfold Dict.mem at 1. rewrite Hf. cbn [bind]. rewrite Hf.
  rewrite (dict_setdefault_present "summary") by assumption.
  rewrite (dict_setdefault_present "overall_score") by assumption.
  unfold Dict.get_default. rewrite Hf. cbn [iterate bind].
  rewrite (map_result_id AIService.fill_item items).
  - cbn [bind]. now rewrite dict_set_same_value.
  - apply Forall_forall. intros item Hin. apply fill_item_complete.
    rewrite forallb_forall in Hitems. now apply Hitems.
Qed.

(** A "feedback" that is not a list is replaced by the empty list, and
    every other entry of the reply is kept. *)
Theorem analyze_code_feedback_not_a_list (text json_content : string) (d : dict) (v : json) :
  AIService.extract_json (Py.strip text) = Ok json_content ->
  json_loads json_content = Ok (JDict d) ->
  Dict.get "feedback" d = Some v ->
  (forall items, v <> JList items) ->
  exists d' : dict,
    analyze_code_result (Ok (Some text)) = JDict d'
    /\ Dict.get "feedback" d' = Some (JList [])
    /\ forall (k : string) (x : json),
        k <> "feedback" -> Dict.get k d = Some x -> Dict.get k d' = Some x.
Proof.
  intros Hc Hd Hf Hv.
  unfold AIService.analyze_code_result, AIService.analyze_code_try.
  cbn [bind]. rewrite Hc. cbn [bind]. rewrite Hd. cbn [bind].
  unfold Dict.mem at 1. rewrite Hf. cbn [bind]. rewrite Hf.
  set (d1 := match Some v with Some (JList _) => d | _ => Dict.set "feedback" (JList []) d end).
  assert (d1 = Dict.set "feedback" (JList []) d) as ->.
  { subst d1. destruct v; try reflexivity. now contradiction (Hv l). }
  set (d2 := Dict.setdefault "overall_score" _ (Dict.setdefault "summary" _ _)).
  assert (Dict.get "feedback" d2 = Some (JList [])) as Hf2.
  { subst d2. rewrite !dict_get_setdefault_other by discriminate.
    apply dict_get_set_same. }
  unfold Dict.get_default. rewrite Hf2. cbn [iterate map_result bind].
  eexists. split; [reflexivity|]. split; [apply dict_get_set_same|].
  intros k x Hk Hx.
  rewrite dict_get_set_other by assumption.
  subst d2. do 2 apply dict_get_setdefault_kept.
  now rewrite dict_get_set_other.
Qed.

(** One item of "feedback" that is not an object costs the whole reply:
    the record of the handler is returned, for the [AttributeError] of
    that item. *)
Theorem analyze_code_item_not_an_object (text json_content : string) (d : dict)
    (items : list json) :
  AIService.extract_json (Py.strip text) = Ok json_content ->
  json_loads json_content = Ok (JDict d) ->
  Dict.get "feedback" d = Some (JList items) ->
  Exists (fun item => forall kw, item <> JDict kw) items ->
  exists item : json,
    In item items
    /\ (forall kw, item <> JDict kw)
    /\ analyze_code_result (Ok (Some text)) =
       AIService.error_record (no_attribute item "setdefault").
Proof.
  intros Hc Hd Hf Hbad.
  assert (exists e, map_result AIService.fill_item items = Raise e) as [e He].
  { apply map_result_Exists_Raise.
    eapply Exists_impl; [|exact Hbad].
    intros item Hitem. destruct item; try (eexists; reflexivity).
    now contradiction (Hitem d0). }
  destruct (map_result_Raise _ _ _ He) as (item & Hin & Hitem).
  assert ((forall kw, item <> JDict kw) /\ e = no_attribute item "setdefault") as [Hno ->].
  { destruct item; try (injection Hitem as <-; split; [discriminate | reflexivity]).
    discriminate Hitem. }
  exists item. split; [exact Hin|]. split; [exact Hno|].
  unfold AIService.analyze_code_result, AIService.analyze_code_try.
  cbn [bind]. rewrite Hc. cbn [bind]. rewrite Hd. cbn [bind].
  unfold Dict.mem at 1. rewrite Hf. cbn [bind]. rewrite Hf.
  set (d2 := Dict.setdefault "overall_score" _ (Dict.setdefault "summary" _ _)).
  assert (Dict.get "feedback" d2 = Some (JList items)) as Hf2.
  { subst d2. now rewrite !dict_get_setdefault_other by discriminate. }
  unfold Dict.get_default. rewrite Hf2. cbn [iterate bind]. rewrite He.
  reflexivity.
Qed.

End AnalyzeCodeMore.

Lemma analyze_code_complete_record_witness :
  AIService.extract_json (Py.strip Demo.code_reply) = Ok Demo.code_reply
  /\ well_formed_record
       (JDict [("feedback", JList [json_of_item Demo.item]);
               ("summary", JStr "Fine"); ("overall_score", JInt 9)]) = true
  /\ AIService.analyze_code_result Demo.json_loads (Ok (Some Demo.code_reply)) =
     JDict [("feedback", JList [json_of_item Demo.item]);
            ("summary", JStr "Fine"); ("overall_score", JInt 9)].
Proof.
  split; [reflexivity|]. split; [reflexivity|].
  apply (analyze_code_complete_record Demo.json_loads Demo.code_reply Demo.code_reply);
    reflexivity.
Defined.

Lemma analyze_code_feedback_not_a_list_witness :
  Demo.json_loads Demo.text_feedback_reply =
    Ok (JDict [("feedback", JStr "none"); ("summary", JStr "Fine")])
  /\ exists d' : dict,
      AIService.analyze_code_result Demo.json_loads (Ok (Some Demo.text_feedback_reply))
        = JDict d'
      /\ Dict.get "feedback" d' = Some (JList [])
      /\ Dict.get "summary" d' = Some (JStr "Fine").
Proof.
  split; [reflexivity|].
  destruct (analyze_code_feedback_not_a_list Demo.json_loads
              Demo.text_feedback_reply Demo.text_feedback_reply
              [("feedback", JStr "none"); ("summary", JStr "Fine")] (JStr "none")
              eq_refl eq_refl eq_refl ltac:(discriminate))
    as (d' & Hresult & Hfeedback & Hkept).
  exists d'. split; [exact Hresult|]. split; [exact Hfeedback|].
  apply Hkept; [discriminate | reflexivity].
Defined.

Lemma analyze_code_item_not_an_object_witness :
  Demo.json_loads Demo.number_item_reply = Ok (JDict [("feedback", JList [JInt 1])])
  /\ exists item : json,
      In item [JInt 1]
      /\ (forall kw, item <> JDict kw)
      /\ AIService.analyze_code_result Demo.json_loads (Ok (Some Demo.number_item_reply))
         = AIService.error_record (no_attribute item "setdefault").
Proof.
  split; [reflexivity|].
  apply (analyze_code_item_not_an_object Demo.json_loads
           Demo.number_item_reply Demo.number_item_reply
           [("feedback", JList [JInt 1])] [JInt 1]); try reflexivity.
  constructor. discriminate.
Defined.

(** ** Shapes of the reply *)


Lemma map_result_map {A B C : Type} (g : A -> B) (f : B -> result C) (h : A -> C)
    (l : list A) :
  (forall x, f (g x) = Ok (h x)) -> map_result f (map g l) = Ok (map h l).
Proof.
  intros H. induction l as [|x l IH]; simpl; [reflexivity|].
  now rewrite H, IH.
Qed.

Section ReplyShapes.

Variable json_loads : string -> result json.
Variable lax_str : json -> option string.
Variable lax_int : json -> option Z.
Variable validation_error : string -> dict -> string.

Local Notation parse_ai_response_try :=
  (MultiFileAnalysisService.parse_ai_response_try json_loads).
Local Notation parse_ai_response :=
  (MultiFileAnalysisService.parse_ai_response json_loads).
Local Notation analyze_single_file_result :=
  (MultiFileAnalysisService.analyze_single_file_result
     json_loads lax_str lax_int validation_error).
Local Notation cross_file_result :=
  (MultiFileAnalysisService.cross_file_result
     json_loads lax_str lax_int validation_error).
Local Notation feedback_item_of :=
  (MultiFileAnalysisService.feedback_item_of lax_str lax_int validation_error).
Local Notation feedback_item_with_filename :=
  (MultiFileAnalysisService.feedback_item_with_filename
     lax_str lax_int validation_error).

Lemma feedback_item_of_json (it : FeedbackItem.t) :
  feedback_item_of (json_of_item it) = Ok it.
Proof. destruct it as [c s l m g [f|]]; reflexivity. Qed.

Lemma feedback_item_with_filename_json (filename : string) (it : FeedbackItem.t) :
  feedback_item_with_filename filename (json_of_item it) = Ok (with_name filename it).
Proof. destruct it as [c s l m g [f|]]; reflexivity. Qed.

(** A reply that is an object without the keys "feedback", "summary" and
    "score" gives the record of the defaults: no feedback, score 5. *)
Theorem analyze_single_file_missing_keys (file_info : FileInfo.t) (text : string)
    (d : dict) :
  parse_ai_response (Some text) = Ok (JDict d) ->
  Dict.get "feedback" d = None ->
  Dict.get "summary" d = None ->
  Dict.get "score" d = None ->
  analyze_single_file_result file_info (Ok (Some text)) =
  FileFeedback.make (FileInfo.filename file_info) []
    ("Analysis for " ++ FileInfo.filename file_info) 5.
Proof.
  intros Hparse Hf Hs Hn.
  unfold MultiFileAnalysisService.analyze_single_file_result,
    MultiFileAnalysisService.analyze_single_file_try.
  cbn [bind]. rewrite Hparse. cbn [bind].
  unfold Dict.get_default. now rewrite Hf, Hs, Hn.
Qed.

(** The items, the summary and the score the model wrote come back in the
    record, each item under the name of the analysed file. *)
Theorem analyze_single_file_transports (file_info : FileInfo.t) (text : string)
    (d : dict) (items : list FeedbackItem.t) (summary : string) (score : Z) :
  parse_ai_response (Some text) = Ok (JDict d) ->
  Dict.get "feedback" d = Some (JList (map json_of_item items)) ->
  Dict.get "summary" d = Some (JStr summary) ->
  Dict.get "score" d = Some (JInt score) ->
  analyze_single_file_result file_info (Ok (Some text)) =
  FileFeedback.make (FileInfo.filename file_info)
    (map (with_name (FileInfo.filename file_info)) items) summary score.
Proof.
  intros Hparse Hf Hs Hn.
  unfold MultiFileAnalysisService.analyze_single_file_result,
    MultiFileAnalysisService.analyze_single_file_try.
  cbn [bind]. rewrite Hparse. cbn [bind].
  unfold Dict.get_default. rewrite Hf, Hs, Hn. cbn [iterate bind].
  rewrite (map_result_map json_of_item _ (with_name (FileInfo.filename file_info)))
    by apply feedback_item_with_filename_json.
  reflexivity.
Qed.

(** A reply that cannot be parsed gives one cross-file issue, of category
    "style" and severity "medium", with no file name. *)
Theorem cross_file_unparseable (text : string) (e : exn) :
  parse_ai_response_try (Some text) = Raise e ->
  is_decode_or_value_error e = true ->
  cross_file_result (Ok (Some text)) = [fallback_issue].
Proof.
  intros Hparse He.
  unfold MultiFileAnalysisService.cross_file_result,
    MultiFileAnalysisService.cross_file_try.
  cbn [bind]. unfold MultiFileAnalysisService.parse_ai_response.
  rewrite Hparse, He. reflexivity.
Qed.

(** A reply that decodes to something else than a list or an object with
    a "feedback" key gives no cross-file issue, with no sign of an error. *)
Theorem cross_file_other_shapes (text : string) (v : json) :
  parse_ai_response (Some text) = Ok v ->
  (forall l, v <> JList l) ->
  (forall d, v = JDict d -> Dict.get "feedback" d = None) ->
  cross_file_result (Ok (Some text)) = [].
Proof.
  intros Hparse Hlist Hdict.
  unfold MultiFileAnalysisService.cross_file_result,
    MultiFileAnalysisService.cross_file_try.
  cbn [bind]. rewrite Hparse. cbn [bind].
  destruct v; try reflexivity.
  - now contradiction (Hlist l).
  - now rewrite (Hdict d eq_refl).
Qed.

(** A list of issues written as the prompt asks comes back as it is, file
    names included; one element that is not a valid issue costs the whole
    list, which becomes the single issue of the handler. *)
Theorem cross_file_list_reply (text : string) :
  (forall items : list FeedbackItem.t,
      parse_ai_response (Some text) = Ok (JList (map json_of_item items)) ->
      cross_file_result (Ok (Some text)) = items)
  /\ (forall l : list json,
         parse_ai_response (Some text) = Ok (JList l) ->
         Exists (fun item => exists e, feedback_item_of item = Raise e) l ->
         exists e, cross_file_result (Ok (Some text)) =
                   MultiFileAnalysisService.cross_file_error e).
Proof.
  split.
  - intros items Hparse.
    unfold MultiFileAnalysisService.cross_file_result,
      MultiFileAnalysisService.cross_file_try.
    cbn [bind]. rewrite Hparse. cbn [bind].
    rewrite (map_result_map json_of_item _ (fun it => it)) by apply feedback_item_of_json.
    now rewrite map_id.
  - intros l Hparse Hbad.
    apply map_result_Exists_Raise in Hbad as [e He]. exists e.
    unfold MultiFileAnalysisService.cross_file_result,
      MultiFileAnalysisService.cross_file_try.
    cbn [bind]. rewrite Hparse. cbn [bind]. now rewrite He.
Qed.

End ReplyShapes.

Lemma analyze_single_file_missing_keys_witness :
  MultiFileAnalysisService.parse_ai_response Sample.json_loads (Some "{}") = Ok (JDict [])
  /\ MultiFileAnalysisService.analyze_single_file_result
       Sample.json_loads Sample.lax_str Sample.lax_int Sample.validation_error
       Demo.file_a (Ok (Some "{}"))
     = FileFeedback.make "a.py" [] "Analysis for a.py" 5.
Proof.
  split; [reflexivity|].
  apply (analyze_single_file_missing_keys Sample.json_loads Sample.lax_str Sample.lax_int
           Sample.validation_error Demo.file_a "{}" []); reflexivity.
Defined.

Lemma analyze_single_file_transports_witness :
  MultiFileAnalysisService.parse_ai_response Demo.json_loads (Some Demo.file_reply) =
    Ok (JDict [("feedback", JList (map json_of_item [Demo.item]));
               ("summary", JStr "Fine"); ("score", JInt 8)])
  /\ MultiFileAnalysisService.analyze_single_file_result
       Demo.json_loads Sample.lax_str Sample.lax_int Sample.validation_error
       Demo.file_a (Ok (Some Demo.file_reply))
     = FileFeedback.make "a.py" [with_name "a.py" Demo.item] "Fine" 8.
Proof.
  split; [reflexivity|].
  apply (analyze_single_file_transports Demo.json_loads Sample.lax_str Sample.lax_int
           Sample.validation_error Demo.file_a Demo.file_reply
           [("feedback", JList (map json_of_item [Demo.item]));
            ("summary", JStr "Fine"); ("score", JInt 8)]
           [Demo.item] "Fine" 8); reflexivity.
Defined.

Lemma cross_file_unparseable_witness :
  MultiFileAnalysisService.parse_ai_response_try Sample.json_loads (Some "hello")
    = Raise (ValueError "No valid JSON found")
  /\ MultiFileAnalysisService.cross_file_result
       Sample.json_loads Sample.lax_str Sample.lax_int Sample.validation_error
       (Ok (Some "hello")) = [fallback_issue].
Proof.
  split; [reflexivity|].
  apply (cross_file_unparseable Sample.json_loads Sample.lax_str Sample.lax_int
           Sample.validation_error "hello" (ValueError "No valid JSON found"));
    reflexivity.
Defined.

Lemma cross_file_other_shapes_witness :
  MultiFileAnalysisService.parse_ai_response Sample.json_loads (Some "{}") = Ok (JDict [])
  /\ MultiFileAnalysisService.cross_file_result
       Sample.json_loads Sample.lax_str Sample.lax_int Sample.validation_error
       (Ok (Some "{}")) = [].
Proof.
  split; [reflexivity|].
  apply (cross_file_other_shapes Sample.json_loads Sample.lax_str Sample.lax_int
           Sample.validation_error "{}" (JDict [])).
  - reflexivity.
  - discriminate.
  - now intros d [= <-].
Defined.

(** ** Prompts and replies of [analyze_codebase] *)

Lemma prompts_pbind {W A B : Type} (client : W -> string -> reply * W) (p : Prog A)
    (f : A -> Prog B) (w : W) :
  prompts client w (pbind p f) =
  (prompts client w p
     ++ prompts client (final_state (run client w p)) (f (outcome (run client w p))))%list.
Proof.
  revert w. induction p as [a|q k IH]; intros w; simpl; [reflexivity|].
  destruct (client w q) as [r w1]. rewrite IH.
  now destruct (run client w1 (k r)) as [[a rs] w2].
Qed.

Lemma run_pbind_parts {W A B : Type} (client : W -> string -> reply * W) (p : Prog A)
    (f : A -> Prog B) (w : W) :
  let first := run client w p in
  let second := run client (final_state first) (f (outcome first)) in
  outcome (run client w (pbind p f)) = outcome second
  /\ replies (run client w (pbind p f)) = (replies first ++ replies second)%list.
Proof.
  cbv zeta. rewrite run_pbind.
  destruct (run client w p) as [[a rs1] w1]. unfold final_state, outcome. simpl.
  now destruct (run client w1 (f a)) as [[b rs2] w2].
Qed.

Lemma replies_prompts_length {W A : Type} (client : W -> string -> reply * W)
    (p : Prog A) (w : W) :
  List.length (replies (run client w p)) = List.length (prompts client w p).
Proof.
  revert w. induction p as [a|q k IH]; intros w; simpl; [reflexivity|].
  destruct (client w q) as [r w1]. specialize (IH r w1).
  destruct (run client w1 (k r)) as [[a rs] w2].
  unfold replies in *. simpl in *. now rewrite IH.
Qed.

Lemma combine_app_replies {A B : Type} (l : list A) (r1 r2 : list B) :
  List.length r1 = List.length l -> combine l (r1 ++ r2) = combine l r1.
Proof.
  revert r1. induction l as [|x l IH]; intros r1 H; [reflexivity|].
  destruct r1 as [|y r1]; [discriminate|].
  simpl. f_equal. apply IH. simpl in H. lia.
Qed.

Section Assembly.

Variable json_loads : string -> result json.
Variable lax_str : json -> option string.
Variable lax_int : json -> option Z.
Variable validation_error : string -> dict -> string.
Variable format_language : SupportedLanguage -> string.

Local Notation analyze_files :=
  (MultiFileAnalysisService.analyze_files
     json_loads lax_str lax_int validation_error format_language).
Local Notation analyze_codebase :=
  (MultiFileAnalysisService.analyze_codebase
     json_loads lax_str lax_int validation_error format_language).
Local Notation file_records :=
  (file_records json_loads lax_str lax_int validation_error).
Local Notation cross_file_issues_of :=
  (cross_file_issues_of json_loads lax_str lax_int validation_error).
Local Notation codebase_prompts := (codebase_prompts format_language).


Lemma analyze_files_trace {W : Type} (client : W -> string -> reply * W)
    (remaining files : list FileInfo.t) :
  forall (file_analyses : list FileFeedback.t) (all_feedback : list FeedbackItem.t) (w : W),
    let p := analyze_files remaining files file_analyses all_feedback in
    let rs := replies (run client w p) in
    List.length rs = List.length remaining
    /\ outcome (run client w p) =
       ((file_analyses ++ file_records remaining rs)%list,
        (all_feedback ++ flat_map FileFeedback.feedback (file_records remaining rs))%list)
    /\ prompts client w p =
       map (fun file_info =>
              MultiFileAnalysisService.single_file_prompt format_language file_info
                (MultiFileAnalysisService.create_file_context files
                   (FileInfo.filename file_info)))
           remaining.
Proof.
  induction remaining as [|file_info remaining IH]; intros file_analyses all_feedback w.
  - cbn. now rewrite !app_nil_r.
  - cbn [MultiFileAnalysisService.analyze_files
           MultiFileAnalysisService.analyze_single_file pbind run prompts].
    destruct (client w _) as [r w1].
    set (fa := MultiFileAnalysisService.analyze_single_file_result _ _ _ _ file_info r).
    specialize (IH (file_analyses ++ [fa])%list
                   (all_feedback ++ FileFeedback.feedback fa)%list w1).
    cbv zeta in IH. destruct IH as (Hlen & Hout & Hprompts).
    destruct (run client w1 _) as [[v rs] w2].
    unfold replies, outcome in *. cbn [fst snd] in *. cbv zeta.
    cbn [fst snd List.length]. split; [now rewrite Hlen|].
    split.
    + rewrite Hout. unfold file_records. cbn [combine map flat_map fst snd].
      fold fa. now rewrite <- !app_assoc.
    + cbn [map]. now rewrite Hprompts.
Qed.

(** What is sent to the model during [analyze_codebase] is fixed by the
    files alone: one prompt for each file, in order, and then the
    cross-file prompt if there are two files or more; as many replies are
    received. *)
Theorem analyze_codebase_prompts {W : Type} (client : W -> string -> reply * W) (w : W)
    (files : list FileInfo.t) (project_name : string) :
  prompts client w (analyze_codebase files project_name) = codebase_prompts files
  /\ List.length (replies (run client w (analyze_codebase files project_name)))
     = List.length (codebase_prompts files).
Proof.
  unfold MultiFileAnalysisService.analyze_codebase.
  destruct (analyze_files_trace client files files [] [] w) as (Hlen & Hout & Hprompts).
  cbv zeta in *.
  set (loop := analyze_files files files [] []) in *.
  assert (prompts client w
            (pbind loop
               (fun '(file_analyses, all_feedback) =>
                  pbind (MultiFileAnalysisService.analyze_cross_file_dependencies
                           json_loads lax_str lax_int validation_error format_language files)
                        (fun cross_file_issues =>
                           Ret (bind (MultiFileAnalysisService.calculate_overall_score
                                        file_analyses)
                                     (fun overall_score =>
                                        Ok (MultiFileReviewResponse.make project_name
                                              file_analyses cross_file_issues
                                              (MultiFileAnalysisService.generate_overall_summary
                                                 file_analyses cross_file_issues)
                                              overall_score (py_len files)
                                              (py_len (all_feedback ++ cross_file_issues)%list)))))))
          = codebase_prompts files) as Hsent.
  { rewrite prompts_pbind, Hprompts. unfold codebase_prompts. f_equal.
    rewrite Hout. cbv beta iota. rewrite prompts_pbind.
    unfold MultiFileAnalysisService.analyze_cross_file_dependencies.
    destruct (py_len files <? 2); [reflexivity|].
    cbn [prompts run outcome final_state fst snd].
    destruct (client _ _) as [r w2]. reflexivity. }
  split; [exact Hsent|].
  now rewrite replies_prompts_length, Hsent.
Qed.

(** The review is put together from the replies in the order they come:
    the record of a file from the reply of the same rank, the cross-file
    issues from the reply after those, the summary and the score from the
    records. *)
Theorem analyze_codebase_assembles {W : Type} (client : W -> string -> reply * W) (w : W)
    (files : list FileInfo.t) (project_name : string) :
  let rs := replies (run client w (analyze_codebase files project_name)) in
  outcome (run client w (analyze_codebase files project_name)) =
  bind (MultiFileAnalysisService.calculate_overall_score (file_records files rs))
       (fun overall_score =>
          Ok (review_of files project_name (file_records files rs)
                (cross_file_issues_of files rs) overall_score)).
Proof.
  unfold MultiFileAnalysisService.analyze_codebase.
  destruct (analyze_files_trace client files files [] [] w) as (Hlen & Hout & _).
  cbv zeta in *. rewrite run_pbind.
  destruct (run client w (analyze_files files files [] [])) as [[v rs1] w1].
  unfold replies, outcome in Hlen, Hout. cbn [fst snd] in Hlen, Hout. subst v.
  rewrite run_pbind.
  unfold cross_file_issues_of, MultiFileAnalysisService.analyze_cross_file_dependencies.
  destruct (py_len files <? 2).
  - cbn. unfold file_records. rewrite combine_app_replies by exact Hlen.
    reflexivity.
  - cbn [run]. destruct (client w1 _) as [r w2].
    cbn. unfold file_records. rewrite combine_app_replies by exact Hlen.
    rewrite app_nth2 by lia. rewrite Hlen, Nat.sub_diag. reflexivity.
Qed.

(** ** Runs of [analyze_codebase] *)

Local Notation analyze_single_file_result :=
  (MultiFileAnalysisService.analyze_single_file_result
     json_loads lax_str lax_int validation_error).
Local Notation cross_file_result :=
  (MultiFileAnalysisService.cross_file_result
     json_loads lax_str lax_int validation_error).
Local Notation calculate_overall_score :=
  MultiFileAnalysisService.calculate_overall_score.

(** A run of [analyze_codebase]: what it sends, how many replies it gets
    and what it ends with. *)
Lemma analyze_codebase_trace {W : Type} (client : W -> string -> reply * W) (w : W)
    (files : list FileInfo.t) (project_name : string) :
  let review := analyze_codebase files project_name in
  let rs := replies (run client w review) in
  prompts client w review = codebase_prompts files
  /\ (List.length files <= List.length rs)%nat
  /\ outcome (run client w review) =
     bind (calculate_overall_score (file_records files rs))
          (fun overall_score =>
             Ok (review_of files project_name (file_records files rs)
                   (cross_file_issues_of files rs) overall_score)).
Proof.
  unfold MultiFileAnalysisService.analyze_codebase.
  destruct (analyze_files_trace client files files [] [] w) as (Hlen & Hout & Hprompts).
  cbv zeta in *. split.
  { rewrite prompts_pbind, Hprompts. unfold codebase_prompts. f_equal.
    rewrite Hout. cbv beta iota. rewrite prompts_pbind.
    unfold MultiFileAnalysisService.analyze_cross_file_dependencies.
    destruct (py_len files <? 2); [reflexivity|].
    cbn [prompts run outcome final_state fst snd].
    destruct (client _ _) as [r w2]. reflexivity. }
  rewrite run_pbind.
  destruct (run client w (analyze_files files files [] [])) as [[v rs1] w1].
  unfold replies, outcome in Hlen, Hout. cbn [fst snd] in Hlen, Hout. subst v.
  rewrite run_pbind.
  unfold cross_file_issues_of, MultiFileAnalysisService.analyze_cross_file_dependencies.
  destruct (py_len files <? 2).
  - cbn. unfold file_records. rewrite combine_app_replies by exact Hlen.
    split; [rewrite length_app; lia | reflexivity].
  - cbn [run]. destruct (client w1 _) as [r w2].
    cbn. unfold file_records. rewrite combine_app_replies by exact Hlen.
    rewrite app_nth2 by lia. rewrite Hlen, Nat.sub_diag.
    split; [rewrite length_app; lia | reflexivity].
Qed.

Lemma file_records_one_per_file (files : list FileInfo.t) (rs : list reply) :
  (List.length files <= List.length rs)%nat ->
  one_per_file files (file_records files rs).
Proof.
  unfold one_per_file, file_records.
  revert rs. induction files as [|file_info files IH]; intros rs Hlen; [constructor|].
  destruct rs as [|r rs]; [simpl in Hlen; lia|].
  cbn [combine map fst snd]. constructor.
  - apply analyze_single_file_result_filename.
  - apply IH. simpl in Hlen. lia.
Qed.

(** C2, as the code has it. In every run of [analyze_codebase], the
    records of the files are those made of the replies of the run, one for
    each input file. Either the run returns a response: it holds these
    records, its [total_files] is the number of input files, its
    [total_issues] is the sum of the lengths of the per-file feedback lists
    plus the number of cross-file issues, and its score is the one
    [calculate_overall_score] gives for the records. Or
    [calculate_overall_score] raises [OverflowError] on these records, and
    the run ends with that exception. *)
Theorem analyze_codebase_counts {W : Type} (client : W -> string -> reply * W) (w : W)
    (files : list FileInfo.t) (project_name : string) :
  let review := run client w (analyze_codebase files project_name) in
  let file_analyses := file_records files (replies review) in
  one_per_file files file_analyses
  /\ ((exists response : MultiFileReviewResponse.t,
          outcome review = Ok response
          /\ MultiFileReviewResponse.files response = file_analyses
          /\ calculate_overall_score file_analyses =
             Ok (MultiFileReviewResponse.overall_score response)
          /\ MultiFileReviewResponse.total_files response = py_len files
          /\ MultiFileReviewResponse.total_issues response =
             py_sum (map (fun fa => py_len (FileFeedback.feedback fa))
                         (MultiFileReviewResponse.files response))
             + py_len (MultiFileReviewResponse.cross_file_issues response))
      \/ (exists msg : string,
             outcome review = Raise (OverflowError msg)
             /\ calculate_overall_score file_analyses = Raise (OverflowError msg))).
Proof.
  intros review file_analyses. subst review file_analyses.
  destruct (analyze_codebase_trace client w files project_name) as (_ & Hlen & Hout).
  cbv zeta in Hlen, Hout. rewrite Hout.
  set (rs := replies (run client w (analyze_codebase files project_name))) in *.
  split; [now apply file_records_one_per_file|].
  destruct (calculate_overall_score (file_records files rs)) as [score|e] eqn:Hscore.
  - left. eexists. split; [reflexivity|].
    unfold review_of.
    cbn [MultiFileReviewResponse.files MultiFileReviewResponse.total_files
           MultiFileReviewResponse.total_issues MultiFileReviewResponse.overall_score
           MultiFileReviewResponse.cross_file_issues].
    repeat split.
    unfold all_issues. now rewrite py_len_app, py_sum_feedback_lengths.
  - right. pose proof (calculate_overall_score_raises _ _ Hscore) as He. subst e.
    eexists. split; reflexivity.
Qed.

(** The record of a file and the cross-file issues are made of the reading
    of the reply, and of nothing else of it. *)
Lemma analyze_single_file_result_reading (file_info : FileInfo.t) (r1 r2 : reply) :
  reading_of r1 = reading_of r2 ->
  analyze_single_file_result file_info r1 = analyze_single_file_result file_info r2.
Proof.
  unfold MultiFileAnalysisService.analyze_single_file_result,
    MultiFileAnalysisService.analyze_single_file_try,
    MultiFileAnalysisService.parse_ai_response,
    MultiFileAnalysisService.parse_ai_response_try,
    MultiFileAnalysisService.single_file_error.
  destruct r1 as [[t1|]|e1], r2 as [[t2|]|e2]; cbn [reading_of bind];
    intros H; try discriminate H; try reflexivity; injection H as H.
  - now rewrite H.
  - cbn. now rewrite <- H.
  - cbn. now rewrite H.
  - now rewrite H.
Qed.

Lemma cross_file_result_reading (r1 r2 : reply) :
  reading_of r1 = reading_of r2 -> cross_file_result r1 = cross_file_result r2.
Proof.
  unfold MultiFileAnalysisService.cross_file_result,
    MultiFileAnalysisService.cross_file_try,
    MultiFileAnalysisService.parse_ai_response,
    MultiFileAnalysisService.parse_ai_response_try,
    MultiFileAnalysisService.cross_file_error.
  destruct r1 as [[t1|]|e1], r2 as [[t2|]|e2]; cbn [reading_of bind];
    intros H; try discriminate H; try reflexivity; injection H as H.
  - now rewrite H.
  - cbn. now rewrite <- H.
  - cbn. now rewrite H.
  - now rewrite H.
Qed.

Lemma file_records_reading (files : list FileInfo.t) (rs1 rs2 : list reply) :
  map reading_of rs1 = map reading_of rs2 ->
  file_records files rs1 = file_records files rs2.
Proof.
  unfold file_records.
  revert rs1 rs2. induction files as [|file_info files IH]; intros rs1 rs2 H;
    [reflexivity|].
  destruct rs1 as [|r1 rs1], rs2 as [|r2 rs2]; try discriminate H; [reflexivity|].
  cbn [map] in H. injection H as Hr Hrs.
  cbn [combine map fst snd]. f_equal.
  - now apply analyze_single_file_result_reading.
  - now apply IH.
Qed.

Lemma cross_file_issues_reading (files : list FileInfo.t) (rs1 rs2 : list reply) :
  map reading_of rs1 = map reading_of rs2 ->
  cross_file_issues_of files rs1 = cross_file_issues_of files rs2.
Proof.
  intros H. unfold cross_file_issues_of.
  destruct (py_len files <? 2); [reflexivity|].
  apply cross_file_result_reading.
  rewrite <- !(map_nth reading_of). now rewrite H.
Qed.

(** C7. Take two runs of [analyze_codebase] on the same files and project
    name, against any two clients. The pipeline puts the same prompts to
    the model in both, whatever was answered. And the two runs end with
    the same value (the same response, or the same exception) as soon as
    the replies have the same readings, one by one: the same text up to
    the white space around it, or the same message of failure. Replies
    that are equal have the same readings, so the value depends on nothing
    but the texts the model returns. *)
Theorem analyze_codebase_deterministic {W1 W2 : Type}
    (client1 : W1 -> string -> reply * W1) (client2 : W2 -> string -> reply * W2)
    (w1 : W1) (w2 : W2) (files : list FileInfo.t) (project_name : string) :
  let review := analyze_codebase files project_name in
  prompts client1 w1 review = prompts client2 w2 review
  /\ (map reading_of (replies (run client1 w1 review))
      = map reading_of (replies (run client2 w2 review)) ->
      outcome (run client1 w1 review) = outcome (run client2 w2 review)).
Proof.
  intros review. subst review.
  destruct (analyze_codebase_trace client1 w1 files project_name) as (Hsent1 & _ & Hout1).
  destruct (analyze_codebase_trace client2 w2 files project_name) as (Hsent2 & _ & Hout2).
  cbv zeta in *. split; [now rewrite Hsent1, Hsent2|].
  intros Hsame. rewrite Hout1, Hout2.
  now rewrite (file_records_reading files _ _ Hsame),
              (cross_file_issues_reading files _ _ Hsame).
Qed.

End Assembly.

Lemma analyze_codebase_deterministic_witness :
  let review := Sample.analyze_codebase [Demo.file_a; Demo.file_b] "demo" in
  let first := run (Sample.constant_client "{}") tt review in
  let second := run (Sample.counting_client " {} ") 0%nat review in
  replies first <> replies second
  /\ map reading_of (replies first) = map reading_of (replies second)
  /\ outcome first = outcome second.
Proof.
  split; [intros H; vm_compute in H; discriminate H|].
  split; [reflexivity|].
  apply (proj2 (analyze_codebase_deterministic
                  Sample.json_loads Sample.lax_str Sample.lax_int Sample.validation_error
                  Sample.format_language
                  (Sample.constant_client "{}") (Sample.counting_client " {} ")
                  tt 0%nat [Demo.file_a; Demo.file_b] "demo")).
  reflexivity.
Defined.

(** ** The context of a file *)


Lemma split_nonempty (sep : ascii) (s : string) : Py.split sep s <> [].
Proof.
  destruct s as [|c s]; simpl; [discriminate|].
  destruct (Ascii.eqb c sep); [discriminate|].
  destruct (Py.split sep s); discriminate.
Qed.

Lemma join_cons (sep p : string) (ps : list string) :
  ps <> [] -> Py.join sep (p :: ps) = p ++ sep ++ Py.join sep ps.
Proof. destruct ps; [contradiction | reflexivity]. Qed.

(** Cutting a text at a separator and joining the parts again gives the
    text back. *)
Lemma join_split (sep : ascii) (s : string) :
  Py.join (String sep "") (Py.split sep s) = s.
Proof.
  induction s as [|c s IH]; [reflexivity|].
  cbn [Py.split].
  destruct (Ascii.eqb_spec c sep) as [->|Hne].
  - rewrite join_cons by apply split_nonempty. now rewrite IH.
  - pose proof (split_nonempty sep s) as Hnil.
    destruct (Py.split sep s) as [|w ws]; [contradiction|].
    destruct ws as [|w' ws].
    + simpl in *. now rewrite IH.
    + rewrite join_cons by discriminate. rewrite join_cons in IH by discriminate.
      rewrite <- IH. reflexivity.
Qed.

Lemma split_line_then (sep : ascii) (line rest : string) :
  free_of sep line = true ->
  Py.split sep (line ++ String sep rest) = line :: Py.split sep rest.
Proof.
  induction line as [|c line IH]; simpl.
  - intros _. now rewrite Ascii.eqb_refl.
  - intros H. apply andb_prop in H as [Hc Hline].
    apply negb_true_iff in Hc. rewrite Hc, (IH Hline). reflexivity.
Qed.

Lemma split_single (sep : ascii) (line : string) :
  free_of sep line = true -> Py.split sep line = [line].
Proof.
  induction line as [|c line IH]; simpl; [reflexivity|].
  intros H. apply andb_prop in H as [Hc Hline].
  apply negb_true_iff in Hc. now rewrite Hc, (IH Hline).
Qed.

(** Joining lines that have no separator in them and cutting the text
    again gives the lines back. *)
Lemma split_join (sep : ascii) (lines : list string) :
  lines <> [] ->
  Forall (fun line => free_of sep line = true) lines ->
  Py.split sep (Py.join (String sep "") lines) = lines.
Proof.
  intros Hne Hfree. induction Hfree as [|line lines Hline Hlines IH]; [contradiction|].
  destruct lines as [|line' lines].
  - now apply split_single.
  - rewrite join_cons by discriminate.
    change (String sep "" ++ Py.join (String sep "") (line' :: lines))
      with (String sep (Py.join (String sep "") (line' :: lines))).
    rewrite split_line_then by assumption.
    now rewrite IH.
Qed.


(** The context of a file says nothing of the files of that name: they
    can be left out of the list, and a project of one file has the empty
    context. *)
Theorem create_file_context_skips_current (before after : list FileInfo.t)
    (file_info : FileInfo.t) :
  MultiFileAnalysisService.create_file_context
    (before ++ file_info :: after) (FileInfo.filename file_info)
  = MultiFileAnalysisService.create_file_context
      (before ++ after) (FileInfo.filename file_info)
  /\ MultiFileAnalysisService.create_file_context [file_info] (FileInfo.filename file_info)
     = "".
Proof.
  unfold MultiFileAnalysisService.create_file_context.
  rewrite !filter_app. cbn [filter]. rewrite String.eqb_refl. cbn [negb].
  split; reflexivity.
Qed.

(** For each other file the context has the name of the file and its
    first ten lines, as they are: all of a file of ten lines or fewer. *)
Theorem create_file_context_lines (files : list FileInfo.t) (current_filename : string) :
  let others :=
    filter (fun f => negb (String.eqb (FileInfo.filename f) current_filename)) files in
  (forall lines_of : FileInfo.t -> list string,
      Forall (fun f =>
                lines_of f <> []
                /\ Forall (fun line => free_of Py.nl_char line = true) (lines_of f)
                /\ FileInfo.content f = Py.join Py.nl (lines_of f)) others ->
      MultiFileAnalysisService.create_file_context files current_filename =
      Py.join (Py.nl ++ Py.nl)
        (map (fun f => context_part (FileInfo.filename f) (lines_of f)) others))
  /\ (Forall (fun f =>
                (List.length (Py.split Py.nl_char (FileInfo.content f)) <= 10)%nat) others ->
      MultiFileAnalysisService.create_file_context files current_filename =
      Py.join (Py.nl ++ Py.nl)
        (map (fun f => "File: " ++ FileInfo.filename f ++ Py.nl ++ FileInfo.content f)
             others)).
Proof.
  intros others. unfold MultiFileAnalysisService.create_file_context. fold others.
  split.
  - intros lines_of H. f_equal. apply map_ext_in. intros f Hin.
    rewrite Forall_forall in H. destruct (H f Hin) as (Hne & Hfree & ->).
    unfold context_part, Py.take, Py.nl. now rewrite split_join.
  - intros H. f_equal. apply map_ext_in. intros f Hin.
    rewrite Forall_forall in H. specialize (H f Hin).
    unfold Py.take. rewrite firstn_all2 by exact H.
    unfold Py.nl. now rewrite join_split.
Qed.

(** ** Bounds of the overall score *)

Lemma py_sum_bounds (l : list Z) (lo hi : Z) :
  Forall (fun x => lo <= x <= hi) l ->
  py_len l * lo <= py_sum l <= py_len l * hi.
Proof.
  induction 1 as [|x l Hx _ IH].
  - unfold py_len, py_sum. simpl. lia.
  - rewrite py_sum_cons. unfold py_len in *. cbn [List.length].
    rewrite Nat2Z.inj_succ. nia.
Qed.

(** An overall score computed from scores between two bounds lies between
    these bounds: from scores between 1 and 10, a score between 1 and
    10. *)
Theorem calculate_overall_score_between (file_analyses : list FileFeedback.t)
    (lo hi : Z) :
  file_analyses <> [] ->
  py_len file_analyses < 2 ^ 63 ->
  Z.abs (py_sum (scores file_analyses)) < 2 ^ 52 ->
  Forall (fun fa => lo <= FileFeedback.score fa <= hi) file_analyses ->
  exists z : Z,
    MultiFileAnalysisService.calculate_overall_score file_analyses = Ok z
    /\ lo <= z <= hi.
Proof.
  intros Hne Hlen Hsum Hall.
  assert (0 < py_len file_analyses) as Hpos
      by (destruct file_analyses; [contradiction | unfold py_len; simpl; lia]).
  assert (py_len file_analyses * lo <= py_sum (scores file_analyses)
          <= py_len file_analyses * hi) as Hbounds.
  { unfold scores. replace (py_len file_analyses)
      with (py_len (map FileFeedback.score file_analyses))
      by (unfold py_len; now rewrite length_map).
    apply py_sum_bounds. now apply Forall_map. }
  exists (PyFloat.round_half_even (py_sum (scores file_analyses)) (py_len file_analyses)).
  split.
  - destruct file_analyses as [|fa fas]; [contradiction|].
    apply (truediv_round (py_sum (scores (fa :: fas))) (py_len (fa :: fas))); lia.
  - destruct (round_half_even_nearest (py_sum (scores file_analyses))
                (py_len file_analyses) Hpos) as [Hz _].
    nia.
Qed.

Lemma truediv_in_range (a b : Z) :
  0 < b -> Z.abs a < 2 ^ 1023 -> exists m e, PyFloat.truediv a b = Ok (Finite m e).
Proof.
  intros Hb Ha. unfold PyFloat.truediv.
  destruct (Z.eqb_spec b 0) as [|_]; [lia|].
  destruct (Z.eqb_spec a 0) as [|Hne]; [now eexists; eexists|].
  rewrite (Z.abs_eq b) by lia.
  assert (0 < Z.abs a) as Hpos by lia.
  pose proof (reaches_floor_log2_quot (Z.abs a) b Hpos Hb) as Hreach.
  unfold PyFloat.nearest.
  set (fl := PyFloat.floor_log2_quot (Z.abs a) b) in *.
  set (e := Z.max _ _).
  destruct (Z.leb_spec 0 e) as [He|He]; [|now eexists; eexists].
  cbn [andb].
  set (m := PyFloat.round_half_even (Z.abs a) (b * 2 ^ e)).
  enough (m * 2 ^ e < 2 ^ PyFloat.emax) as Hfit.
  { destruct (Z.leb_spec (2 ^ PyFloat.emax) (m * 2 ^ e)); [lia | now eexists; eexists]. }
  assert (0 < 2 ^ e) as Hp by (apply Z.pow_pos_nonneg; lia).
  assert (2 ^ e <= 2 ^ 1023) as Hpe.
  { apply Z.pow_le_mono_r; [lia|].
    unfold e, PyFloat.mantissa_bits, PyFloat.emin.
    enough (fl <= 1023) by lia.
    destruct (Z.le_gt_cases fl 1023) as [|Hbig]; [assumption|exfalso].
    unfold PyFloat.reaches in Hreach.
    destruct (Z.leb_spec 0 fl); [|lia].
    apply Z.leb_le in Hreach.
    assert (2 ^ 1023 <= 2 ^ fl) by (apply Z.pow_le_mono_r; lia).
    nia. }
  destruct (round_half_even_nearest (Z.abs a) (b * 2 ^ e) ltac:(nia)) as [[Hlow _] _].
  fold m in Hlow.
  unfold PyFloat.emax.
  replace (2 ^ 1024) with (2 * 2 ^ 1023) by (rewrite <- Z.pow_succ_r by lia; reflexivity).
  set (T := 2 ^ 1023) in *. set (P := 2 ^ e) in *.
  nia.
Qed.

(** The score average is out of the range of a float, and
    [calculate_overall_score] raises, only for scores that add up to
    [2^1023] or more in absolute value. *)
Theorem calculate_overall_score_returns (file_analyses : list FileFeedback.t) :
  Z.abs (py_sum (scores file_analyses)) < 2 ^ 1023 ->
  exists z : Z, MultiFileAnalysisService.calculate_overall_score file_analyses = Ok z.
Proof.
  intros Hsum.
  destruct file_analyses as [|fa fas]; [now exists 5|].
  unfold MultiFileAnalysisService.calculate_overall_score.
  destruct (truediv_in_range (py_sum (scores (fa :: fas))) (py_len (fa :: fas)))
    as (m & e & Hdiv); [unfold py_len; simpl; lia | exact Hsum |].
  unfold scores in Hdiv. rewrite Hdiv. cbn [bind PyFloat.round]. now eexists.
Qed.

Lemma calculate_overall_score_between_witness :
  let l := [scored 7; scored 9; scored 10] in
  l <> []
  /\ py_len l < 2 ^ 63
  /\ Z.abs (py_sum (scores l)) < 2 ^ 52
  /\ exists z : Z,
      MultiFileAnalysisService.calculate_overall_score l = Ok z /\ 1 <= z <= 10.
Proof.
  split; [discriminate|]. split; [reflexivity|]. split; [reflexivity|].
  apply (calculate_overall_score_between [scored 7; scored 9; scored 10] 1 10);
    [discriminate | reflexivity | reflexivity |].
  repeat constructor; simpl; lia.
Defined.

Lemma calculate_overall_score_returns_witness :
  Z.abs (py_sum (scores [scored (2 ^ 1000); scored 3])) < 2 ^ 1023
  /\ exists z : Z,
      MultiFileAnalysisService.calculate_overall_score [scored (2 ^ 1000); scored 3] = Ok z.
Proof.
  split; [reflexivity|].
  apply (calculate_overall_score_returns [scored (2 ^ 1000); scored 3]). reflexivity.
Defined.

(** ** The endpoints *)

Lemma run_pbind_Ret {W A B : Type} (client : W -> string -> reply * W) (p : Prog A)
    (g : A -> B) (w : W) :
  outcome (run client w (pbind p (fun a => Ret (g a)))) = g (outcome (run client w p))
  /\ replies (run client w (pbind p (fun a => Ret (g a)))) = replies (run client w p).
Proof.
  rewrite run_pbind. destruct (run client w p) as [[a rs] w1].
  unfold outcome, replies. simpl. now rewrite app_nil_r.
Qed.


Lemma lstrip_shape (s : string) :
  match Py.lstrip s with
  | EmptyString => all_space s = true
  | String c _ => Py.isspace c = false /\ all_space s = false
  end.
Proof.
  induction s as [|c s IH]; simpl; [reflexivity|].
  destruct (Py.isspace c) eqn:Hc; simpl; [exact IH | now rewrite Hc].
Qed.

(** [not s.strip()] holds of the strings made of white space only. *)
Lemma blank_all_space (s : string) : Main.blank s = all_space s.
Proof.
  unfold Main.blank, Py.strip.
  pose proof (lstrip_shape s) as H.
  destruct (Py.lstrip s) as [|c r]; [now rewrite H|].
  destruct H as [Hc ->]. simpl. rewrite Hc.
  now destruct (Py.rstrip r).
Qed.

Section Endpoints.

Variable json_loads : string -> result json.
Variable lax_str : json -> option string.
Variable lax_int : json -> option Z.
Variable validation_error : string -> dict -> string.
Variable format_language : SupportedLanguage -> string.
Variable decode_utf8 : list Byte.byte -> option string.

Local Notation review_code := (Main.review_code json_loads lax_str lax_int validation_error).
Local Notation review_code_result :=
  (Main.review_code_result lax_str lax_int validation_error).
Local Notation review_code_try := (Main.review_code_try lax_str lax_int validation_error).
Local Notation analyze_code_result := (AIService.analyze_code_result json_loads).
Local Notation analyze_code_try := (AIService.analyze_code_try json_loads).
Local Notation review_codebase :=
  (Main.review_codebase json_loads lax_str lax_int validation_error format_language).
Local Notation upload_and_analyze :=
  (Main.upload_and_analyze
     json_loads lax_str lax_int validation_error format_language decode_utf8).
Local Notation analyze_codebase :=
  (MultiFileAnalysisService.analyze_codebase
     json_loads lax_str lax_int validation_error format_language).
Local Notation feedback_item_of :=
  (MultiFileAnalysisService.feedback_item_of lax_str lax_int validation_error).

Lemma analyze_code_result_well_formed (r : reply) :
  well_formed_record (analyze_code_result r) = true.
Proof.
  unfold AIService.analyze_code_result.
  destruct (analyze_code_try r) as [v|e] eqn:E.
  - now apply analyze_code_try_well_formed in E.
  - now destruct (is_JSONDecodeError e).
Qed.

Lemma feedback_item_of_object (item : json) (e : exn) :
  well_formed_item item = true ->
  feedback_item_of item = Raise e ->
  exists kw, e = ValidationError (validation_error "FeedbackItem" kw).
Proof.
  destruct item; try discriminate. intros _.
  unfold MultiFileAnalysisService.feedback_item_of, FeedbackItem_new.
  repeat match goal with
         | |- context [match ?x with Some _ => _ | None => _ end] => destruct x
         end;
    try discriminate; intros [= <-]; now eexists.
Qed.

(** Once the model has been called, [review_code] answers with a review or
    with status 500 for a validation error of the record: the keys it
    reads are there and the feedback is a list of objects, whatever the
    reply. *)
Theorem review_code_failures (r : reply) :
  (exists response, review_code_result (analyze_code_result r) = Main.Response response)
  \/ (exists class_name kw,
         review_code_result (analyze_code_result r) =
         Main.HTTPException 500
           ("Error analyzing code: " ++ validation_error class_name kw)).
Proof.
  pose proof (analyze_code_result_well_formed r) as Hwf.
  destruct (analyze_code_result r) as [| | | | | |d]; try discriminate.
  unfold well_formed_record in Hwf.
  apply andb_prop in Hwf as [Hwf Hscore]. apply andb_prop in Hwf as [Hitems Hsummary].
  destruct (Dict.get "feedback" d) as [[| | | | |items|]|] eqn:Hf; try discriminate.
  unfold Dict.mem in Hsummary, Hscore.
  destruct (Dict.get "summary" d) as [summary|] eqn:Hs; [|discriminate].
  destruct (Dict.get "overall_score" d) as [score|] eqn:Hn; [|discriminate].
  unfold Main.review_code_result, Main.review_code_try, Main.subscript.
  rewrite Hf, Hs, Hn. cbn [bind iterate].
  destruct (map_result feedback_item_of items) as [feedback_items|e] eqn:Hmap.
  - cbn [bind]. unfold Main.CodeReviewResponse_new.
    destruct (validate_str lax_str summary), (validate_int lax_int score);
      cbn [exn_str]; eauto.
  - right. apply map_result_Raise in Hmap as (item & Hin & Hitem).
    rewrite forallb_forall in Hitems.
    destruct (feedback_item_of_object item e (Hitems item Hin) Hitem) as [kw ->].
    cbn [bind exn_str]. eauto.
Qed.

(** A failure inside [analyze_code] (the client raises, the reply has no
    JSON text or a text the decoder rejects, the value is not a record)
    does not fail the request: [review_code] answers with the review of
    score 5 made of the record of the handler. *)
Theorem review_code_after_failure (r : reply) (e : exn) :
  analyze_code_try r = Raise e ->
  review_code_result (analyze_code_result r) = Main.Response (handler_review e).
Proof.
  intros He. unfold AIService.analyze_code_result, handler_review. rewrite He.
  now destruct (is_JSONDecodeError e).
Qed.

(** [review_code] does not call the model when the service is missing
    (status 500) or when the code is empty or white space (status 400); it
    calls it once otherwise. *)
Theorem review_code_guards (available : bool) (submission : CodeSubmission.t) :
  let code := CodeSubmission.code submission in
  let language := language_value (CodeSubmission.language submission) in
  (available = false ->
   review_code available submission =
   Ret (Main.HTTPException 500
          "AI service not available. Please check API key configuration."))
  /\ (available = true -> all_space code = true ->
      review_code available submission =
      Ret (Main.HTTPException 400 "Code cannot be empty"))
  /\ (available = true -> all_space code = false ->
      review_code available submission =
      Ask (AIService.prompt code language)
          (fun r => Ret (review_code_result (analyze_code_result r)))).
Proof.
  intros code language. unfold Main.review_code. fold code.
  rewrite blank_all_space.
  split; [now intros ->|]. split; intros -> ->; reflexivity.
Qed.

Lemma find_first {A : Type} (p : A -> bool) (before after : list A) (x : A) :
  Forall (fun y => p y = false) before -> p x = true ->
  find p (before ++ x :: after) = Some x.
Proof.
  induction 1 as [|y before Hy _ IH]; intros Hx; simpl.
  - now rewrite Hx.
  - rewrite Hy. now apply IH.
Qed.

Lemma find_nothing {A : Type} (p : A -> bool) (l : list A) :
  Forall (fun y => p y = false) l -> find p l = None.
Proof.
  induction 1 as [|y l Hy _ IH]; simpl; [reflexivity|]. now rewrite Hy.
Qed.

(** [review_codebase] does not call the model when the service is missing
    (status 500), when there is no file or when a file is empty or white
    space (status 400, with the name of the first such file). *)
Theorem review_codebase_guards (submission : MultiFileSubmission.t) :
  let files := MultiFileSubmission.files submission in
  review_codebase false submission =
    Ret (Main.HTTPException 500
           "Multi-file analysis service not available. Please check API key configuration.")
  /\ (files = [] ->
      review_codebase true submission =
      Ret (Main.HTTPException 400 "At least one file must be provided"))
  /\ (forall (before after : list FileInfo.t) (file_info : FileInfo.t),
         files = (before ++ file_info :: after)%list ->
         Forall (fun f => all_space (FileInfo.content f) = false) before ->
         all_space (FileInfo.content file_info) = true ->
         review_codebase true submission =
         Ret (Main.HTTPException 400
                ("File " ++ FileInfo.filename file_info ++ " cannot be empty"))).
Proof.
  intros files. unfold Main.review_codebase. fold files.
  split; [reflexivity|]. split; [now intros ->|].
  intros before after file_info Hfiles Hbefore Hblank.
  rewrite <- blank_all_space in Hblank.
  assert (Forall (fun f => Main.blank (FileInfo.content f) = false) before) as Hbefore'
      by (eapply Forall_impl; [|exact Hbefore]; intros f Hf; now rewrite blank_all_space).
  clear Hbefore. rename Hbefore' into Hbefore.
  cbn [negb].
  assert (find (fun f => Main.blank (FileInfo.content f)) files = Some file_info) as ->
      by (rewrite Hfiles; now apply find_first).
  rewrite Hfiles. now destruct before.
Qed.

(** With files that all have some content, [review_codebase] makes the
    calls of [analyze_codebase] on these files, under the given project
    name or "Unnamed Project" when there is none, and nothing more. When
    [analyze_codebase] returns a review, the endpoint answers with that
    review, which bears that project name and counts the files; otherwise
    [analyze_codebase] raised the [OverflowError] of the score average,
    and the endpoint answers with status 500 and its message. *)
Theorem review_codebase_outcome {W : Type} (client : W -> string -> reply * W) (w : W)
    (submission : MultiFileSubmission.t) :
  let files := MultiFileSubmission.files submission in
  let project_name :=
    Main.or_default (MultiFileSubmission.project_name submission) "Unnamed Project" in
  let service := run client w (analyze_codebase files project_name) in
  let endpoint := run client w (review_codebase true submission) in
  files <> [] ->
  Forall (fun f => all_space (FileInfo.content f) = false) files ->
  prompts client w (review_codebase true submission) =
    prompts client w (analyze_codebase files project_name)
  /\ replies endpoint = replies service
  /\ ((exists review : MultiFileReviewResponse.t,
          outcome service = Ok review
          /\ outcome endpoint = Main.Response review
          /\ MultiFileReviewResponse.project_name review = project_name
          /\ MultiFileReviewResponse.total_files review = py_len files)
      \/ (outcome service =
            Raise (OverflowError "integer division result too large for a float")
          /\ outcome endpoint =
             Main.HTTPException 500
               "Error analyzing codebase: integer division result too large for a float")).
Proof.
  intros files project_name service endpoint Hne Hcontent'.
  subst service endpoint.
  assert (Forall (fun f => Main.blank (FileInfo.content f) = false) files) as Hcontent
      by (eapply Forall_impl; [|exact Hcontent']; intros f Hf; now rewrite blank_all_space).
  unfold Main.review_codebase. fold files. fold project_name. cbn [negb].
  rewrite (find_nothing _ files Hcontent).
  destruct files as [|f fs] eqn:Hfiles; [contradiction|]. rewrite <- Hfiles.
  split.
  { rewrite prompts_pbind. cbn [prompts]. now rewrite app_nil_r. }
  destruct (run_pbind_Ret client (analyze_codebase files project_name)
              (Main.codebase_result "Error analyzing codebase: ") w) as [-> ->].
  split; [reflexivity|].
  destruct (analyze_codebase_run json_loads lax_str lax_int validation_error
              format_language client w files project_name) as (fas & cross & -> & _).
  destruct (MultiFileAnalysisService.calculate_overall_score fas) as [score|e] eqn:Hscore.
  - left. eexists. split; [reflexivity|]. split; [reflexivity|]. now split.
  - right. apply calculate_overall_score_raises in Hscore as ->. now split.
Qed.

Lemma read_uploads_undecodable (files : list UploadFile.t) :
  Exists (fun u => decode_utf8 (UploadFile.data u) = None) files ->
  Main.read_uploads decode_utf8 files = None.
Proof.
  induction 1 as [u files Hu|u files _ IH]; simpl.
  - now rewrite Hu.
  - destruct (decode_utf8 (UploadFile.data u)); [now rewrite IH | reflexivity].
Qed.

Lemma read_uploads_decoded (files : list UploadFile.t) (contents : list string) :
  map (fun u => decode_utf8 (UploadFile.data u)) files = map Some contents ->
  Main.read_uploads decode_utf8 files =
  Some (map (fun p => file_info_of_upload (UploadFile.filename (fst p)) (snd p))
            (combine files contents)).
Proof.
  revert contents. induction files as [|u files IH]; intros contents H.
  - reflexivity.
  - destruct contents as [|c contents]; [discriminate|].
    simpl in H. injection H as Hu Hrest.
    simpl. rewrite Hu, (IH contents Hrest). reflexivity.
Qed.

(** [upload_and_analyze] answers with status 400, without calling the
    model, as soon as the content of one file is not UTF-8; otherwise it
    analyses the files in the order of the upload, each under its name
    ("unknown.txt" when it has none) and with the language detected from
    that name. *)
Theorem upload_and_analyze_files (files : list UploadFile.t) (project_name : string) :
  files <> [] ->
  (Exists (fun u => decode_utf8 (UploadFile.data u) = None) files ->
   upload_and_analyze true files project_name =
   Ret (Main.HTTPException 400
          "Unable to decode file content. Please ensure files are text-based."))
  /\ (forall contents : list string,
         map (fun u => decode_utf8 (UploadFile.data u)) files = map Some contents ->
         upload_and_analyze true files project_name =
         pbind (analyze_codebase
                  (map (fun p => file_info_of_upload (UploadFile.filename (fst p)) (snd p))
                       (combine files contents))
                  project_name)
               (fun r => Ret (Main.codebase_result "Error processing uploaded files: " r))).
Proof.
  intros Hne. unfold Main.upload_and_analyze. cbn [negb].
  destruct files as [|u files]; [contradiction|].
  split.
  - intros Hbad. now rewrite (read_uploads_undecodable _ Hbad).
  - intros contents Hdec. now rewrite (read_uploads_decoded _ _ Hdec).
Qed.

End Endpoints.

Lemma review_code_after_failure_witness :
  AIService.analyze_code_try Sample.json_loads (Ok (Some "hello"))
    = Raise (ValueError "No valid JSON found in response")
  /\ Main.review_code_result Sample.lax_str Sample.lax_int Sample.validation_error
       (AIService.analyze_code_result Sample.json_loads (Ok (Some "hello")))
     = Main.Response (handler_review (ValueError "No valid JSON found in response")).
Proof.
  split; [reflexivity|].
  apply (review_code_after_failure Sample.json_loads Sample.lax_str Sample.lax_int
           Sample.validation_error (Ok (Some "hello"))
           (ValueError "No valid JSON found in response")).
  reflexivity.
Defined.

Lemma review_codebase_outcome_witness :
  let files := [Demo.file_a; Demo.file_b] in
  let submission := MultiFileSubmission.make files None in
  let client := Sample.constant_client "{}" in
  let service := run client tt (Sample.analyze_codebase files "Unnamed Project") in
  let endpoint :=
    run client tt
      (Main.review_codebase Sample.json_loads Sample.lax_str Sample.lax_int
         Sample.validation_error Sample.format_language true submission) in
  files <> []
  /\ Forall (fun f => all_space (FileInfo.content f) = false) files
  /\ replies endpoint = replies service
  /\ ((exists review : MultiFileReviewResponse.t,
          outcome service = Ok review
          /\ outcome endpoint = Main.Response review
          /\ MultiFileReviewResponse.project_name review = "Unnamed Project"
          /\ MultiFileReviewResponse.total_files review = 2)
      \/ (outcome service =
            Raise (OverflowError "integer division result too large for a float")
          /\ outcome endpoint =
             Main.HTTPException 500
               "Error analyzing codebase: integer division result too large for a float")).
Proof.
  split; [discriminate|]. split; [repeat constructor|].
  apply (proj2 (review_codebase_outcome Sample.json_loads Sample.lax_str Sample.lax_int
                  Sample.validation_error Sample.format_language
                  (Sample.constant_client "{}") tt
                  (MultiFileSubmission.make [Demo.file_a; Demo.file_b] None)
                  ltac:(discriminate) ltac:(repeat constructor))).
Defined.

Lemma upload_and_analyze_files_witness :
  [Demo.upload] <> []
  /\ map (fun u => Demo.decode_utf8 (UploadFile.data u)) [Demo.upload]
     = map Some ["class Main {}"]
  /\ Main.upload_and_analyze Sample.json_loads Sample.lax_str Sample.lax_int
       Sample.validation_error Sample.format_language Demo.decode_utf8
       true [Demo.upload] "demo"
     = pbind (Sample.analyze_codebase
                [FileInfo.make "Main.JAVA" "class Main {}" JAVA] "demo")
             (fun r => Ret (Main.codebase_result "Error processing uploaded files: " r)).
Proof.
  split; [discriminate|]. split; [reflexivity|].
  apply (proj2 (upload_and_analyze_files Sample.json_loads Sample.lax_str Sample.lax_int
                  Sample.validation_error Sample.format_language Demo.decode_utf8
                  [Demo.upload] "demo" ltac:(discriminate))
               ["class Main {}"]).
  reflexivity.
Defined.
